(** * BitcoRise earning bot: task timers, reward ledger and payout requests

    A shallow embedding of the four bot variants of the repository:

    - [BotPy]    : [src/bot.py] (task timers kept per user, withdrawals list);
    - [VpsFirst] : the first program of [src/bot_complete_vps.py]
                   (lines 1-419: referral, [/approve], [/reject]);
    - [VpsMain]  : the second program of [src/bot_complete_vps.py]
                   ("main (1).py": tasks, payout requests, admin commands);
    - [ApiBot]   : [src/unnamed/part_000] ("bot (11).py": [TaskManager] and a
                   REST backend holding the users).

    Money amounts and clock readings are Python floats in the source; they are
    modelled as rationals [Q], so rounding and overflow are left out.  The one
    float read from a user's text, the withdrawal amount of [bot.py], and the
    balances it is subtracted from are [PyFloat]s, which also have the
    infinities and NaN.  Every handler reads the clock; the reading is an
    explicit argument [now] (seconds since the epoch) of the handler.
    Sending a reply is taken not to fail, with one exception: the
    withdrawal confirmation of [bot.py] is sent after the balance was taken
    and embeds the account text of the message in Markdown, so whether
    Telegram accepted it is an input of that handler. *)

From Stdlib Require Import ZArith QArith Qround Lia Lqa String Ascii List.
From stdpp Require Import base gmap strings pretty.

Local Open Scope Z_scope.

(** ** Python numerics *)

(** [int(x)] on a float truncates towards zero. *)
Definition py_int (x : Q) : Z := Z.quot (Qnum x) (Zpos (Qden x)).

(** [a < b] on floats. *)
Definition Qlt_bool (a b : Q) : bool := negb (Qle_bool b a).

(** [max(0, x)]: Python returns the first maximal argument. *)
Definition py_max0 (x : Q) : Q := if Qlt_bool 0 x then x else 0%Q.

(** [max(0, n)] on ints. *)
Definition py_max0_int (n : Z) : Z := if 0 <? n then n else 0.

(** [datetime.date()] of a clock reading: the day number. *)
Definition date_of (t : Q) : Z := Qfloor (t / 86400)%Q.

(** Truthiness of a float ([if not task_start]): zero is falsy. *)
Definition truthy (x : Q) : bool := negb (Qeq_bool x 0).

(** A Python float as [float(text)] can return it: a number, [inf], [-inf]
    or [nan]. *)
Inductive PyFloat :=
  | Fin (q : Q)
  | PInf
  | NInf
  | NaN.

(** [a + b] on floats. *)
Definition fadd (a b : PyFloat) : PyFloat :=
  match a, b with
  | Fin x, Fin y => Fin (x + y)
  | NaN, _ | _, NaN => NaN
  | PInf, NInf | NInf, PInf => NaN
  | PInf, _ | _, PInf => PInf
  | NInf, _ | _, NInf => NInf
  end.

(** [a - b] on floats. *)
Definition fsub (a b : PyFloat) : PyFloat :=
  match a, b with
  | Fin x, Fin y => Fin (x - y)
  | NaN, _ | _, NaN => NaN
  | PInf, PInf | NInf, NInf => NaN
  | PInf, _ | _, NInf => PInf
  | NInf, _ | _, PInf => NInf
  end.

(** [a < b] on floats: every comparison with NaN is false. *)
Definition flt (a b : PyFloat) : bool :=
  match a, b with
  | Fin x, Fin y => Qlt_bool x y
  | Fin _, PInf => true
  | NInf, Fin _ => true
  | NInf, PInf => true
  | _, _ => false
  end.

(** ** Python strings *)

(** [s.startswith(p)] *)
Definition startswith (p s : string) : bool := String.prefix p s.

(** [s.split(sep)] for a one-character separator. *)
Fixpoint split_on (sep : ascii) (s : string) : list string :=
  match s with
  | EmptyString => [EmptyString]
  | String c s' =>
      if Ascii.eqb c sep then EmptyString :: split_on sep s'
      else match split_on sep s' with
           | [] => [String c EmptyString]
           | w :: ws => String c w :: ws
           end
  end.

(** [s.replace(old, "")]: every non-overlapping occurrence of [old], scanning
    from the left, is removed.  [fuel] bounds the scan by the length of [s]. *)
Fixpoint remove_all_aux (fuel : nat) (old s : string) : string :=
  match fuel with
  | O => s
  | S fuel' =>
      match s with
      | EmptyString => EmptyString
      | String c s' =>
          if String.prefix old s
          then remove_all_aux fuel' old
                 (String.substring (String.length old)
                    (String.length s - String.length old) s)
          else String c (remove_all_aux fuel' old s')
      end
  end.

Definition remove_all (old s : string) : string :=
  match old with
  | EmptyString => s
  | _ => remove_all_aux (String.length s) old s
  end.

(** ** The ledger shared by both programs of [bot_complete_vps.py]

    Both programs define [get_user], [can_earn_today], [add_earnings],
    [generate_request_id] and [create_payout_request] with the same bodies
    (lines 197-247 and 544-659). *)
Module Ledger.

(** A value of the [users] dict.  [last_activity] and [joined] are ISO
    strings of [datetime.now()]; they round-trip through [fromisoformat], so
    the clock reading itself is stored. *)
Record User := mkUser {
  balance : Q;
  total_earned : Q;
  tasks_completed : Z;
  referrals : Z;
  daily_earned : Q;
  last_activity : Q;
  joined : Q
}.

Inductive Status := pending | approved | rejected.

Definition Status_eqb (a b : Status) : bool :=
  match a, b with
  | pending, pending | approved, approved | rejected, rejected => true
  | _, _ => false
  end.

(** [admin_note]: empty at creation, the reason given by [/reject], or the
    text "Approved by admin on <time>" written by [admin_approve]. *)
Inductive Note :=
  | NoteText (s : string)
  | NoteApprovedOn (t : Q).

(** A value of the [payout_requests] dict. *)
Record PayoutRequest := mkRequest {
  user_id : Z;
  username : string;
  amount : Q;
  payment_method : string;
  payment_address : string;
  status : Status;
  created_at : Q;
  processed_at : option Q;
  admin_note : Note
}.

(** [context.user_data] of one user after a payment method was chosen. *)
Record PayoutCtx := mkCtx {
  payout_method : string;
  payout_amount : Q
}.

(** One entry of [TASKS]. *)
Record Task := mkTask {
  reward : Q;
  wait : Q
}.

(** The values read from [config.json].  [PAYOUT_MIN m] is
    [PAYOUT_CONFIG.get(f"{m}_min")]. *)
Record Config := mkConfig {
  ADMIN_ID : Z;
  MIN_WITHDRAW : Q;
  TASKS : gmap string Task;
  DAILY_LIMIT : Q;
  BONUS_REFERRAL : Q;
  PAYOUT_MIN : gmap string Q
}.

(** The module-level dictionaries.  [users] is keyed by [str(user_id)]; [str]
    is injective on ints, so the model keys it by the int.  [user_tasks] is
    keyed by [f"{user_id}_{task_key}"], which determines the pair, so the
    model keys it by the pair.  [user_data] is [context.user_data] per user:
    absent when the dict has no ['payout_method']. *)
Record State := mkState {
  users : gmap Z User;
  payout_requests : gmap string PayoutRequest;
  user_tasks : gmap (Z * string) Q;
  user_data : gmap Z PayoutCtx
}.

Definition empty_state : State := mkState ∅ ∅ ∅ ∅.

Definition set_users (st : State) (us : gmap Z User) : State :=
  mkState us (payout_requests st) (user_tasks st) (user_data st).

Definition set_requests (st : State) (rs : gmap string PayoutRequest) : State :=
  mkState (users st) rs (user_tasks st) (user_data st).

Definition set_tasks (st : State) (ts : gmap (Z * string) Q) : State :=
  mkState (users st) (payout_requests st) ts (user_data st).

Definition set_data (st : State) (ds : gmap Z PayoutCtx) : State :=
  mkState (users st) (payout_requests st) (user_tasks st) ds.

Definition new_user (now : Q) : User :=
  mkUser 0 0 0 0 0 now now.

(** [get_user(user_id)]: creates the record on first contact. *)
Definition get_user (now : Q) (uid : Z) (st : State) : State * User :=
  match users st !! uid with
  | Some u => (st, u)
  | None => (set_users st (<[uid := new_user now]> (users st)), new_user now)
  end.

Definition set_daily (u : User) (d : Q) : User :=
  mkUser (balance u) (total_earned u) (tasks_completed u) (referrals u)
         d (last_activity u) (joined u).

Definition set_balance (u : User) (b : Q) : User :=
  mkUser b (total_earned u) (tasks_completed u) (referrals u)
         (daily_earned u) (last_activity u) (joined u).

Definition incr_referrals (u : User) : User :=
  mkUser (balance u) (total_earned u) (tasks_completed u) (referrals u + 1)
         (daily_earned u) (last_activity u) (joined u).

(** [can_earn_today(user_id)]: zeroes [daily_earned] in the stored record
    when the last activity is dated before today, then compares. *)
Definition can_earn_today (cfg : Config) (now : Q) (uid : Z) (st : State)
  : State * bool :=
  let '(st1, u) := get_user now uid st in
  if date_of (last_activity u) <? date_of now
  then (set_users st1 (<[uid := set_daily u 0]> (users st1)),
        Qlt_bool 0 (DAILY_LIMIT cfg))
  else (st1, Qlt_bool (daily_earned u) (DAILY_LIMIT cfg)).

(** The record after [add_earnings]. *)
Definition credited (now : Q) (amt : Q) (u : User) : User :=
  mkUser (balance u + amt) (total_earned u + amt) (tasks_completed u + 1)
         (referrals u) (daily_earned u + amt) now (joined u).

(** [add_earnings(user_id, amount)] *)
Definition add_earnings (now : Q) (uid : Z) (amt : Q) (st : State) : State :=
  let '(st1, u) := get_user now uid st in
  set_users st1 (<[uid := credited now amt u]> (users st1)).

(** [generate_request_id()]; [rnd] is the value of
    [random.randint(1000, 9999)]. *)
Definition generate_request_id (now : Q) (rnd : Z) : string :=
  "REQ_" +:+ pretty (py_int now) +:+ "_" +:+ pretty rnd.

(** [create_payout_request(...)]: stores under the generated id, replacing
    whatever the dict held there. *)
Definition create_payout_request (now : Q) (rnd : Z) (uid : Z) (uname : string)
    (amt : Q) (method address : string) (st : State) : State * string :=
  let rid := generate_request_id now rnd in
  (set_requests st
     (<[rid := mkRequest uid uname amt method address pending now None
                 (NoteText "")]> (payout_requests st)),
   rid).

Definition set_processed (r : PayoutRequest) (s : Status) (t : Q) (n : Note)
  : PayoutRequest :=
  mkRequest (user_id r) (username r) (amount r) (payment_method r)
            (payment_address r) s (created_at r) (Some t) n.

(** [" ".join(words)] *)
Fixpoint join_sp (words : list string) : string :=
  match words with
  | [] => ""
  | [w] => w
  | w :: ws => w +:+ " " +:+ join_sp ws
  end.

(** [key in users] for a string [key]: the user id whose [str] is [key]. *)
Definition user_key (key : string) (us : gmap Z User) : option Z :=
  List.find (fun z => String.eqb (pretty z) key) (map_to_list us).*1.

(** What a handler tells the person who triggered it. *)
Inductive Reply :=
  | RIgnored                         (* the handler returned without a message *)
  | RWelcome
  | RRaised                          (* the handler raised after its effects *)
  | RDailyLimitReached
  | RTaskMenu
  | RBalanceInfo (npending : nat)
  | RPendingExists (npending : nat)  (* "You have pending payout requests!" *)
  | RInsufficientBalance
  | RPayoutOptions
  | RMyRequests
  | RInsufficientFor (method : string)
  | RAskAddress (method : string) (amt : Q)
  | RTaskCompleted (earned : Q)
  | RTaskInProgress (remaining : Z)
  | RTaskStarted
  | RInfo
  | RInvalidAddress
  | RPayoutSubmitted (rid : string) (amt : Q)
  | RAccessDenied
  | RUsage
  | RNotFound (rid : string)
  | RAlready (rid : string) (s : Status)  (* "Request <id> is already <status>." *)
  | RApproved (rid : string)
  | RRejected (rid : string).

(** The referral step of [start]: [args[0]] names the referrer. *)
Definition referral (cfg : Config) (now : Q) (uid : Z) (args : list string)
    (st : State) : State :=
  match args with
  | [] => st
  | referrer_id :: _ =>
      if negb (String.eqb referrer_id (pretty uid)) then
        match user_key referrer_id (users st) with
        | None => st
        | Some rk =>
            match users st !! rk with
            | None => st
            | Some r =>
                add_earnings now rk (BONUS_REFERRAL cfg)
                  (set_users st (<[rk := incr_referrals r]> (users st)))
            end
        end
      else st
  end.

(** [start(update, context)] for the [/start] command. *)
Definition start (cfg : Config) (now : Q) (uid : Z) (args : list string)
    (st : State) : State * Reply :=
  let '(st1, _) := get_user now uid st in
  (referral cfg now uid args st1, RWelcome).

End Ledger.

(** ** First program of [bot_complete_vps.py] (lines 1-419) *)
Module VpsFirst.
Import Ledger.

(** [button]: only ["back_to_menu"] is handled; it calls [start], whose
    [update.message] is absent for a callback query, so the call raises after
    [get_user]. *)
Definition button (cfg : Config) (now : Q) (uid : Z) (data : string)
    (st : State) : State * Reply :=
  if String.eqb data "back_to_menu"
  then (fst (get_user now uid st), RRaised)
  else (st, RIgnored).

(** [approve_payout] *)
Definition approve_payout (cfg : Config) (now : Q) (caller : Z)
    (args : list string) (st : State) : State * Reply :=
  if negb (caller =? ADMIN_ID cfg) then (st, RIgnored) else
  match args with
  | [] => (st, RUsage)
  | request_id :: _ =>
      match payout_requests st !! request_id with
      | None => (st, RNotFound request_id)
      | Some request =>
          if negb (Status_eqb (status request) pending)
          then (st, RAlready request_id (status request))
          else
            (set_requests st
               (<[request_id := set_processed request approved now
                                  (admin_note request)]> (payout_requests st)),
             RApproved request_id)
      end
  end.

(** [reject_payout].  The balance is given back only [if user_id in users];
    the message for the user then reads [users[...]['balance']], which raises
    [KeyError] when the record is missing, after the state was saved. *)
Definition reject_payout (cfg : Config) (now : Q) (caller : Z)
    (args : list string) (st : State) : State * Reply :=
  if negb (caller =? ADMIN_ID cfg) then (st, RIgnored) else
  match args with
  | [] | [_] => (st, RUsage)
  | request_id :: rest =>
      let reason := join_sp rest in
      match payout_requests st !! request_id with
      | None => (st, RNotFound request_id)
      | Some request =>
          if negb (Status_eqb (status request) pending)
          then (st, RAlready request_id (status request))
          else
            let st1 :=
              set_requests st
                (<[request_id := set_processed request rejected now
                                   (NoteText reason)]> (payout_requests st)) in
            match users st1 !! user_id request with
            | Some u =>
                (set_users st1
                   (<[user_id request :=
                        set_balance u (balance u + amount request)]>
                      (users st1)),
                 RRejected request_id)
            | None => (st1, RRaised)
            end
      end
  end.

End VpsFirst.

(** ** Second program of [bot_complete_vps.py] ("main (1).py", lines 421-1259) *)
Module VpsMain.
Import Ledger.

(** [start_task_timer(user_id, task_key)] *)
Definition start_task_timer (now : Q) (uid : Z) (task_key : string)
    (st : State) : State :=
  set_tasks st (<[(uid, task_key) := now]> (user_tasks st)).

(** [is_task_completed(user_id, task_key)]; [w] is [TASKS[task_key]["wait"]]. *)
Definition is_task_completed (now : Q) (w : Q) (uid : Z) (task_key : string)
    (st : State) : bool :=
  match user_tasks st !! (uid, task_key) with
  | None => false
  | Some task_start =>
      if truthy task_start then Qle_bool w (now - task_start) else false
  end.

(** [get_remaining_time(user_id, task_key)] *)
Definition get_remaining_time (now : Q) (w : Q) (uid : Z) (task_key : string)
    (st : State) : Z :=
  match user_tasks st !! (uid, task_key) with
  | None => 0
  | Some task_start =>
      if truthy task_start
      then py_int (py_max0 (w - (now - task_start)))
      else 0
  end.

(** [get_user_pending_requests(user_id)] *)
Definition get_user_pending_requests (uid : Z) (st : State)
  : list PayoutRequest :=
  List.filter (fun req => (user_id req =? uid) && Status_eqb (status req) pending)
    (map_to_list (payout_requests st)).*2.

(** The branch [elif data in TASKS] of [button]: the one callback both
    starts a task and claims its reward. *)
Definition task_button (cfg : Config) (now : Q) (uid : Z) (task_key : string)
    (task : Task) (st : State) : State * Reply :=
  let '(st1, ok) := can_earn_today cfg now uid st in
  if negb ok then (st1, RDailyLimitReached) else
  match user_tasks st1 !! (uid, task_key) with
  | Some _ =>
      if is_task_completed now (wait task) uid task_key st1 then
        let st2 := add_earnings now uid (reward task) st1 in
        (set_tasks st2 (delete (uid, task_key) (user_tasks st2)),
         RTaskCompleted (reward task))
      else
        (st1, RTaskInProgress (get_remaining_time now (wait task) uid task_key st1))
  | None => (start_task_timer now uid task_key st1, RTaskStarted)
  end.

(** The branch [elif data == "payout"] of [button]. *)
Definition payout_menu (cfg : Config) (uid : Z) (user : User) (st : State)
  : State * Reply :=
  let pending_requests := get_user_pending_requests uid st in
  match pending_requests with
  | _ :: _ => (st, RPendingExists (List.length pending_requests))
  | [] =>
      if Qlt_bool (balance user) (MIN_WITHDRAW cfg)
      then (st, RInsufficientBalance)
      else (st, RPayoutOptions)
  end.

(** The branch [elif data.startswith("payout_")] of [button]: remembers the
    method and the whole current balance as the amount to pay out. *)
Definition payout_method_chosen (cfg : Config) (uid : Z) (data : string)
    (user : User) (st : State) : State * Reply :=
  match split_on "_" data with
  | _ :: method :: _ =>
      let min_amount := default (MIN_WITHDRAW cfg) (PAYOUT_MIN cfg !! method) in
      if Qlt_bool (balance user) min_amount
      then (st, RInsufficientFor method)
      else
        (set_data st (<[uid := mkCtx method (balance user)]> (user_data st)),
         RAskAddress method (balance user))
  | _ => (st, RRaised)
  end.

(** [button(update, context)] *)
Definition button (cfg : Config) (now : Q) (uid : Z) (data : string)
    (st : State) : State * Reply :=
  let '(st1, user) := get_user now uid st in
  if String.eqb data "tasks" then
    let '(st2, ok) := can_earn_today cfg now uid st1 in
    (st2, if ok then RTaskMenu else RDailyLimitReached)
  else if String.eqb data "balance" then
    (st1, RBalanceInfo (List.length (get_user_pending_requests uid st1)))
  else if String.eqb data "payout" then payout_menu cfg uid user st1
  else if String.eqb data "my_requests" then (st1, RMyRequests)
  else if startswith "payout_" data then payout_method_chosen cfg uid data user st1
  else match TASKS cfg !! data with
  | Some task => task_button cfg now uid data task st1
  | None =>
      if String.eqb data "referrals" then (st1, RInfo)
      else if String.eqb data "help" then (st1, RInfo)
      else if String.eqb data "back_to_menu" then (st1, RRaised)
      else (st1, RIgnored)
  end.

(** [handle_payout_address(update, context)]; [address] is the stripped
    message text. *)
Definition handle_payout_address (cfg : Config) (now : Q) (rnd : Z) (uid : Z)
    (uname : string) (address : string) (st : State) : State * Reply :=
  match user_data st !! uid with
  | None => (st, RIgnored)
  | Some ctx =>
      if (String.length address <? 5)%nat then (st, RInvalidAddress) else
      let '(st1, request_id) :=
        create_payout_request now rnd uid uname (payout_amount ctx)
          (payout_method ctx) address st in
      let '(st2, user) := get_user now uid st1 in
      let st3 := set_users st2 (<[uid := set_balance user 0]> (users st2)) in
      (set_data st3 (delete uid (user_data st3)),
       RPayoutSubmitted request_id (payout_amount ctx))
  end.

(** [admin_approve] *)
Definition admin_approve (cfg : Config) (now : Q) (caller : Z)
    (args : list string) (st : State) : State * Reply :=
  if negb (caller =? ADMIN_ID cfg) then (st, RAccessDenied) else
  match args with
  | [] => (st, RUsage)
  | request_id :: _ =>
      match payout_requests st !! request_id with
      | None => (st, RNotFound request_id)
      | Some req =>
          if negb (Status_eqb (status req) pending)
          then (st, RAlready request_id (status req))
          else
            (set_requests st
               (<[request_id := set_processed req approved now
                                  (NoteApprovedOn now)]> (payout_requests st)),
             RApproved request_id)
      end
  end.

(** [admin_reject] *)
Definition admin_reject (cfg : Config) (now : Q) (caller : Z)
    (args : list string) (st : State) : State * Reply :=
  if negb (caller =? ADMIN_ID cfg) then (st, RAccessDenied) else
  match args with
  | [] => (st, RUsage)
  | request_id :: rest =>
      let reason := match rest with
                    | [] => "No reason provided"
                    | _ => join_sp rest
                    end in
      match payout_requests st !! request_id with
      | None => (st, RNotFound request_id)
      | Some req =>
          if negb (Status_eqb (status req) pending)
          then (st, RAlready request_id (status req))
          else
            let st1 :=
              set_requests st
                (<[request_id := set_processed req rejected now
                                   (NoteText reason)]> (payout_requests st)) in
            let '(st2, user) := get_user now (user_id req) st1 in
            (set_users st2
               (<[user_id req := set_balance user (balance user + amount req)]>
                  (users st2)),
             RRejected request_id)
      end
  end.

(** The updates the bot receives. *)
Inductive Op :=
  | OpStart (uid : Z) (args : list string)
  | OpButton (uid : Z) (data : string)
  | OpAddress (rnd : Z) (uid : Z) (uname address : string)
  | OpApprove (caller : Z) (args : list string)
  | OpReject (caller : Z) (args : list string).

Definition step (cfg : Config) (now : Q) (op : Op) (st : State)
  : State * Reply :=
  match op with
  | OpStart uid args => start cfg now uid args st
  | OpButton uid data => button cfg now uid data st
  | OpAddress rnd uid uname address =>
      handle_payout_address cfg now rnd uid uname address st
  | OpApprove caller args => admin_approve cfg now caller args st
  | OpReject caller args => admin_reject cfg now caller args st
  end.

(** A run: each update comes with the clock reading at which it arrives. *)
Fixpoint run (cfg : Config) (ops : list (Q * Op)) (st : State) : State :=
  match ops with
  | [] => st
  | (now, op) :: ops' => run cfg ops' (fst (step cfg now op st))
  end.

End VpsMain.

(** ** [src/bot.py] *)
Module BotPy.

(** A value of the [users] dict.  [last_reset] is [str(datetime.date.today())],
    kept as the day number. *)
Record User := mkUser {
  username : string;
  name : string;
  balance : PyFloat;
  ref : option string;
  completed_tasks : list string;
  last_reset : Z;
  join_date : Q
}.

(** An element of the [withdrawals] list; its status is always ["pending"]. *)
Record Withdrawal := mkWithdrawal {
  w_uid : Z;
  w_username : string;
  w_method : string;
  w_account : string;
  w_amount : PyFloat;
  w_timestamp : Q
}.

Record Task := mkTask {
  reward : Q;
  wait : Q
}.

(** [config.json]: here [MIN_WITHDRAW] is a dict from method to minimum and
    [DAILY_LIMIT] a number of tasks. *)
Record Config := mkConfig {
  ADMIN_ID : Z;
  MIN_WITHDRAW : gmap string Q;
  TASKS : gmap string Task;
  DAILY_LIMIT : Z;
  BONUS_REFERRAL : Q
}.

(** [users] is keyed by [str(uid)] (modelled by the int), [user_tasks] maps
    a user to the start times of that user's running tasks. *)
Record State := mkState {
  users : gmap Z User;
  withdrawals : list Withdrawal;
  user_tasks : gmap Z (gmap string Q)
}.

Definition empty_state : State := mkState ∅ [] ∅.

Definition set_users (st : State) (us : gmap Z User) : State :=
  mkState us (withdrawals st) (user_tasks st).

Definition set_tasks (st : State) (ts : gmap Z (gmap string Q)) : State :=
  mkState (users st) (withdrawals st) ts.

Definition set_balance (u : User) (b : PyFloat) : User :=
  mkUser (username u) (name u) b (ref u) (completed_tasks u) (last_reset u)
         (join_date u).

Inductive Reply :=
  | RWelcome
  | RDailyLimitReached
  | RAlreadyCompletedToday
  | RTaskStarted
  | RPleaseWait (remaining : Q)      (* "PLEASE WAIT! ... Time remaining" *)
  | RTaskCompleted (earned : Q)
  | RInfo
  | RNothing
  | RErrorOccurred                   (* the [except] branch of the handler *)
  | RUseStartFirst
  | RInvalidAmount
  | RInvalidMethod
  | RBelowMinimum
  | RInsufficientBalance
  | RWithdrawalSubmitted (amt : PyFloat)
  | RUnknownCommand.

(** [reset_daily_tasks()] *)
Definition reset_daily_tasks (now : Q) (st : State) : State :=
  set_users st
    ((fun u => if last_reset u =? date_of now then u
               else mkUser (username u) (name u) (balance u) (ref u) []
                           (date_of now) (join_date u))
       <$> users st).

(** [is_task_completed(uid, task_key)]; [w] is [TASKS[task_key]["wait"]]. *)
Definition is_task_completed (now : Q) (w : Q) (uid : Z) (task_key : string)
    (st : State) : bool :=
  match user_tasks st !! uid ≫= (fun ts => ts !! task_key) with
  | None => false
  | Some task_start_time => Qle_bool w (now - task_start_time)
  end.

(** [start_task_timer(uid, task_key)] *)
Definition start_task_timer (now : Q) (uid : Z) (task_key : string)
    (st : State) : State :=
  set_tasks st
    (<[uid := <[task_key := now]> (default ∅ (user_tasks st !! uid))]>
       (user_tasks st)).

(** [get_remaining_time(uid, task_key)]: the whole required wait when the
    task was not started. *)
Definition get_remaining_time (now : Q) (w : Q) (uid : Z) (task_key : string)
    (st : State) : Q :=
  match user_tasks st !! uid ≫= (fun ts => ts !! task_key) with
  | None => w
  | Some task_start_time =>
      inject_Z (py_int (py_max0 (w - (now - task_start_time))))
  end.

(** [ref.isdigit()] on ASCII text. *)
Definition is_digit (c : ascii) : bool :=
  let n := nat_of_ascii c in (48 <=? n)%nat && (n <=? 57)%nat.

Fixpoint all_digits (s : string) : bool :=
  match s with
  | EmptyString => true
  | String c s' => is_digit c && all_digits s'
  end.

Definition isdigit (s : string) : bool :=
  match s with
  | EmptyString => false
  | _ => all_digits s
  end.

Definition user_key (key : string) (us : gmap Z User) : option Z :=
  List.find (fun z => String.eqb (pretty z) key) (map_to_list us).*1.

(** The lazy creation at the top of [start] and [handle_callback]. *)
Definition ensure_user (now : Q) (uid : Z) (uname nm : string)
    (r : option string) (st : State) : State :=
  match users st !! uid with
  | Some _ => st
  | None =>
      set_users st
        (<[uid := mkUser uname nm (Fin 0) r [] (date_of now) now]> (users st))
  end.

(** The referral bonus of [start]: paid when the new record was created and
    [ref] is a digit string naming a stored user. *)
Definition referral_bonus (cfg : Config) (r : option string) (st : State)
  : State :=
  match r with
  | None => st
  | Some rf =>
      if isdigit rf then
        match user_key rf (users st) with
        | None => st
        | Some rk =>
            match users st !! rk with
            | None => st
            | Some ru =>
                set_users st
                  (<[rk := set_balance ru
                             (fadd (balance ru) (Fin (BONUS_REFERRAL cfg)))]>
                     (users st))
            end
        end
      else st
  end.

(** [start(update, context)] *)
Definition start (cfg : Config) (now : Q) (uid : Z) (uname nm : string)
    (args : list string) (st : State) : State * Reply :=
  let r := match args with [] => None | a :: _ => Some a end in
  let st1 :=
    match users st !! uid with
    | Some _ => st
    | None => referral_bonus cfg r (ensure_user now uid uname nm r st)
    end in
  (reset_daily_tasks now st1, RWelcome).

(** The branch [if data in TASKS] of [handle_callback]: starts the timer. *)
Definition task_chosen (cfg : Config) (now : Q) (uid : Z) (data : string)
    (u : User) (st : State) : State * Reply :=
  if Z.of_nat (List.length (completed_tasks u)) >=? DAILY_LIMIT cfg
  then (st, RDailyLimitReached)
  else if existsb (String.eqb data) (completed_tasks u)
  then (st, RAlreadyCompletedToday)
  else (start_task_timer now uid data st, RTaskStarted).

(** The branch [elif data.startswith("verify_")] of [handle_callback], after
    [task_key] was cut out of the callback data: the reward claim. *)
Definition verify (cfg : Config) (now : Q) (uid : Z) (task_key : string)
    (st : State) : State * Reply :=
  match TASKS cfg !! task_key with
  | None => (st, RErrorOccurred)
  | Some task =>
      if negb (is_task_completed now (wait task) uid task_key st)
      then (st, RPleaseWait (get_remaining_time now (wait task) uid task_key st))
      else
        match users st !! uid with
        | None => (st, RErrorOccurred)
        | Some u =>
            let u' := mkUser (username u) (name u)
                        (fadd (balance u) (Fin (reward task)))
                        (ref u) (completed_tasks u ++ [task_key])
                        (last_reset u) (join_date u) in
            let st1 := set_users st (<[uid := u']> (users st)) in
            (set_tasks st1
               (match user_tasks st1 !! uid with
                | Some ts => <[uid := delete task_key ts]> (user_tasks st1)
                | None => user_tasks st1
                end),
             RTaskCompleted (reward task))
        end
  end.

(** [handle_callback(update, context)] *)
Definition handle_callback (cfg : Config) (now : Q) (uid : Z)
    (uname nm : string) (data : string) (st : State) : State * Reply :=
  let st1 := reset_daily_tasks now (ensure_user now uid uname nm None st) in
  match users st1 !! uid with
  | None => (st1, RErrorOccurred)
  | Some u =>
      match TASKS cfg !! data with
      | Some _ => task_chosen cfg now uid data u st1
      | None =>
          if startswith "verify_" data
          then verify cfg now uid (remove_all "verify_" data) st1
          else if String.eqb data "balance" then (st1, RInfo)
          else if String.eqb data "withdraw" then (st1, RInfo)
          else if String.eqb data "contact" then (st1, RInfo)
          else if String.eqb data "back_to_menu" then (st1, RInfo)
          else (st1, RNothing)
      end
  end.

(** The text of a message after [msg.split()]: three parts, the third read
    by [float], or any other number of parts.  [amt] is [None] when [float]
    raises and otherwise the float it returns, which is a number, an
    infinity or NaN ([float] accepts the texts "inf", "-inf" and "nan").
    [method] is already lower-cased. *)
Inductive Message :=
  | MsgWithdraw (method account : string) (amt : option PyFloat)
  | MsgOther.

(** [handle_message(update, context)]: the withdrawal request.  The two
    guards are float comparisons, [amount < MIN_WITHDRAW[method]] and
    [users[uid_str]["balance"] < amount].  The confirmation is sent after
    the balance was taken and the entry appended; it embeds the account
    text of the message in Markdown, which Telegram may refuse.  [sent]
    tells whether it was accepted: when sending it raises, the [except]
    branch of the handler answers "An error occurred. Please try again.". *)
Definition handle_message (cfg : Config) (now : Q) (uid : Z) (msg : Message)
    (sent : bool) (st : State) : State * Reply :=
  match users st !! uid with
  | None => (st, RUseStartFirst)
  | Some u =>
      match msg with
      | MsgOther => (st, RUnknownCommand)
      | MsgWithdraw method account None => (st, RInvalidAmount)
      | MsgWithdraw method account (Some amt) =>
          match MIN_WITHDRAW cfg !! method with
          | None => (st, RInvalidMethod)
          | Some m =>
              if flt amt (Fin m) then (st, RBelowMinimum)
              else if flt (balance u) amt then (st, RInsufficientBalance)
              else
                (mkState
                   (<[uid := set_balance u (fsub (balance u) amt)]> (users st))
                   (withdrawals st ++
                      [mkWithdrawal uid (username u) method account amt now])
                   (user_tasks st),
                 if sent then RWithdrawalSubmitted amt else RErrorOccurred)
          end
      end
  end.

(** An update: [/start], a button, or a text message; for a message, also
    whether Telegram accepted the confirmation. *)
Inductive Op :=
  | OpStart (uid : Z) (uname nm : string) (args : list string)
  | OpCallback (uid : Z) (uname nm : string) (data : string)
  | OpMessage (uid : Z) (msg : Message) (sent : bool).

Definition step (cfg : Config) (now : Q) (op : Op) (st : State)
  : State * Reply :=
  match op with
  | OpStart uid uname nm args => start cfg now uid uname nm args st
  | OpCallback uid uname nm data => handle_callback cfg now uid uname nm data st
  | OpMessage uid msg sent => handle_message cfg now uid msg sent st
  end.

Fixpoint run (cfg : Config) (ops : list (Q * Op)) (st : State) : State :=
  match ops with
  | [] => st
  | (now, op) :: ops' => run cfg ops' (fst (step cfg now op st))
  end.

End BotPy.

(** ** [src/unnamed/part_000] ("bot (11).py") *)
Module ApiBot.

(** What [fromisoformat] makes of a document's ['lastActivity']. *)
Inductive LastActivity :=
  | NoActivity                 (* the field is missing or empty *)
  | BadActivity                (* [fromisoformat] raises [ValueError] *)
  | ActivityOn (day : Z).      (* the date of the parsed timestamp *)

(** A user document of the backend.  The bot reads every field with
    [user.get(field, default)], so each one may be missing. *)
Record User := mkUser {
  balance : option Q;
  totalEarned : option Q;
  tasksCompleted : option Z;
  referrals : option Z;
  dailyEarned : option Q;
  lastActivity : LastActivity
}.

(** An element of the list answered by [GET /tasks]. *)
Record Task := mkTask {
  key : string;
  waitTime : option Q
}.

(** Modelled from the spec: the REST backend behind [api] is not in the
    sources.  Following the spec's Ledger Store ("durable key-value state
    for Users, keyed by user id") it is a map of user documents: [GET
    /users/<id>] answers the stored document, or nothing (the [{}] of
    [APIClient.get]) when there is none, and [PATCH /users/<id>] overwrites
    the listed fields of a stored document and answers the result.
    [active_tasks] is the dict of [TaskManager]. *)
Record State := mkState {
  active_tasks : gmap Z (gmap string Q);
  api_users : gmap Z User;
  api_tasks : list Task
}.

Definition set_active (st : State) (a : gmap Z (gmap string Q)) : State :=
  mkState a (api_users st) (api_tasks st).

Definition set_api_users (st : State) (us : gmap Z User) : State :=
  mkState (active_tasks st) us (api_tasks st).

(** [TaskManager.start_task] without its call to the backend. *)
Definition start_task (now : Q) (user_id : Z) (task_key : string) (st : State)
  : State :=
  set_active st
    (<[user_id := <[task_key := now]> (default ∅ (active_tasks st !! user_id))]>
       (active_tasks st)).

(** [TaskManager.is_task_completed] *)
Definition is_task_completed (now : Q) (user_id : Z) (task_key : string)
    (wait_time : Q) (st : State) : bool :=
  match active_tasks st !! user_id ≫= (fun ts => ts !! task_key) with
  | None => false
  | Some started => Qle_bool wait_time (now - started)
  end.

(** [TaskManager.get_remaining_time] *)
Definition get_remaining_time (now : Q) (user_id : Z) (task_key : string)
    (wait_time : Q) (st : State) : Z :=
  match active_tasks st !! user_id ≫= (fun ts => ts !! task_key) with
  | None => 0
  | Some started => py_max0_int (py_int (wait_time - (now - started)))
  end.

(** [TaskManager.complete_task] *)
Definition complete_task (user_id : Z) (task_key : string) (st : State)
  : State :=
  match active_tasks st !! user_id with
  | Some ts =>
      match ts !! task_key with
      | Some _ => set_active st (<[user_id := delete task_key ts]> (active_tasks st))
      | None => st
      end
  | None => st
  end.

(** [can_earn_today(user, daily_limit)]; [today] is [datetime.date.today()]. *)
Definition can_earn_today (today : Z) (user : User) (daily_limit : Q) : bool :=
  let daily_earned := default 0%Q (dailyEarned user) in
  match lastActivity user with
  | ActivityOn last_date =>
      if last_date <? today then true else Qlt_bool daily_earned daily_limit
  | _ => Qlt_bool daily_earned daily_limit
  end.

(** The [updates] dict built by [add_user_earnings], applied to a document
    as [PATCH] does. *)
Definition earnings_update (amt : Q) (user : User) : User :=
  mkUser (Some (default 0%Q (balance user) + amt)%Q)
         (Some (default 0%Q (totalEarned user) + amt)%Q)
         (Some (default 0 (tasksCompleted user) + 1))
         (referrals user)
         (Some (default 0%Q (dailyEarned user) + amt)%Q)
         (lastActivity user).

(** [add_user_earnings(user_id, amount)] *)
Definition add_user_earnings (user_id : Z) (amt : Q) (st : State)
  : State * bool :=
  match api_users st !! user_id with
  | None => (st, false)
  | Some user =>
      (set_api_users st (<[user_id := earnings_update amt user]> (api_users st)),
       true)
  end.

Inductive Reply :=
  | RTaskNotFound                   (* "Task not found!" *)
  | RPleaseWait (remaining : Z)     (* "Please wait ... more to claim your reward!" *)
  | RTaskNotStarted                 (* "Task not started yet! Please start the task first." *)
  | RCongratulations (earned : Q)
  | RFailedToProcess                (* "Failed to process reward. Please try again." *)
  | RTaskStarted
  | RFailedToStart.

(** The loop [for t in tasks: if t.get('key') == task_key]. *)
Definition find_task (task_key : string) (st : State) : option Task :=
  List.find (fun t => String.eqb (key t) task_key) (api_tasks st).

(** [handle_task_claim], after [task_key] was cut out of the callback data. *)
Definition claim (now : Q) (user_id : Z) (task_key : string)
    (task_rewards : gmap string Q) (st : State) : State * Reply :=
  match find_task task_key st with
  | None => (st, RTaskNotFound)
  | Some task =>
      let wait_time := default 30%Q (waitTime task) in
      let reward := default 0%Q (task_rewards !! task_key) in
      if negb (is_task_completed now user_id task_key wait_time st) then
        let remaining_time := get_remaining_time now user_id task_key wait_time st in
        if 0 <? remaining_time then (st, RPleaseWait remaining_time)
        else (st, RTaskNotStarted)
      else
        let '(st1, success) := add_user_earnings user_id reward st in
        if success then (complete_task user_id task_key st1, RCongratulations reward)
        else (st1, RFailedToProcess)
  end.

(** [handle_task_claim(query, data, ...)] *)
Definition handle_task_claim (now : Q) (data : string) (user_id : Z)
    (task_rewards : gmap string Q) (st : State) : State * Reply :=
  claim now user_id (remove_all "claim_task_" data) task_rewards st.

(** [handle_task_confirm]: starts the timer; [posted] tells whether the
    backend accepted the new user task. *)
Definition handle_task_confirm (now : Q) (posted : bool) (data : string)
    (user_id : Z) (st : State) : State * Reply :=
  (start_task now user_id (remove_all "confirm_task_" data) st,
   if posted then RTaskStarted else RFailedToStart).

(** The referral step of [start]: the bonus goes through
    [add_user_earnings], then the referral count read before is patched. *)
Definition referral (referrer_id : Z) (referral_bonus : Q) (st : State)
  : State :=
  match api_users st !! referrer_id with
  | None => st
  | Some referrer =>
      let '(st1, _) := add_user_earnings referrer_id referral_bonus st in
      match api_users st1 !! referrer_id with
      | None => st1
      | Some u =>
          set_api_users st1
            (<[referrer_id :=
                 mkUser (balance u) (totalEarned u) (tasksCompleted u)
                        (Some (default 0 (referrals referrer) + 1))
                        (dailyEarned u) (lastActivity u)]> (api_users st1))
      end
  end.

End ApiBot.

(** ** Predicates used by the statements *)

(** An update does not reuse the id of a stored payout request. *)
Definition fresh_id (now : Q) (op : VpsMain.Op) (st : Ledger.State) : Prop :=
  match op with
  | VpsMain.OpAddress rnd _ _ _ =>
      Ledger.payout_requests st !! Ledger.generate_request_id now rnd = None
  | _ => True
  end.

Fixpoint fresh_run (cfg : Ledger.Config) (ops : list (Q * VpsMain.Op))
    (st : Ledger.State) : Prop :=
  match ops with
  | [] => True
  | (now, op) :: ops' =>
      fresh_id now op st /\ fresh_run cfg ops' (fst (VpsMain.step cfg now op st))
  end.

(** Rewards and the referral bonus of [config.json] are not negative. *)
Definition config_nonneg (cfg : Ledger.Config) : Prop :=
  map_Forall (fun _ t => (0 <= Ledger.reward t)%Q) (Ledger.TASKS cfg) /\
  (0 <= Ledger.BONUS_REFERRAL cfg)%Q.

(** No stored balance is negative, and neither is an amount waiting to be
    paid out or remembered for the address step. *)
Definition ledger_nonneg (st : Ledger.State) : Prop :=
  map_Forall (fun _ u => (0 <= Ledger.balance u)%Q) (Ledger.users st) /\
  map_Forall (fun _ r => (0 <= Ledger.amount r)%Q) (Ledger.payout_requests st) /\
  map_Forall (fun _ c => (0 <= Ledger.payout_amount c)%Q) (Ledger.user_data st).

Definition botpy_config_nonneg (cfg : BotPy.Config) : Prop :=
  map_Forall (fun _ t => (0 <= BotPy.reward t)%Q) (BotPy.TASKS cfg) /\
  (0 <= BotPy.BONUS_REFERRAL cfg)%Q.

(** A float that is a number greater than or equal to 0. *)
Definition nonneg_number (x : PyFloat) : Prop :=
  match x with
  | Fin q => (0 <= q)%Q
  | _ => False
  end.

(** A float that is a number: not an infinity and not NaN. *)
Definition is_number (x : PyFloat) : Prop :=
  match x with
  | Fin _ => True
  | _ => False
  end.

(** Every stored balance of [bot.py] has the property [P]. *)
Definition botpy_balances (P : PyFloat -> Prop) (st : BotPy.State) : Prop :=
  map_Forall (fun _ u => P (BotPy.balance u)) (BotPy.users st).

(** Every stored balance of [bot.py] is a number that is not negative. *)
Definition botpy_nonneg (st : BotPy.State) : Prop :=
  botpy_balances nonneg_number st.

(** Every stored balance of [bot.py] is a number. *)
Definition botpy_numbers (st : BotPy.State) : Prop :=
  botpy_balances is_number st.

(** The amount of a withdrawal message is not NaN: [float] raised, or
    returned a number or an infinity. *)
Definition amount_not_nan (op : BotPy.Op) : Prop :=
  match op with
  | BotPy.OpMessage _ (BotPy.MsgWithdraw _ _ (Some NaN)) _ => False
  | _ => True
  end.

(** No withdrawal message of a run asks for the amount NaN. *)
Definition amounts_not_nan (ops : list (Q * BotPy.Op)) : Prop :=
  Forall (fun o => amount_not_nan o.2) ops.

(** What an accepted withdrawal of [amt] by user [uid], stored as [u],
    does to the state of [bot.py]: both guards were false, the amount is
    subtracted from the balance, one entry is appended and the timers are
    kept.  When the balance is a number and the amount is not NaN, the
    amount is a number between the minimum [m] and the balance. *)
Definition withdrawal_recorded (cfg : BotPy.Config) (now : Q) (uid : Z)
    (u : BotPy.User) (method account : string) (amt : PyFloat) (m : Q)
    (st st' : BotPy.State) : Prop :=
  BotPy.users st !! uid = Some u /\
  BotPy.MIN_WITHDRAW cfg !! method = Some m /\
  flt amt (Fin m) = false /\
  flt (BotPy.balance u) amt = false /\
  BotPy.users st'
    = <[uid := BotPy.set_balance u (fsub (BotPy.balance u) amt)]> (BotPy.users st) /\
  BotPy.withdrawals st'
    = BotPy.withdrawals st ++
        [BotPy.mkWithdrawal uid (BotPy.username u) method account amt now] /\
  BotPy.user_tasks st' = BotPy.user_tasks st /\
  (forall b, BotPy.balance u = Fin b -> amt <> NaN ->
     exists a, amt = Fin a /\ (m <= a)%Q /\ (a <= b)%Q /\
               fsub (BotPy.balance u) amt = Fin (b - a)).

(** ** Concrete configurations and states used by the examples *)

Definition cfg0 : Ledger.Config :=
  Ledger.mkConfig 1 5 {["like" := Ledger.mkTask 1 30]} 100 1
    {["faucetpay" := (1 # 20)%Q]}.

(** A user with balance 10 who was last active at second 1000000. *)
Definition user10 : Ledger.User := Ledger.mkUser 10 10 10 0 0 1000000 1000000.

Definition st10 : Ledger.State := Ledger.mkState {[42 := user10]} ∅ ∅ ∅.

Definition req_pending : Ledger.PayoutRequest :=
  Ledger.mkRequest 42 "bob" 10 "faucetpay" "addr@x.y" Ledger.pending 1000050
    None (Ledger.NoteText "").

Definition req_done : Ledger.PayoutRequest :=
  Ledger.mkRequest 42 "bob" 10 "faucetpay" "addr@x.y" Ledger.approved 1000050
    (Some 1000060%Q) (Ledger.NoteApprovedOn 1000060).

(** The user asked for a payout of the whole balance; the request waits. *)
Definition st_pending : Ledger.State :=
  Ledger.mkState {[42 := Ledger.set_balance user10 0]}
    {["REQ_1000050_1234" := req_pending]} ∅ ∅.

(** The same request after it was approved. *)
Definition st_done : Ledger.State :=
  Ledger.mkState {[42 := Ledger.set_balance user10 0]}
    {["REQ_1000050_1234" := req_done]} ∅ ∅.

(** A pending request whose user has no record. *)
Definition st_orphan : Ledger.State :=
  Ledger.mkState ∅ {["REQ_1000050_1234" := req_pending]} ∅ ∅.

Definition admin_ops : list (Q * VpsMain.Op) :=
  [ (1000070%Q, VpsMain.OpReject 1 ["REQ_1000050_1234"; "late"]);
    (1000080%Q, VpsMain.OpApprove 1 ["REQ_1000050_1234"]);
    (1000090%Q, VpsMain.OpButton 42 "payout") ].

(** The start time of the running attempt of a user at a task, if any, in
    the nested dicts of [bot.py] and of [TaskManager]. *)
Definition botpy_attempt (st : BotPy.State) (uid : Z) (task_key : string)
  : option Q :=
  BotPy.user_tasks st !! uid ≫= (fun ts => ts !! task_key).

Definition api_attempt (st : ApiBot.State) (uid : Z) (task_key : string)
  : option Q :=
  ApiBot.active_tasks st !! uid ≫= (fun ts => ts !! task_key).

(** The outcomes of a reward claim that the specification tells apart. *)
Inductive ClaimOutcome :=
  | TaskNotStarted
  | TaskStillWaiting (remaining : Q)
  | Claimed (earned : Q)
  | TimerStarted
  | OtherOutcome.


Definition api_outcome (r : ApiBot.Reply) : ClaimOutcome :=
  match r with
  | ApiBot.RTaskNotStarted => TaskNotStarted
  | ApiBot.RPleaseWait remaining => TaskStillWaiting (inject_Z remaining)
  | ApiBot.RCongratulations earned => Claimed earned
  | ApiBot.RTaskStarted => TimerStarted
  | _ => OtherOutcome
  end.


Definition bcfg0 : BotPy.Config :=
  BotPy.mkConfig 1 {["faucetpay" := (1 # 20)%Q]} {["like" := BotPy.mkTask 1 30]}
    10 1.

(** A [bot.py] user who started the task "like" at second 1000000. *)
Definition bst_started : BotPy.State :=
  BotPy.mkState {[42 := BotPy.mkUser "bob" "Bob" (Fin 0) None [] 11 1000000]} []
    {[42 := {["like" := 1000000%Q]}]}.

Definition ast_started : ApiBot.State :=
  ApiBot.mkState {[42 := {["like" := 1000000%Q]}]}
    {[42 := ApiBot.mkUser (Some 0%Q) (Some 0%Q) (Some 0) (Some 0) (Some 0%Q)
              ApiBot.NoActivity]}
    [ApiBot.mkTask "like" None].

Definition ast_idle : ApiBot.State :=
  ApiBot.mkState ∅ (ApiBot.api_users ast_started) (ApiBot.api_tasks ast_started).

(** A user who started the task "like" at second 1000000 in the second
    program of [bot_complete_vps.py]. *)
Definition st_started : Ledger.State :=
  Ledger.mkState {[42 := user10]} ∅ {[(42, "like") := 1000000%Q]} ∅.

(** The ['taskRewards'] of the backend settings. *)
Definition rewards0 : gmap string Q := {["like" := 1%Q]}.



(** The user chooses FaucetPay at balance 10, then finishes a task worth 1,
    then sends the address. *)
Definition ops_choose_earn_send : list (Q * VpsMain.Op) :=
  [ (1000000%Q, VpsMain.OpButton 42 "payout_faucetpay");
    (1000001%Q, VpsMain.OpButton 42 "like");
    (1000040%Q, VpsMain.OpButton 42 "like");
    (1000050%Q, VpsMain.OpAddress 1234 42 "bob" "addr@x.y") ].

(** The user sends a payout request, earns 1 with a task, presses the
    FaucetPay button of an older message and sends an address again. *)
Definition ops_two_requests : list (Q * VpsMain.Op) :=
  [ (1000000%Q, VpsMain.OpButton 42 "payout_faucetpay");
    (1000050%Q, VpsMain.OpAddress 1234 42 "bob" "addr@x.y");
    (1000060%Q, VpsMain.OpButton 42 "like");
    (1000100%Q, VpsMain.OpButton 42 "like");
    (1000110%Q, VpsMain.OpButton 42 "payout_faucetpay");
    (1000120%Q, VpsMain.OpAddress 5678 42 "bob" "addr@x.y") ].

(** A referrer who joined at second 1000000 and has earned nothing yet. *)
Definition st_referrer : Ledger.State :=
  Ledger.mkState {[42 := Ledger.new_user 1000000]} ∅ ∅ ∅.

(** A user who earned 5 yesterday (day 11 begins at second 950400). *)
Definition user_yesterday : Ledger.User :=
  Ledger.mkUser 5 5 5 0 5 900000 800000.

Definition st_yesterday : Ledger.State :=
  Ledger.mkState {[42 := user_yesterday]} ∅ ∅ ∅.

(** The same user as a backend document. *)
Definition api_user_yesterday : ApiBot.User :=
  ApiBot.mkUser (Some 5%Q) (Some 5%Q) (Some 5) (Some 0) (Some 5%Q)
    (ApiBot.ActivityOn 10).

Definition ast_yesterday : ApiBot.State :=
  ApiBot.mkState {[42 := {["like" := 1000000%Q]}]} {[42 := api_user_yesterday]}
    [ApiBot.mkTask "like" None].

Definition ast_referrer : ApiBot.State :=
  ApiBot.mkState ∅
    {[42 := ApiBot.mkUser (Some 0%Q) (Some 0%Q) (Some 0) (Some 0) (Some 0%Q)
              ApiBot.NoActivity]} [].

Definition botpy_ops : list (Q * BotPy.Op) :=
  [ (1000000%Q, BotPy.OpStart 42 "bob" "Bob" []);
    (1000001%Q, BotPy.OpCallback 42 "bob" "Bob" "like");
    (1000040%Q, BotPy.OpCallback 42 "bob" "Bob" "verify_like");
    (1000050%Q, BotPy.OpMessage 42 (BotPy.MsgWithdraw "faucetpay" "a@b.c" (Some (Fin 1))) true) ].

(** ** Predicates and examples for the further properties *)

(** [all(P(c) for c in s)] *)
Fixpoint str_all (P : ascii -> bool) (s : string) : bool :=
  match s with
  | EmptyString => true
  | String c s' => P c && str_all P s'
  end.

(** Two users known to the bot; user 7 was registered before. *)
Definition st_two_users : Ledger.State :=
  Ledger.mkState {[42 := user10; 7 := Ledger.new_user 1000000]} ∅ ∅ ∅.

(** In [bot.py], no task is listed twice among a user's completed tasks of
    the day, and a task listed there has no running timer. *)
Definition botpy_claims_ok (st : BotPy.State) : Prop :=
  forall uid u,
    BotPy.users st !! uid = Some u ->
    NoDup (BotPy.completed_tasks u) /\
    forall k, k ∈ BotPy.completed_tasks u -> botpy_attempt st uid k = None.

(** A [bot.py] user who completed "like" on day 10 and has a stale timer. *)
Definition bst_old_day : BotPy.State :=
  BotPy.mkState {[42 := BotPy.mkUser "bob" "Bob" (Fin 3) None ["like"] 10 800000]} []
    {[42 := {["visit" := 900000%Q]}]}.

(** [format_time(seconds)], defined with the same body in the three files
    ([bot.py] lines 151-158, [bot_complete_vps.py] lines 602-609, [part_000]
    lines 219-226), on an int number of seconds; [//] and [%] are Python's
    floor division and remainder. *)
Definition format_time (seconds : Z) : string :=
  if seconds <? 60 then pretty seconds +:+ "s"
  else if seconds <? 3600
  then pretty (seconds / 60) +:+ "m " +:+ pretty (seconds mod 60) +:+ "s"
  else pretty (seconds / 3600) +:+ "h " +:+ pretty ((seconds mod 3600) / 60) +:+ "m".

(** A character of the decimal text of an int: a digit or the minus sign. *)
Definition is_num_char (c : ascii) : bool :=
  BotPy.is_digit c || Ascii.eqb c "-".

(** [PAYOUT_CONFIG.get(f"{method}_min", MIN_WITHDRAW)] *)
Definition method_minimum (cfg : Ledger.Config) (method : string) : Q :=
  default (Ledger.MIN_WITHDRAW cfg) (Ledger.PAYOUT_MIN cfg !! method).

(** A stored payout request has an address of at least five characters and
    an amount of at least its method's minimum, and it has a processing time
    exactly when it is no longer pending. *)
Definition request_ok (cfg : Ledger.Config) (r : Ledger.PayoutRequest) : Prop :=
  (5 <= String.length (Ledger.payment_address r))%nat /\
  (method_minimum cfg (Ledger.payment_method r) <= Ledger.amount r)%Q /\
  (Ledger.status r = Ledger.pending <-> Ledger.processed_at r = None).

Definition requests_ok (cfg : Ledger.Config) (st : Ledger.State) : Prop :=
  map_Forall (fun _ r => request_ok cfg r) (Ledger.payout_requests st) /\
  map_Forall (fun _ c => (method_minimum cfg (Ledger.payout_method c)
                          <= Ledger.payout_amount c)%Q) (Ledger.user_data st).

(** The amount remembered for the address step is covered by the balance of
    the user it belongs to. *)
Definition payout_ctx_covered (st : Ledger.State) : Prop :=
  forall uid ctx,
    Ledger.user_data st !! uid = Some ctx ->
    exists u, Ledger.users st !! uid = Some u /\
              (Ledger.payout_amount ctx <= Ledger.balance u)%Q.

(** From the empty state: a user joins, earns 1 with a task, chooses
    FaucetPay and sends an address. *)
Definition ops_from_empty : list (Q * VpsMain.Op) :=
  [ (1000000%Q, VpsMain.OpStart 42 []);
    (1000001%Q, VpsMain.OpButton 42 "like");
    (1000040%Q, VpsMain.OpButton 42 "like");
    (1000050%Q, VpsMain.OpButton 42 "payout_faucetpay");
    (1000060%Q, VpsMain.OpAddress 1234 42 "bob" "addr@x.y") ].

Definition req_from_empty : Ledger.PayoutRequest :=
  Ledger.mkRequest 42 "bob" 1 "faucetpay" "addr@x.y" Ledger.pending 1000060
    None (Ledger.NoteText "").

(** A user record later in a run: same joining time, and counters that did
    not go down. *)
Definition user_grows (u u' : Ledger.User) : Prop :=
  Ledger.joined u' = Ledger.joined u /\
  (Ledger.total_earned u <= Ledger.total_earned u')%Q /\
  Ledger.tasks_completed u <= Ledger.tasks_completed u' /\
  Ledger.referrals u <= Ledger.referrals u'.

Definition users_grow (st st' : Ledger.State) : Prop :=
  forall uid u,
    Ledger.users st !! uid = Some u ->
    exists u', Ledger.users st' !! uid = Some u' /\ user_grows u u'.

(** The user has a stored payout request that is still pending. *)
Definition has_pending (uid : Z) (st : Ledger.State) : Prop :=
  exists rid r,
    Ledger.payout_requests st !! rid = Some r /\
    Ledger.user_id r = uid /\ Ledger.status r = Ledger.pending.

(** A user who reached the daily limit of 100 today (day 11). *)
Definition st_limit_reached : Ledger.State :=
  Ledger.mkState {[42 := Ledger.mkUser 100 100 100 0 100 1000000 800000]} ∅
    {[(42, "like") := 1000000%Q]} ∅.

(** [old in s] for strings. *)
Fixpoint str_contains (old s : string) : bool :=
  String.prefix old s ||
  match s with
  | EmptyString => false
  | String _ s' => str_contains old s'
  end.

(** ** More of [part_000]: starting a task *)
Module ApiStart.

Inductive Reply :=
  | RDailyLimitReached            (* "Daily earning limit reached!" *)
  | RTaskNotFound                 (* "Task not found!" *)
  | RAlreadyInProgress (remaining : Z)
                                  (* "Task already in progress! Wait ..." *)
  | RConfirmation (task_key : string).
                                  (* the "Start Task" button carries
                                     [confirm_task_<task_key>] *)

(** [handle_task_start], after [task_key] was cut out of the callback data;
    [today] is [datetime.date.today()].  It changes no state. *)
Definition start_request (now : Q) (today : Z) (user_id : Z) (task_key : string)
    (user : ApiBot.User) (daily_limit : Q) (st : ApiBot.State) : Reply :=
  if negb (ApiBot.can_earn_today today user daily_limit) then RDailyLimitReached
  else
    match ApiBot.find_task task_key st with
    | None => RTaskNotFound
    | Some task =>
        let wait_time := default 30%Q (ApiBot.waitTime task) in
        let remaining_time :=
          ApiBot.get_remaining_time now user_id task_key wait_time st in
        if 0 <? remaining_time then RAlreadyInProgress remaining_time
        else RConfirmation task_key
    end.

(** [handle_task_start(query, data, ...)] *)
Definition handle_task_start (now : Q) (today : Z) (data : string) (user_id : Z)
    (user : ApiBot.User) (daily_limit : Q) (st : ApiBot.State) : Reply :=
  start_request now today user_id (remove_all "task_" data) user daily_limit st.

End ApiStart.

(** ** The link buttons of a task ([bot_complete_vps.py], lines 611-638) *)
Module Buttons.

(** The ["links"] and ["link"] entries of a task of [TASKS], each of which
    may be missing. *)
Record TaskLinks := mkLinks {
  links : option (list string);
  link : option string
}.

(** The text of a button: "Article n", "Channel n", "Video n", "Article
    Link" or "Task Link". *)
Inductive ButtonText :=
  | ArticleN (n : nat)
  | ChannelN (n : nat)
  | VideoN (n : nat)
  | ArticleLink
  | TaskLink.

Record UrlButton := mkButton {
  text : ButtonText;
  url : string
}.

Definition numbered (task_key : string) (link_num : nat) : ButtonText :=
  if String.eqb task_key "visit" then ArticleN link_num
  else if String.eqb task_key "subscribe" then ChannelN link_num
  else VideoN link_num.

(** [range(0, n, 2)] *)
Definition range2 (n : nat) : list nat :=
  List.map (fun q => 2 * q)%nat (seq 0 (Nat.div2 (S n))).

(** One pass of the outer loop: the inner loop over [j in range(2)]. *)
Definition row (task_key : string) (ls : list string) (i : nat)
  : list UrlButton :=
  flat_map
    (fun j =>
       if (i + j <? List.length ls)%nat then
         match ls !! (i + j)%nat with
         | Some u => [mkButton (numbered task_key (i + j + 1)) u]
         | None => []
         end
       else [])
    [0; 1]%nat.

(** [get_task_buttons(task_key)]; [task] is [TASKS[task_key]]. *)
Definition get_task_buttons (task_key : string) (task : TaskLinks)
  : list (list UrlButton) :=
  match links task with
  | Some (l :: ls) => List.map (row task_key (l :: ls)) (range2 (List.length (l :: ls)))
  | _ =>
      match link task with
      | Some u =>
          if String.eqb task_key "visit" then [[mkButton ArticleLink u]]
          else [[mkButton TaskLink u]]
      | None => []
      end
  end.

End Buttons.

(** * Verified properties *)

Section LedgerFrames.
Import Ledger.

Lemma get_user_frame now uid st :
  payout_requests (fst (get_user now uid st)) = payout_requests st /\
  user_tasks (fst (get_user now uid st)) = user_tasks st /\
  user_data (fst (get_user now uid st)) = user_data st.
Proof. unfold get_user. destruct (users st !! uid); simpl; auto. Qed.

Lemma can_earn_today_frame cfg now uid st :
  payout_requests (fst (can_earn_today cfg now uid st)) = payout_requests st /\
  user_tasks (fst (can_earn_today cfg now uid st)) = user_tasks st /\
  user_data (fst (can_earn_today cfg now uid st)) = user_data st.
Proof.
  unfold can_earn_today.
  pose proof (get_user_frame now uid st) as H.
  destruct (get_user now uid st) as [st1 u]; simpl in *.
  destruct (date_of (last_activity u) <? date_of now); simpl; auto.
Qed.

Lemma add_earnings_frame now uid amt st :
  payout_requests (add_earnings now uid amt st) = payout_requests st /\
  user_tasks (add_earnings now uid amt st) = user_tasks st /\
  user_data (add_earnings now uid amt st) = user_data st.
Proof.
  unfold add_earnings.
  pose proof (get_user_frame now uid st) as H.
  destruct (get_user now uid st) as [st1 u]; simpl in *. auto.
Qed.

Lemma referral_frame cfg now uid args st :
  payout_requests (referral cfg now uid args st) = payout_requests st /\
  user_tasks (referral cfg now uid args st) = user_tasks st /\
  user_data (referral cfg now uid args st) = user_data st.
Proof.
  unfold referral.
  destruct args as [|r args]; auto.
  destruct (negb _); auto.
  destruct (user_key _ _); auto.
  destruct (users st !! z); auto.
  match goal with |- context [add_earnings ?n ?k ?a ?s] =>
    pose proof (add_earnings_frame n k a s) as H end.
  simpl in H. auto.
Qed.

Lemma start_frame cfg now uid args st :
  payout_requests (fst (start cfg now uid args st)) = payout_requests st /\
  user_tasks (fst (start cfg now uid args st)) = user_tasks st /\
  user_data (fst (start cfg now uid args st)) = user_data st.
Proof.
  unfold start.
  pose proof (get_user_frame now uid st) as H.
  destruct (get_user now uid st) as [st1 u]; simpl in *.
  destruct (referral_frame cfg now uid args st1) as (F1 & F2 & F3).
  destruct H as (E1 & E2 & E3).
  rewrite F1, F2, F3. auto.
Qed.

End LedgerFrames.

Section MainFrames.
Import Ledger VpsMain.

Lemma task_button_frame cfg now uid k task st :
  payout_requests (fst (task_button cfg now uid k task st)) = payout_requests st /\
  user_data (fst (task_button cfg now uid k task st)) = user_data st.
Proof.
  unfold task_button.
  destruct (can_earn_today_frame cfg now uid st) as (E1 & E2 & E3).
  destruct (can_earn_today cfg now uid st) as [st1 ok]; simpl in *.
  destruct ok; simpl; auto.
  destruct (user_tasks st1 !! (uid, k)); simpl; auto.
  destruct (is_task_completed now (wait task) uid k st1); simpl; auto.
  destruct (add_earnings_frame now uid (reward task) st1) as (F1 & F2 & F3).
  rewrite F1, F3. auto.
Qed.

Lemma button_frame cfg now uid data st :
  payout_requests (fst (button cfg now uid data st)) = payout_requests st.
Proof.
  unfold button.
  destruct (get_user_frame now uid st) as (E1 & E2 & E3).
  destruct (get_user now uid st) as [st1 user]; simpl in *.
  destruct (String.eqb data "tasks").
  { destruct (can_earn_today_frame cfg now uid st1) as (F1 & _).
    destruct (can_earn_today cfg now uid st1) as [st2 ok]; simpl in *. congruence. }
  destruct (String.eqb data "balance"); [done|].
  destruct (String.eqb data "payout").
  { unfold payout_menu. simpl.
    destruct (get_user_pending_requests uid st1); [|done].
    destruct (Qlt_bool _ _); done. }
  destruct (String.eqb data "my_requests"); [done|].
  destruct (startswith "payout_" data).
  { unfold payout_method_chosen.
    destruct (split_on "_" data) as [|? [|method ?]]; try done.
    destruct (Qlt_bool _ _); done. }
  destruct (TASKS cfg !! data) as [task|].
  { destruct (task_button_frame cfg now uid data task st1) as (F1 & _). congruence. }
  repeat (match goal with |- context [if ?b then _ else _] => destruct b end); done.
Qed.

Lemma status_eqb_pending s : Status_eqb s pending = true <-> s = pending.
Proof. destruct s; simpl; split; congruence. Qed.

(** What one update does to a stored request. *)
Lemma step_request cfg now op st rid r :
  payout_requests st !! rid = Some r ->
  fresh_id now op st ->
  exists r', payout_requests (fst (step cfg now op st)) !! rid = Some r' /\
    (r' = r \/
     (status r = pending /\
      (status r' = approved \/ status r' = rejected) /\
      user_id r' = user_id r /\ amount r' = amount r /\
      username r' = username r /\ payment_method r' = payment_method r /\
      payment_address r' = payment_address r /\ created_at r' = created_at r)).
Proof.
  intros Hr Hfresh. destruct op as [uid args|uid data|rnd uid uname address|caller args|caller args]; simpl.
  - destruct (start_frame cfg now uid args st) as (-> & _). eauto.
  - rewrite button_frame. eauto.
  - unfold handle_payout_address.
    destruct (user_data st !! uid) as [ctx|]; [|eauto].
    destruct (_ <? _)%nat; [eauto|].
    unfold create_payout_request. simpl in Hfresh.
    match goal with |- context [get_user ?n ?u ?s] =>
      destruct (get_user_frame n u s) as (E1 & _);
      destruct (get_user n u s) as [st2 user] end.
    simpl in *. rewrite E1.
    rewrite lookup_insert_ne by congruence. eauto.
  - unfold admin_approve.
    destruct (negb (caller =? ADMIN_ID cfg)); [eauto|].
    destruct args as [|request_id rest]; [eauto|].
    destruct (payout_requests st !! request_id) as [req|] eqn:Hq; [|eauto].
    destruct (negb (Status_eqb (status req) pending)) eqn:Hp; [eauto|].
    apply negb_false_iff, status_eqb_pending in Hp. simpl.
    destruct (decide (request_id = rid)) as [->|Hne].
    + rewrite lookup_insert_eq. assert (req = r) as -> by congruence.
      eexists; split; [reflexivity|]. right. simpl. tauto.
    + rewrite lookup_insert_ne by done. eauto.
  - unfold admin_reject.
    destruct (negb (caller =? ADMIN_ID cfg)); [eauto|].
    destruct args as [|request_id rest]; [eauto|].
    destruct (payout_requests st !! request_id) as [req|] eqn:Hq; [|eauto].
    destruct (negb (Status_eqb (status req) pending)) eqn:Hp; [eauto|].
    apply negb_false_iff, status_eqb_pending in Hp.
    match goal with |- context [get_user ?n ?u ?s] =>
      destruct (get_user_frame n u s) as (E1 & _);
      destruct (get_user n u s) as [st2 user] end.
    simpl in *. rewrite E1.
    destruct (decide (request_id = rid)) as [->|Hne].
    + rewrite lookup_insert_eq. assert (req = r) as -> by congruence.
      eexists; split; [reflexivity|]. right. simpl. tauto.
    + rewrite lookup_insert_ne by done. eauto.
Qed.

Lemma run_terminal cfg ops : forall st rid r,
  payout_requests st !! rid = Some r ->
  status r <> pending ->
  fresh_run cfg ops st ->
  payout_requests (run cfg ops st) !! rid = Some r.
Proof.
  induction ops as [|[now op] ops IH]; intros st rid r Hr Hs Hf; simpl; [done|].
  destruct Hf as [Hf1 Hf2].
  destruct (step_request cfg now op st rid r Hr Hf1) as (r' & Hr' & [->|(Hp & _)]).
  - by apply IH.
  - done.
Qed.

End MainFrames.

Lemma Qlt_bool_false a b : Qlt_bool a b = false -> (b <= a)%Q.
Proof.
  unfold Qlt_bool. intros H. apply negb_false_iff in H. by apply Qle_bool_iff.
Qed.

Lemma Qlt_bool_true a b : Qlt_bool a b = true -> (a < b)%Q.
Proof.
  unfold Qlt_bool. intros H. apply negb_true_iff in H.
  apply Qnot_le_lt. intros Hle. apply Qle_bool_iff in Hle. congruence.
Qed.

Section LedgerNonneg.
Import Ledger.

Ltac fields :=
  unfold new_user, set_balance, set_daily, credited, incr_referrals,
    set_processed;
  cbn [balance amount payout_amount users payout_requests user_data
       set_users set_requests set_data set_tasks].

Lemma get_user_nonneg now uid st :
  ledger_nonneg st ->
  ledger_nonneg (fst (get_user now uid st)) /\
  (0 <= balance (snd (get_user now uid st)))%Q /\
  users (fst (get_user now uid st)) !! uid = Some (snd (get_user now uid st)).
Proof.
  intros (Hu & Hr & Hd). unfold get_user.
  destruct (users st !! uid) as [u|] eqn:E; cbn [fst snd].
  - split; [done|]. split; [by apply (Hu uid u)|done].
  - split; [|split; [fields; lra|fields; by rewrite lookup_insert_eq]].
    split; [|done]. fields. apply map_Forall_insert_2; [fields; lra|done].
Qed.

Lemma set_user_nonneg st uid u :
  ledger_nonneg st -> (0 <= balance u)%Q ->
  ledger_nonneg (set_users st (<[uid := u]> (users st))).
Proof.
  intros (Hu & Hr & Hd) Hb. split; [|done]. simpl.
  by apply map_Forall_insert_2.
Qed.

Lemma can_earn_today_nonneg cfg now uid st :
  ledger_nonneg st -> ledger_nonneg (fst (can_earn_today cfg now uid st)).
Proof.
  intros H. unfold can_earn_today.
  destruct (get_user_nonneg now uid st H) as (H1 & Hb & _).
  destruct (get_user now uid st) as [st1 u]; simpl in *.
  destruct (_ <? _); simpl; [|done].
  by apply set_user_nonneg.
Qed.

Lemma add_earnings_nonneg now uid amt st :
  ledger_nonneg st -> (0 <= amt)%Q -> ledger_nonneg (add_earnings now uid amt st).
Proof.
  intros H Ha. unfold add_earnings.
  destruct (get_user_nonneg now uid st H) as (H1 & Hb & _).
  destruct (get_user now uid st) as [st1 u]; simpl in *.
  apply set_user_nonneg; [done|]. fields. lra.
Qed.

Lemma referral_nonneg cfg now uid args st :
  config_nonneg cfg -> ledger_nonneg st ->
  ledger_nonneg (referral cfg now uid args st).
Proof.
  intros [_ Hb] H. unfold referral.
  destruct args as [|r args]; [done|].
  destruct (negb _); [|done].
  destruct (user_key _ _) as [rk|]; [|done].
  destruct (users st !! rk) as [ru|] eqn:E; [|done].
  apply add_earnings_nonneg; [|done].
  apply set_user_nonneg; [done|]. simpl.
  destruct H as (Hu & _). by apply (Hu rk ru).
Qed.

Lemma start_nonneg cfg now uid args st :
  config_nonneg cfg -> ledger_nonneg st ->
  ledger_nonneg (fst (start cfg now uid args st)).
Proof.
  intros Hc H. unfold start.
  destruct (get_user_nonneg now uid st H) as (H1 & _).
  destruct (get_user now uid st) as [st1 u]; simpl in *.
  by apply referral_nonneg.
Qed.

End LedgerNonneg.

Section MainNonneg.
Import Ledger VpsMain.

Ltac fields :=
  unfold new_user, set_balance, set_daily, credited, incr_referrals,
    set_processed;
  cbn [balance amount payout_amount users payout_requests user_data
       set_users set_requests set_data set_tasks].

Lemma set_tasks_nonneg st ts : ledger_nonneg st -> ledger_nonneg (set_tasks st ts).
Proof. by intros (? & ? & ?). Qed.

Lemma task_button_nonneg cfg now uid k task st :
  (0 <= reward task)%Q -> ledger_nonneg st ->
  ledger_nonneg (fst (task_button cfg now uid k task st)).
Proof.
  intros Hr H. unfold task_button.
  pose proof (can_earn_today_nonneg cfg now uid st H) as H1.
  destruct (can_earn_today cfg now uid st) as [st1 ok]; simpl in *.
  destruct ok; simpl; [|done].
  destruct (user_tasks st1 !! (uid, k)); simpl.
  - destruct (is_task_completed _ _ _ _ _); simpl; [|done].
    apply set_tasks_nonneg. by apply add_earnings_nonneg.
  - by apply set_tasks_nonneg.
Qed.

Lemma button_nonneg cfg now uid data st :
  config_nonneg cfg -> ledger_nonneg st ->
  ledger_nonneg (fst (button cfg now uid data st)).
Proof.
  intros Hc H. unfold button.
  destruct (get_user_nonneg now uid st H) as (H1 & Hb & _).
  destruct (get_user now uid st) as [st1 user]; simpl in *.
  destruct (String.eqb data "tasks").
  { pose proof (can_earn_today_nonneg cfg now uid st1 H1) as H2.
    destruct (can_earn_today cfg now uid st1) as [st2 ok]; done. }
  destruct (String.eqb data "balance"); [done|].
  destruct (String.eqb data "payout").
  { unfold payout_menu. simpl.
    destruct (get_user_pending_requests uid st1); [|done].
    destruct (Qlt_bool _ _); done. }
  destruct (String.eqb data "my_requests"); [done|].
  destruct (startswith "payout_" data).
  { unfold payout_method_chosen.
    destruct (split_on "_" data) as [|? [|method ?]]; try done.
    destruct (Qlt_bool _ _); [done|]. simpl.
    destruct H1 as (Hu & Hr & Hd). split; [done|]. split; [done|]. simpl.
    by apply map_Forall_insert_2. }
  destruct (TASKS cfg !! data) as [task|] eqn:Et.
  { apply task_button_nonneg; [|done]. destruct Hc as [Hc _]. by apply (Hc data task). }
  repeat (match goal with |- context [if ?b then _ else _] => destruct b end); done.
Qed.

Lemma handle_payout_address_nonneg cfg now rnd uid uname address st :
  ledger_nonneg st ->
  ledger_nonneg (fst (handle_payout_address cfg now rnd uid uname address st)).
Proof.
  intros H. unfold handle_payout_address.
  destruct (user_data st !! uid) as [ctx|] eqn:Ec; [|done].
  destruct (_ <? _)%nat; [done|].
  unfold create_payout_request.
  match goal with |- context [get_user ?n ?u ?s] =>
    assert (ledger_nonneg s) as Hs end.
  { destruct H as (Hu & Hr & Hd). split; [done|]. split; [|done]. simpl.
    apply map_Forall_insert_2; [|done]. simpl. by apply (Hd uid ctx). }
  match goal with |- context [get_user ?n ?u ?s] =>
    destruct (get_user_nonneg n u s Hs) as (H1 & _);
    destruct (get_user n u s) as [st2 user] end.
  simpl in *.
  assert (ledger_nonneg (set_users st2 (<[uid:=set_balance user 0]> (users st2)))) as H3.
  { apply set_user_nonneg; [done|]. fields. lra. }
  destruct H3 as (Hu & Hr & Hd). split; [done|]. split; [done|]. simpl.
  by apply map_Forall_delete.
Qed.

Lemma admin_approve_nonneg cfg now caller args st :
  ledger_nonneg st -> ledger_nonneg (fst (admin_approve cfg now caller args st)).
Proof.
  intros H. unfold admin_approve.
  destruct (negb _); [done|].
  destruct args as [|request_id rest]; [done|].
  destruct (payout_requests st !! request_id) as [req|] eqn:Hq; [|done].
  destruct (negb _); [done|]. simpl.
  destruct H as (Hu & Hr & Hd). split; [done|]. split; [|done]. simpl.
  apply map_Forall_insert_2; [|done]. simpl. by apply (Hr request_id req).
Qed.

Lemma admin_reject_nonneg cfg now caller args st :
  ledger_nonneg st -> ledger_nonneg (fst (admin_reject cfg now caller args st)).
Proof.
  intros H. unfold admin_reject.
  destruct (negb _); [done|].
  destruct args as [|request_id rest]; [done|].
  destruct (payout_requests st !! request_id) as [req|] eqn:Hq; [|done].
  destruct (negb _); [done|].
  assert (0 <= amount req)%Q as Ha.
  { destruct H as (_ & Hr & _). by apply (Hr request_id req). }
  match goal with |- context [get_user ?n ?u ?s] =>
    assert (ledger_nonneg s) as Hs end.
  { destruct H as (Hu & Hr & Hd). split; [done|]. split; [|done]. simpl.
    apply map_Forall_insert_2; [|done]. done. }
  match goal with |- context [get_user ?n ?u ?s] =>
    destruct (get_user_nonneg n u s Hs) as (H1 & Hb & _);
    destruct (get_user n u s) as [st2 user] end.
  simpl in *. apply set_user_nonneg; [done|]. fields. lra.
Qed.

Lemma step_nonneg cfg now op st :
  config_nonneg cfg -> ledger_nonneg st ->
  ledger_nonneg (fst (step cfg now op st)).
Proof.
  intros Hc H. destruct op; simpl.
  - by apply start_nonneg.
  - by apply button_nonneg.
  - by apply handle_payout_address_nonneg.
  - by apply admin_approve_nonneg.
  - by apply admin_reject_nonneg.
Qed.

Lemma run_nonneg cfg ops : forall st,
  config_nonneg cfg -> ledger_nonneg st -> ledger_nonneg (run cfg ops st).
Proof.
  induction ops as [|[now op] ops IH]; intros st Hc H; simpl; [done|].
  apply IH; [done|]. by apply step_nonneg.
Qed.

End MainNonneg.
(** *** Float comparisons of [bot.py]'s withdrawal guards *)

(** An amount other than NaN that passes both guards against a balance that
    is a number is itself a number, between the minimum and the balance. *)
Lemma accepted_amount_number b amt m :
  amt <> NaN -> flt amt (Fin m) = false -> flt (Fin b) amt = false ->
  exists a, amt = Fin a /\ (m <= a)%Q /\ (a <= b)%Q.
Proof.
  intros Hn H1 H2. destruct amt as [a| | |]; cbn in H1, H2; try discriminate.
  - exists a. split; [done|]. split; by apply Qlt_bool_false.
  - done.
Qed.

Section BotPyBalances.
Import BotPy.

(** A property [P] of balances that holds of the balance 0 of a new record
    and is kept by the credits and by an accepted withdrawal holds of every
    stored balance after any update. *)
Variable cfg : Config.
Variable P : PyFloat -> Prop.
Hypothesis P_zero : P (Fin 0).
Hypothesis P_bonus : forall x, P x -> P (fadd x (Fin (BONUS_REFERRAL cfg))).
Hypothesis P_reward :
  forall k t x, TASKS cfg !! k = Some t -> P x -> P (fadd x (Fin (reward t))).
Hypothesis P_withdraw :
  forall x amt m,
    P x -> amt <> NaN -> flt amt (Fin m) = false -> flt x amt = false ->
    P (fsub x amt).

Lemma reset_daily_tasks_balances now st :
  botpy_balances P st -> botpy_balances P (reset_daily_tasks now st).
Proof.
  unfold botpy_balances, reset_daily_tasks. cbn [users set_users]. intros H.
  apply map_Forall_fmap. intros k u Hk. unfold compose. cbn beta.
  destruct (last_reset u =? date_of now); cbn [balance]; by apply (H k u).
Qed.

Lemma ensure_user_balances now uid uname nm r st :
  botpy_balances P st -> botpy_balances P (ensure_user now uid uname nm r st).
Proof.
  intros H. unfold ensure_user. destruct (users st !! uid); [done|].
  unfold botpy_balances in *. cbn [users set_users]. by apply map_Forall_insert_2.
Qed.

Lemma referral_bonus_balances r st :
  botpy_balances P st -> botpy_balances P (referral_bonus cfg r st).
Proof.
  intros H. unfold referral_bonus.
  destruct r as [rf|]; [|done].
  destruct (isdigit rf); [|done].
  destruct (user_key rf (users st)) as [rk|]; [|done].
  destruct (users st !! rk) as [ru|] eqn:E; [|done].
  unfold botpy_balances in *. cbn [users set_users].
  apply map_Forall_insert_2; [|done].
  unfold set_balance; cbn [balance]. apply P_bonus. exact (H rk ru E).
Qed.

Lemma start_balances now uid uname nm args st :
  botpy_balances P st -> botpy_balances P (fst (start cfg now uid uname nm args st)).
Proof.
  intros H. unfold start. cbn [fst].
  apply reset_daily_tasks_balances.
  destruct (users st !! uid); [done|].
  apply referral_bonus_balances. by apply ensure_user_balances.
Qed.

Lemma verify_balances now uid task_key st :
  botpy_balances P st -> botpy_balances P (fst (verify cfg now uid task_key st)).
Proof.
  intros H. unfold verify.
  destruct (TASKS cfg !! task_key) as [task|] eqn:Et; [|done].
  destruct (negb _); [done|].
  destruct (users st !! uid) as [u|] eqn:E; [|done].
  unfold botpy_balances in *. cbn [fst users set_tasks set_users].
  apply map_Forall_insert_2; [|done].
  cbn [balance]. apply (P_reward task_key task _ Et). exact (H uid u E).
Qed.

Lemma handle_callback_balances now uid uname nm data st :
  botpy_balances P st -> botpy_balances P (fst (handle_callback cfg now uid uname nm data st)).
Proof.
  intros H. unfold handle_callback.
  assert (botpy_balances P (reset_daily_tasks now (ensure_user now uid uname nm None st))) as H1.
  { apply reset_daily_tasks_balances. by apply ensure_user_balances. }
  destruct (users _ !! uid) as [u|]; [|done].
  destruct (TASKS cfg !! data).
  { unfold task_chosen. destruct (_ >=? _); [done|].
    destruct (existsb _ _); done. }
  destruct (startswith _ _); [by apply verify_balances|].
  repeat (match goal with |- context [if ?b then _ else _] => destruct b end); done.
Qed.

Lemma handle_message_balances now uid msg sent st :
  amount_not_nan (OpMessage uid msg sent) ->
  botpy_balances P st ->
  botpy_balances P (fst (handle_message cfg now uid msg sent st)).
Proof.
  intros Hn H. unfold handle_message.
  destruct (users st !! uid) as [u|] eqn:E; [|done].
  destruct msg as [method account [amt|]|]; try done.
  destruct (MIN_WITHDRAW cfg !! method) as [m|]; [|done].
  destruct (flt amt (Fin m)) eqn:Hmin; [done|].
  destruct (flt (balance u) amt) eqn:Hlt; [done|].
  unfold botpy_balances in *. cbn [fst users].
  apply map_Forall_insert_2; [|done].
  unfold set_balance; cbn [balance].
  apply (P_withdraw _ _ m); [exact (H uid u E)| |done|done].
  intros ->. exact Hn.
Qed.

Lemma step_balances now op st :
  amount_not_nan op -> botpy_balances P st -> botpy_balances P (fst (step cfg now op st)).
Proof.
  intros Hn H. destruct op; cbn [step].
  - by apply start_balances.
  - by apply handle_callback_balances.
  - by apply handle_message_balances.
Qed.

Lemma run_balances ops : forall st,
  amounts_not_nan ops -> botpy_balances P st -> botpy_balances P (run cfg ops st).
Proof.
  induction ops as [|[now op] ops IH]; intros st Hn H; cbn [run]; [done|].
  apply Forall_cons_1 in Hn as [Hop Hn].
  apply IH; [done|]. by apply step_balances.
Qed.

End BotPyBalances.

Lemma botpy_run_nonneg cfg ops st :
  botpy_config_nonneg cfg -> amounts_not_nan ops ->
  botpy_nonneg st -> botpy_nonneg (BotPy.run cfg ops st).
Proof.
  intros [Hr Hb] Hn. unfold botpy_nonneg.
  apply (run_balances cfg nonneg_number); [| | | |done].
  - cbn. lra.
  - intros [x| | |]; cbn; try done. intros Hx. lra.
  - intros k t [x| | |] Ht; cbn; try done. intros Hx.
    pose proof (Hr k t Ht) as H0. cbn beta in H0. lra.
  - intros [b| | |] amt m; cbn [nonneg_number]; try done.
    intros Hb0 Ha H1 H2.
    destruct (accepted_amount_number b amt m Ha H1 H2) as (a & -> & _ & Hab).
    cbn. lra.
Qed.

Lemma botpy_run_numbers cfg ops st :
  amounts_not_nan ops -> botpy_numbers st -> botpy_numbers (BotPy.run cfg ops st).
Proof.
  intros Hn. unfold botpy_numbers.
  apply (run_balances cfg is_number); [done| | | |done].
  - by intros [x| | |].
  - by intros k t [x| | |].
  - intros [b| | |] amt m; cbn [is_number]; try done.
    intros _ Ha H1 H2.
    by destruct (accepted_amount_number b amt m Ha H1 H2) as (a & -> & _ & _).
Qed.

Lemma ledger_empty_nonneg : ledger_nonneg Ledger.empty_state.
Proof. repeat split; apply map_Forall_empty. Qed.

Lemma botpy_empty_nonneg : botpy_nonneg BotPy.empty_state.
Proof. apply map_Forall_empty. Qed.

(** C1.  In the second program of [bot_complete_vps.py] and in [bot.py], when
    the task rewards and the referral bonus are not negative and no stored
    balance or requested amount is negative to begin with (as in the empty
    state the bots start from), every balance is greater than or equal to 0
    after any sequence of updates: [/start] with or without a referral, task
    buttons and reward claims, withdrawal and payout requests, approval,
    rejection.  In [bot.py] the requested amount is the float read from the
    message: it may be any number or infinity, but not NaN, which is not a
    non-negative amount. *)
Theorem balance_never_negative :
  (forall cfg ops st uid u,
      config_nonneg cfg -> ledger_nonneg st ->
      Ledger.users (VpsMain.run cfg ops st) !! uid = Some u ->
      (0 <= Ledger.balance u)%Q) /\
  (forall cfg ops uid u,
      config_nonneg cfg ->
      Ledger.users (VpsMain.run cfg ops Ledger.empty_state) !! uid = Some u ->
      (0 <= Ledger.balance u)%Q) /\
  (forall cfg ops st uid u,
      botpy_config_nonneg cfg -> botpy_nonneg st -> amounts_not_nan ops ->
      BotPy.users (BotPy.run cfg ops st) !! uid = Some u ->
      nonneg_number (BotPy.balance u)) /\
  (forall cfg ops uid u,
      botpy_config_nonneg cfg -> amounts_not_nan ops ->
      BotPy.users (BotPy.run cfg ops BotPy.empty_state) !! uid = Some u ->
      nonneg_number (BotPy.balance u)).
Proof.
  assert (forall cfg ops st uid u,
      config_nonneg cfg -> ledger_nonneg st ->
      Ledger.users (VpsMain.run cfg ops st) !! uid = Some u ->
      (0 <= Ledger.balance u)%Q) as A.
  { intros cfg ops st uid u Hc H Hu.
    destruct (run_nonneg cfg ops st Hc H) as (Hus & _). by apply (Hus uid u). }
  assert (forall cfg ops st uid u,
      botpy_config_nonneg cfg -> botpy_nonneg st -> amounts_not_nan ops ->
      BotPy.users (BotPy.run cfg ops st) !! uid = Some u ->
      nonneg_number (BotPy.balance u)) as B.
  { intros cfg ops st uid u Hc H Hn Hu.
    exact (botpy_run_nonneg cfg ops st Hc Hn H uid u Hu). }
  split; [exact A|]. split.
  { intros cfg ops uid u Hc. apply A; [done|apply ledger_empty_nonneg]. }
  split; [exact B|].
  intros cfg ops uid u Hc Hn. apply B; [done|apply botpy_empty_nonneg|done].
Qed.

Section PayoutRequests.
Import Ledger.

(** C3.  A stored payout request changes only by going from pending to
    approved or from pending to rejected; [/approve] and [/reject] on a
    request that is not pending answer "already <status>" and leave the whole
    state as it is, and no later update changes a processed request. *)
Theorem payout_request_state_machine :
  (forall cfg now rid rest st r,
      payout_requests st !! rid = Some r -> status r <> pending ->
      VpsMain.admin_approve cfg now (ADMIN_ID cfg) (rid :: rest) st
        = (st, RAlready rid (status r)) /\
      VpsMain.admin_reject cfg now (ADMIN_ID cfg) (rid :: rest) st
        = (st, RAlready rid (status r))) /\
  (forall cfg now op st rid r,
      payout_requests st !! rid = Some r -> fresh_id now op st ->
      exists r',
        payout_requests (fst (VpsMain.step cfg now op st)) !! rid = Some r' /\
        (r' = r \/
         (status r = pending /\ (status r' = approved \/ status r' = rejected)))) /\
  (forall cfg ops st rid r,
      payout_requests st !! rid = Some r -> status r <> pending ->
      fresh_run cfg ops st ->
      payout_requests (VpsMain.run cfg ops st) !! rid = Some r).
Proof.
  split; [|split].
  - intros cfg now rid rest st r Hr Hs.
    unfold VpsMain.admin_approve, VpsMain.admin_reject.
    rewrite Z.eqb_refl, Hr. cbn [negb].
    destruct (status r); [done|done|done].
  - intros cfg now op st rid r Hr Hf.
    destruct (step_request cfg now op st rid r Hr Hf) as (r' & H1 & H2).
    exists r'. split; [done|]. destruct H2 as [->|(? & ? & _)]; auto.
  - intros. by apply run_terminal.
Qed.

Lemma payout_request_state_machine_witness :
  VpsMain.admin_reject cfg0 1000070 1 ["REQ_1000050_1234"; "late"] st_done
    = (st_done, RAlready "REQ_1000050_1234" approved) /\
  (exists r',
      payout_requests
        (fst (VpsMain.step cfg0 1000070
                (VpsMain.OpReject 1 ["REQ_1000050_1234"; "late"]) st_pending))
        !! "REQ_1000050_1234" = Some r' /\
      (r' = req_pending \/
       (status req_pending = pending /\
        (status r' = approved \/ status r' = rejected)))) /\
  payout_requests (VpsMain.run cfg0 admin_ops st_done) !! "REQ_1000050_1234"
    = Some req_done.
Proof.
  destruct payout_request_state_machine as (A & B & C).
  split; [|split].
  - apply (A cfg0 1000070%Q "REQ_1000050_1234" ["late"] st_done req_done).
    + reflexivity.
    + discriminate.
  - apply (B cfg0 1000070%Q
             (VpsMain.OpReject 1 ["REQ_1000050_1234"; "late"]) st_pending).
    + reflexivity.
    + exact I.
  - apply (C cfg0 admin_ops st_done).
    + reflexivity.
    + discriminate.
    + simpl. tauto.
Defined.

(** C6.  Rejecting a pending request adds exactly the requested amount to the
    balance of the user who asked and leaves every other field of that user
    record, and every other user record, as it was; this holds for
    [admin_reject] and for [reject_payout]. *)
Theorem reject_restores_balance_only :
  (forall cfg now rid rest st req u,
      payout_requests st !! rid = Some req -> status req = pending ->
      users st !! user_id req = Some u ->
      let st' := fst (VpsMain.admin_reject cfg now (ADMIN_ID cfg) (rid :: rest) st) in
      users st' !! user_id req
        = Some (mkUser (balance u + amount req) (total_earned u)
                  (tasks_completed u) (referrals u) (daily_earned u)
                  (last_activity u) (joined u)) /\
      forall uid, uid <> user_id req -> users st' !! uid = users st !! uid) /\
  (forall cfg now rid reason rest st req u,
      payout_requests st !! rid = Some req -> status req = pending ->
      users st !! user_id req = Some u ->
      let st' := fst (VpsFirst.reject_payout cfg now (ADMIN_ID cfg)
                        (rid :: reason :: rest) st) in
      users st' !! user_id req
        = Some (mkUser (balance u + amount req) (total_earned u)
                  (tasks_completed u) (referrals u) (daily_earned u)
                  (last_activity u) (joined u)) /\
      forall uid, uid <> user_id req -> users st' !! uid = users st !! uid).
Proof.
  split.
  - intros cfg now rid rest st req u Hr Hs Hu st'. subst st'.
    unfold VpsMain.admin_reject.
    rewrite Z.eqb_refl, Hr, Hs. cbn [negb Status_eqb].
    unfold get_user. cbn [users set_requests]. rewrite Hu.
    cbn [fst users set_users set_requests].
    split; [by rewrite lookup_insert_eq|].
    intros uid Hne. by rewrite lookup_insert_ne.
  - intros cfg now rid reason rest st req u Hr Hs Hu st'. subst st'.
    unfold VpsFirst.reject_payout.
    rewrite Z.eqb_refl, Hr, Hs. cbn [negb Status_eqb].
    cbn [users set_requests]. rewrite Hu.
    cbn [fst users set_users set_requests].
    split; [by rewrite lookup_insert_eq|].
    intros uid Hne. by rewrite lookup_insert_ne.
Qed.

Lemma reject_restores_balance_only_witness :
  users (fst (VpsMain.admin_reject cfg0 1000070 1
                ["REQ_1000050_1234"; "late"] st_pending)) !! 42
    = Some (mkUser (0 + 10) 10 10 0 0 1000000 1000000) /\
  users (fst (VpsFirst.reject_payout cfg0 1000070 1
                ["REQ_1000050_1234"; "late"] st_pending)) !! 42
    = Some (mkUser (0 + 10) 10 10 0 0 1000000 1000000).
Proof.
  destruct reject_restores_balance_only as (A & B).
  split.
  - apply (A cfg0 1000070%Q "REQ_1000050_1234" ["late"] st_pending req_pending
             (set_balance user10 0)); reflexivity.
  - apply (B cfg0 1000070%Q "REQ_1000050_1234" "late" [] st_pending req_pending
             (set_balance user10 0)); reflexivity.
Defined.

(** C10.  In the first program, [/reject] on a pending request whose user has
    no record still marks the request rejected, with the processing time and
    the reason as admin note, while the users map stays exactly as it was: no
    balance is credited. *)
Theorem reject_without_user_record :
  forall cfg now rid reason rest st req,
    payout_requests st !! rid = Some req -> status req = pending ->
    users st !! user_id req = None ->
    let st' := fst (VpsFirst.reject_payout cfg now (ADMIN_ID cfg)
                      (rid :: reason :: rest) st) in
    payout_requests st' !! rid
      = Some (mkRequest (user_id req) (username req) (amount req)
                (payment_method req) (payment_address req) rejected
                (created_at req) (Some now) (NoteText (join_sp (reason :: rest)))) /\
    users st' = users st.
Proof.
  intros cfg now rid reason rest st req Hr Hs Hu st'. subst st'.
  unfold VpsFirst.reject_payout.
  rewrite Z.eqb_refl, Hr, Hs. cbn [negb Status_eqb].
  cbn [users set_requests]. rewrite Hu.
  cbn [fst users payout_requests set_requests].
  split; [by rewrite lookup_insert_eq|done].
Qed.

Lemma reject_without_user_record_witness :
  payout_requests (fst (VpsFirst.reject_payout cfg0 1000070 1
                          ["REQ_1000050_1234"; "bad"; "address"] st_orphan))
    !! "REQ_1000050_1234"
    = Some (mkRequest 42 "bob" 10 "faucetpay" "addr@x.y" rejected 1000050
              (Some 1000070%Q) (NoteText "bad address")) /\
  users (fst (VpsFirst.reject_payout cfg0 1000070 1
                ["REQ_1000050_1234"; "bad"; "address"] st_orphan)) = ∅.
Proof.
  apply (reject_without_user_record cfg0 1000070%Q "REQ_1000050_1234" "bad"
           ["address"] st_orphan req_pending); reflexivity.
Defined.

End PayoutRequests.

Section Truncation.

Lemma Qlt_bool_0_num x : Qlt_bool 0 x = (0 <? Qnum x).
Proof.
  unfold Qlt_bool, Qle_bool. destruct x as [n d]. cbn [Qnum Qden].
  rewrite Z.mul_1_r. cbn. destruct n; reflexivity.
Qed.

(** [int(max(0, x))] is [x] rounded down to whole seconds, or 0. *)
Lemma py_int_max0 x : py_int (py_max0 x) = Z.max 0 (Qfloor x).
Proof.
  unfold py_max0. rewrite Qlt_bool_0_num.
  destruct x as [n d]. unfold py_int, Qfloor. cbn [Qnum Qden].
  destruct (0 <? n) eqn:E.
  - apply Z.ltb_lt in E. cbn [Qnum Qden].
    rewrite Z.quot_div_nonneg by lia.
    pose proof (Z.div_pos n (Z.pos d)). lia.
  - apply Z.ltb_ge in E. cbn [Qnum Qden]. rewrite Z.quot_0_l by lia.
    assert (n / Z.pos d <= 0) by (apply Z.div_le_upper_bound; lia). lia.
Qed.

(** [max(0, int(x))] is the same number. *)
Lemma py_max0_int_int x : py_max0_int (py_int x) = Z.max 0 (Qfloor x).
Proof.
  destruct x as [n d]. unfold py_max0_int, py_int, Qfloor. cbn [Qnum Qden].
  destruct (Z.le_gt_cases 0 n) as [Hn|Hn].
  - rewrite Z.quot_div_nonneg by lia.
    pose proof (Z.div_pos n (Z.pos d)).
    destruct (0 <? n / Z.pos d) eqn:E; [apply Z.ltb_lt in E|apply Z.ltb_ge in E]; lia.
  - assert (n ÷ Z.pos d <= 0).
    { replace n with (- (- n)) by lia. rewrite Z.quot_opp_l by lia.
      pose proof (Z.quot_pos (- n) (Z.pos d)). lia. }
    assert (n / Z.pos d <= 0) by (apply Z.div_le_upper_bound; lia).
    destruct (0 <? n ÷ Z.pos d) eqn:E; [apply Z.ltb_lt in E|apply Z.ltb_ge in E]; lia.
Qed.

Lemma truthy_true x : ~ (x == 0)%Q -> truthy x = true.
Proof.
  intros H. unfold truthy. apply negb_true_iff.
  destruct (Qeq_bool x 0) eqn:E; [|done]. by apply Qeq_bool_eq in E.
Qed.

End Truncation.

Section RemainingTime.

Lemma vps_remaining_none now w uid k st :
  Ledger.user_tasks st !! (uid, k) = None ->
  VpsMain.get_remaining_time now w uid k st = 0.
Proof. intros H. unfold VpsMain.get_remaining_time. by rewrite H. Qed.

Lemma vps_remaining_some now w uid k st t0 :
  Ledger.user_tasks st !! (uid, k) = Some t0 -> ~ (t0 == 0)%Q ->
  VpsMain.get_remaining_time now w uid k st = Z.max 0 (Qfloor (w - (now - t0))).
Proof.
  intros H Ht. unfold VpsMain.get_remaining_time.
  rewrite H, (truthy_true t0 Ht). apply py_int_max0.
Qed.

Lemma api_remaining_none now w uid k st :
  api_attempt st uid k = None ->
  ApiBot.get_remaining_time now uid k w st = 0.
Proof.
  intros H. unfold ApiBot.get_remaining_time. unfold api_attempt in H.
  by rewrite H.
Qed.

Lemma api_remaining_some now w uid k st t0 :
  api_attempt st uid k = Some t0 ->
  ApiBot.get_remaining_time now uid k w st = Z.max 0 (Qfloor (w - (now - t0))).
Proof.
  intros H. unfold ApiBot.get_remaining_time. unfold api_attempt in H.
  rewrite H. apply py_max0_int_int.
Qed.

Lemma botpy_remaining_none now w uid k st :
  botpy_attempt st uid k = None ->
  BotPy.get_remaining_time now w uid k st = w.
Proof.
  intros H. unfold BotPy.get_remaining_time. unfold botpy_attempt in H.
  by rewrite H.
Qed.

Lemma botpy_remaining_some now w uid k st t0 :
  botpy_attempt st uid k = Some t0 ->
  BotPy.get_remaining_time now w uid k st
    = inject_Z (Z.max 0 (Qfloor (w - (now - t0)))).
Proof.
  intros H. unfold BotPy.get_remaining_time. unfold botpy_attempt in H.
  rewrite H. by rewrite py_int_max0.
Qed.

End RemainingTime.

(** C9, as amended.  With no attempt, [get_remaining_time] answers 0 in the
    second program of [bot_complete_vps.py] and in [TaskManager], and the
    whole required wait of the task in [bot.py].  With an attempt (whose
    stored start time is not the falsy 0.0, for [bot_complete_vps.py]) it
    answers max(0, wait - elapsed) rounded down to whole seconds. *)
Theorem remaining_time_by_variant :
  (forall now w uid k st,
      Ledger.user_tasks st !! (uid, k) = None ->
      VpsMain.get_remaining_time now w uid k st = 0) /\
  (forall now w uid k st t0,
      Ledger.user_tasks st !! (uid, k) = Some t0 -> ~ (t0 == 0)%Q ->
      VpsMain.get_remaining_time now w uid k st
        = Z.max 0 (Qfloor (w - (now - t0)))) /\
  (forall now w uid k st,
      api_attempt st uid k = None ->
      ApiBot.get_remaining_time now uid k w st = 0) /\
  (forall now w uid k st t0,
      api_attempt st uid k = Some t0 ->
      ApiBot.get_remaining_time now uid k w st
        = Z.max 0 (Qfloor (w - (now - t0)))) /\
  (forall now w uid k st,
      botpy_attempt st uid k = None ->
      BotPy.get_remaining_time now w uid k st = w) /\
  (forall now w uid k st t0,
      botpy_attempt st uid k = Some t0 ->
      BotPy.get_remaining_time now w uid k st
        = inject_Z (Z.max 0 (Qfloor (w - (now - t0))))).
Proof.
  repeat split.
  - apply vps_remaining_none.
  - apply vps_remaining_some.
  - apply api_remaining_none.
  - apply api_remaining_some.
  - apply botpy_remaining_none.
  - apply botpy_remaining_some.
Qed.

Lemma remaining_time_by_variant_witness :
  VpsMain.get_remaining_time 1000010 30 42 "like" st10 = 0 /\
  VpsMain.get_remaining_time 1000010 30 42 "like" st_started
    = Z.max 0 (Qfloor (30 - (1000010 - 1000000))) /\
  ApiBot.get_remaining_time 1000010 42 "like" 30 ast_idle = 0 /\
  ApiBot.get_remaining_time 1000010 42 "like" 30 ast_started
    = Z.max 0 (Qfloor (30 - (1000010 - 1000000))) /\
  BotPy.get_remaining_time 1000010 30 42 "like" BotPy.empty_state = 30%Q /\
  BotPy.get_remaining_time 1000010 30 42 "like" bst_started
    = inject_Z (Z.max 0 (Qfloor (30 - (1000010 - 1000000)))).
Proof.
  destruct remaining_time_by_variant as (A & B & C & D & E & F).
  split; [|split; [|split; [|split; [|split]]]].
  - apply A. reflexivity.
  - apply (B _ _ _ _ _ 1000000%Q); [reflexivity|discriminate].
  - apply C. reflexivity.
  - apply (D _ _ _ _ _ 1000000%Q). reflexivity.
  - apply E. reflexivity.
  - apply (F _ _ _ _ _ 1000000%Q). reflexivity.
Defined.

(** C9 as stated fails in [bot.py]: with no attempt its
    [get_remaining_time] answers the required wait, here 30, not 0. *)
Lemma remaining_time_counterexample :
  botpy_attempt BotPy.empty_state 42 "like" = None /\
  BotPy.get_remaining_time 1000010 30 42 "like" BotPy.empty_state = 30%Q /\
  ~ (BotPy.get_remaining_time 1000010 30 42 "like" BotPy.empty_state == 0)%Q.
Proof. split; [reflexivity|]. split; [reflexivity|]. discriminate. Qed.

Section ClaimOrdering.

Lemma Qle_bool_false a b : Qle_bool a b = false -> (b < a)%Q.
Proof.
  intros H. apply Qnot_le_lt. intros Hle. apply Qle_bool_iff in Hle. congruence.
Qed.


Lemma Qle_bool_lt_false a b : (b < a)%Q -> Qle_bool a b = false.
Proof.
  intros H. destruct (Qle_bool a b) eqn:E; [|done].
  apply Qle_bool_iff in E. lra.
Qed.

Lemma Qfloor_ge_1 x : (1 <= x)%Q -> 1 <= Qfloor x.
Proof. intros H. apply (Qfloor_resp_le 1 x) in H. exact H. Qed.

(** *** [handle_task_claim] of [part_000] *)




Lemma attempt_inv (m : gmap Z (gmap string Q)) uid k t0 :
  m !! uid ≫= (fun ts => ts !! k) = Some t0 ->
  exists ts, m !! uid = Some ts /\ ts !! k = Some t0.
Proof. destruct (m !! uid) as [ts|]; cbn; [eauto|done]. Qed.


(** *** The [verify_] step of [bot.py] *)




(** *** The task button of the second program of [bot_complete_vps.py] *)









End ClaimOrdering.



Section Evaluations.
Import Ledger.

Lemma cfg0_nonneg : config_nonneg cfg0.
Proof.
  split; [|by vm_compute]. unfold cfg0. cbn [TASKS].
  apply map_Forall_singleton. by vm_compute.
Qed.

Lemma st10_nonneg : ledger_nonneg st10.
Proof.
  unfold ledger_nonneg, st10. cbn [users payout_requests user_data].
  split; [|split; apply map_Forall_empty].
  apply map_Forall_singleton. by vm_compute.
Qed.

Lemma bcfg0_nonneg : botpy_config_nonneg bcfg0.
Proof.
  split; [|by vm_compute]. unfold bcfg0. cbn [BotPy.TASKS].
  apply map_Forall_singleton. by vm_compute.
Qed.

Lemma botpy_ops_not_nan : amounts_not_nan botpy_ops.
Proof. unfold amounts_not_nan, botpy_ops. repeat constructor. Qed.

Lemma balance_never_negative_witness :
  Ledger.users (VpsMain.run cfg0 ops_choose_earn_send st10) !! 42
    = Some (mkUser 0 11 11 0 1 1000040 1000000) /\
  (0 <= balance (mkUser 0 11 11 0 1 1000040 1000000))%Q /\
  Ledger.users (VpsMain.run cfg0 [(1000000%Q, VpsMain.OpStart 42 [])] empty_state) !! 42
    = Some (new_user 1000000) /\
  (0 <= balance (new_user 1000000))%Q /\
  BotPy.users (BotPy.run bcfg0 botpy_ops BotPy.empty_state) !! 42
    = Some (BotPy.mkUser "bob" "Bob" (Fin (0 + 1 - 1)) None ["like"] 11 1000000) /\
  nonneg_number
    (BotPy.balance (BotPy.mkUser "bob" "Bob" (Fin (0 + 1 - 1)) None ["like"] 11 1000000)) /\
  nonneg_number
    (BotPy.balance (BotPy.mkUser "bob" "Bob" (Fin (0 + 1 - 1)) None ["like"] 11 1000000)).
Proof.
  destruct balance_never_negative as (A & A0 & B & B0).
  assert (Ledger.users (VpsMain.run cfg0 ops_choose_earn_send st10) !! 42
          = Some (mkUser 0 11 11 0 1 1000040 1000000)) as H1
    by (vm_compute; reflexivity).
  assert (Ledger.users
            (VpsMain.run cfg0 [(1000000%Q, VpsMain.OpStart 42 [])] empty_state) !! 42
          = Some (new_user 1000000)) as H0
    by (vm_compute; reflexivity).
  assert (BotPy.users (BotPy.run bcfg0 botpy_ops BotPy.empty_state) !! 42
          = Some (BotPy.mkUser "bob" "Bob" (Fin (0 + 1 - 1)) None ["like"] 11 1000000))
    as H2 by (vm_compute; reflexivity).
  split; [exact H1|]. split.
  { exact (A cfg0 ops_choose_earn_send st10 42 _ cfg0_nonneg st10_nonneg H1). }
  split; [exact H0|]. split.
  { exact (A0 cfg0 _ 42 _ cfg0_nonneg H0). }
  split; [exact H2|]. split.
  { exact (B bcfg0 botpy_ops BotPy.empty_state 42 _ bcfg0_nonneg
             botpy_empty_nonneg botpy_ops_not_nan H2). }
  exact (B0 bcfg0 botpy_ops 42 _ bcfg0_nonneg botpy_ops_not_nan H2).
Defined.

End Evaluations.

Section PayoutCreation.
Import Ledger.

(** What a successful address step does: the stored amount is the one
    remembered when the method was chosen, and the balance becomes 0. *)
Lemma payout_address_effect cfg now rnd uid uname address st ctx :
  user_data st !! uid = Some ctx ->
  (String.length address <? 5)%nat = false ->
  let rid := generate_request_id now rnd in
  let st' := fst (VpsMain.handle_payout_address cfg now rnd uid uname address st) in
  snd (VpsMain.handle_payout_address cfg now rnd uid uname address st)
    = RPayoutSubmitted rid (payout_amount ctx) /\
  payout_requests st' !! rid
    = Some (mkRequest uid uname (payout_amount ctx) (payout_method ctx) address
              pending now None (NoteText "")) /\
  (exists u, users st' !! uid = Some u /\ balance u = 0%Q) /\
  user_data st' !! uid = None.
Proof.
  intros Hc Hlen rid st'. subst rid st'. unfold VpsMain.handle_payout_address.
  rewrite Hc, Hlen. unfold create_payout_request.
  match goal with |- context [get_user ?n ?u ?s] =>
    destruct (get_user_frame n u s) as (E1 & _ & E3);
    destruct (get_user n u s) as [st2 user] end.
  cbn [fst snd] in *.
  cbn [users payout_requests user_data set_users set_data set_requests] in *.
  split; [done|]. split; [by rewrite E1, lookup_insert_eq|].
  split; [|by rewrite lookup_delete_eq].
  eexists. split; [by rewrite lookup_insert_eq|done].
Qed.

(** C4, at its failing input.  A user with balance 10 chooses FaucetPay (the
    amount 10 is remembered), earns 1 with a task (balance 11) and sends the
    address: the request stores the unchanged amount 10, but the balance
    goes from 11 to 0, so it was not decremented by exactly 10; a rejection
    then gives back 10 only. *)
Theorem payout_debit_ignores_amount :
  user_data (VpsMain.run cfg0 (take 1 ops_choose_earn_send) st10) !! 42
    = Some (mkCtx "faucetpay" 10) /\
  users (VpsMain.run cfg0 (take 3 ops_choose_earn_send) st10) !! 42
    = Some (mkUser 11 11 11 0 1 1000040 1000000) /\
  payout_requests (VpsMain.run cfg0 ops_choose_earn_send st10) !! "REQ_1000050_1234"
    = Some req_pending /\
  amount req_pending = 10%Q /\
  users (VpsMain.run cfg0 ops_choose_earn_send st10) !! 42
    = Some (mkUser 0 11 11 0 1 1000040 1000000) /\
  ~ (11 - amount req_pending == 0)%Q /\
  users (VpsMain.run cfg0
           (ops_choose_earn_send ++
              [(1000070%Q, VpsMain.OpReject 1 ["REQ_1000050_1234"; "late"])]) st10)
    !! 42 = Some (mkUser 10 11 11 0 1 1000040 1000000).
Proof.
  split; [vm_compute; reflexivity|].
  split; [vm_compute; reflexivity|].
  split; [vm_compute; reflexivity|].
  split; [reflexivity|].
  split; [vm_compute; reflexivity|].
  split; [vm_compute; discriminate|].
  vm_compute; reflexivity.
Qed.

(** C5, at its failing input.  With one request pending the "payout" entry
    of the menu refuses, but the FaucetPay button of an older message and the
    address step check nothing: after earning 1 the same user stores a
    second pending request. *)
Theorem second_pending_request_stored :
  List.length (VpsMain.get_user_pending_requests 42
                 (VpsMain.run cfg0 (take 4 ops_two_requests) st10)) = 1%nat /\
  snd (VpsMain.step cfg0 1000105 (VpsMain.OpButton 42 "payout")
         (VpsMain.run cfg0 (take 4 ops_two_requests) st10)) = RPendingExists 1 /\
  snd (VpsMain.step cfg0 1000120 (VpsMain.OpAddress 5678 42 "bob" "addr@x.y")
         (VpsMain.run cfg0 (take 5 ops_two_requests) st10))
    = RPayoutSubmitted "REQ_1000120_5678" 1 /\
  (status <$> payout_requests (VpsMain.run cfg0 ops_two_requests st10)
                !! "REQ_1000050_1234") = Some pending /\
  (status <$> payout_requests (VpsMain.run cfg0 ops_two_requests st10)
                !! "REQ_1000120_5678") = Some pending /\
  List.length (VpsMain.get_user_pending_requests 42
                 (VpsMain.run cfg0 ops_two_requests st10)) = 2%nat.
Proof.
  split; [vm_compute; reflexivity|].
  split; [vm_compute; reflexivity|].
  split; [vm_compute; reflexivity|].
  split; [vm_compute; reflexivity|].
  split; [vm_compute; reflexivity|].
  vm_compute; reflexivity.
Qed.

(** The referral step credits through [add_earnings], whatever the state. *)
Lemma referral_counts_as_task cfg now uid referrer_id rest st rk r :
  String.eqb referrer_id (pretty uid) = false ->
  user_key referrer_id (users st) = Some rk ->
  users st !! rk = Some r ->
  users (referral cfg now uid (referrer_id :: rest) st) !! rk
    = Some (mkUser (balance r + BONUS_REFERRAL cfg)
              (total_earned r + BONUS_REFERRAL cfg) (tasks_completed r + 1)
              (referrals r + 1) (daily_earned r + BONUS_REFERRAL cfg) now
              (joined r)).
Proof.
  intros Hne Hk Hr. unfold referral. rewrite Hne, Hk, Hr. cbn [negb].
  unfold add_earnings, get_user. cbn [users set_users].
  rewrite lookup_insert_eq. cbn [users set_users].
  by rewrite lookup_insert_eq.
Qed.

(** C7, at its failing input.  A referrer with balance 0 and no completed
    task is credited a referral bonus of 1: balance, total and referrals
    become 1, and so does [tasks_completed], in both programs of
    [bot_complete_vps.py] and in [part_000]; [bot.py] only adds the bonus to
    the balance. *)
Theorem referral_increments_tasks_completed :
  users (fst (VpsMain.step cfg0 1000100 (VpsMain.OpStart 7 ["42"]) st_referrer)) !! 42
    = Some (mkUser 1 1 1 1 1 1000100 1000000) /\
  users (fst (start cfg0 1000100 7 ["42"] st_referrer)) !! 42
    = Some (mkUser 1 1 1 1 1 1000100 1000000) /\
  ApiBot.api_users (ApiBot.referral 42 1 ast_referrer) !! 42
    = Some (ApiBot.mkUser (Some 1%Q) (Some 1%Q) (Some 1) (Some 1) (Some 1%Q)
              ApiBot.NoActivity) /\
  tasks_completed (mkUser 1 1 1 1 1 1000100 1000000) <> 0.
Proof.
  split; [vm_compute; reflexivity|].
  split; [vm_compute; reflexivity|].
  split; [vm_compute; reflexivity|].
  vm_compute; discriminate.
Qed.

End PayoutCreation.

Section DailyReset.
Import Ledger.

(** In [bot_complete_vps.py] the reset happens in [can_earn_today]: a credit
    that follows it on a new day leaves only the new amount. *)
Lemma vps_daily_reset cfg now uid amt st u :
  users st !! uid = Some u ->
  date_of (last_activity u) < date_of now ->
  snd (can_earn_today cfg now uid st) = Qlt_bool 0 (DAILY_LIMIT cfg) /\
  users (add_earnings now uid amt (fst (can_earn_today cfg now uid st))) !! uid
    = Some (mkUser (balance u + amt) (total_earned u + amt)
              (tasks_completed u + 1) (referrals u) (0 + amt) now (joined u)).
Proof.
  intros Hu Hd. unfold can_earn_today, get_user. rewrite Hu.
  apply Z.ltb_lt in Hd. rewrite Hd. cbn [fst snd]. split; [done|].
  unfold add_earnings, get_user. cbn [users set_users].
  rewrite lookup_insert_eq. cbn [users set_users].
  by rewrite lookup_insert_eq.
Qed.

(** [can_earn_today] of [part_000] on a new day. *)
Lemma api_can_earn_new_day today user daily_limit last_date :
  ApiBot.lastActivity user = ApiBot.ActivityOn last_date ->
  last_date < today ->
  ApiBot.can_earn_today today user daily_limit = true.
Proof.
  intros H Hd. unfold ApiBot.can_earn_today. rewrite H.
  apply Z.ltb_lt in Hd. by rewrite Hd.
Qed.

(** [add_user_earnings] adds to the stored [dailyEarned] whatever the date
    of the last activity is. *)
Lemma api_credit_adds_to_daily user_id amt st user :
  ApiBot.api_users st !! user_id = Some user ->
  snd (ApiBot.add_user_earnings user_id amt st) = true /\
  (ApiBot.dailyEarned <$>
     ApiBot.api_users (fst (ApiBot.add_user_earnings user_id amt st)) !! user_id)
    = Some (Some (default 0%Q (ApiBot.dailyEarned user) + amt)%Q).
Proof.
  intros Hu. unfold ApiBot.add_user_earnings. rewrite Hu. cbn [fst snd].
  split; [done|]. cbn [ApiBot.api_users ApiBot.set_api_users].
  by rewrite lookup_insert_eq.
Qed.

(** C8, at its failing input.  A user earned 5 yesterday, the daily limit is
    5.  In [part_000] [can_earn_today] answers true, and the credit of 1 that
    follows (a claimed task) stores [dailyEarned] 5 + 1 = 6, not 1:
    [add_user_earnings] never resets it.  In [bot_complete_vps.py] the credit
    of a referral bonus, which is not preceded by [can_earn_today], also
    stores 6, while the credit of a task reward stores 1. *)
Theorem daily_earned_not_reset :
  ApiBot.can_earn_today 11 api_user_yesterday 5 = true /\
  snd (ApiBot.claim 1000030 42 "like" rewards0 ast_yesterday)
    = ApiBot.RCongratulations 1 /\
  ApiBot.api_users (fst (ApiBot.claim 1000030 42 "like" rewards0 ast_yesterday)) !! 42
    = Some (ApiBot.mkUser (Some 6%Q) (Some 6%Q) (Some 6) (Some 0) (Some 6%Q)
              (ApiBot.ActivityOn 10)) /\
  date_of (last_activity user_yesterday) = 10 /\
  date_of 1000030 = 11 /\
  users (fst (start cfg0 1000030 7 ["42"] st_yesterday)) !! 42
    = Some (mkUser 6 6 6 1 6 1000030 800000) /\
  users (add_earnings 1000030 42 1
           (fst (can_earn_today cfg0 1000030 42 st_yesterday))) !! 42
    = Some (mkUser 6 6 6 0 1 1000030 800000).
Proof.
  split; [vm_compute; reflexivity|].
  split; [vm_compute; reflexivity|].
  split; [vm_compute; reflexivity|].
  split; [vm_compute; reflexivity|].
  split; [vm_compute; reflexivity|].
  split; [vm_compute; reflexivity|].
  vm_compute; reflexivity.
Qed.

End DailyReset.

(** * Further properties of the code *)

Section UserKeys.
Context {A : Type}.

(** The search behind [key in users]: it finds exactly the user id whose
    decimal text is [key]. *)
Lemma find_key_sound (us : gmap Z A) key z :
  List.find (fun z => String.eqb (pretty z) key) (map_to_list us).*1 = Some z ->
  pretty z = key /\ is_Some (us !! z).
Proof.
  intros H. apply find_some in H as [Hin Heq].
  apply String.eqb_eq in Heq. split; [done|].
  apply list_elem_of_In, list_elem_of_fmap in Hin as ([k v] & -> & Hkv).
  apply elem_of_map_to_list in Hkv. by exists v.
Qed.

Lemma find_key_complete (us : gmap Z A) z v :
  us !! z = Some v ->
  List.find (fun z' => String.eqb (pretty z') (pretty z)) (map_to_list us).*1
    = Some z.
Proof.
  intros Hz.
  destruct (List.find _ _) as [z'|] eqn:E.
  - apply find_some in E as [_ Heq]. apply String.eqb_eq in Heq.
    by apply (inj pretty) in Heq as ->.
  - exfalso. eapply find_none in E.
    + rewrite String.eqb_refl in E. discriminate E.
    + apply list_elem_of_In, list_elem_of_fmap. exists (z, v).
      split; [done|]. by apply elem_of_map_to_list.
Qed.

Lemma find_key_none (us : gmap Z A) key :
  (forall z, is_Some (us !! z) -> pretty z <> key) ->
  List.find (fun z => String.eqb (pretty z) key) (map_to_list us).*1 = None.
Proof.
  intros H. destruct (List.find _ _) as [z|] eqn:E; [|done].
  apply find_key_sound in E as [Hk Hs]. by destruct (H z Hs).
Qed.

End UserKeys.

Section VpsReferral.
Import Ledger.

Lemma get_user_lookup now uid st :
  users (fst (get_user now uid st)) !! uid = Some (snd (get_user now uid st)).
Proof.
  unfold get_user. destruct (users st !! uid) eqn:E; [done|].
  cbn [fst snd users set_users]. by rewrite lookup_insert_eq.
Qed.

Lemma referral_credit cfg now uid rk rest st r :
  rk <> uid -> users st !! rk = Some r ->
  referral cfg now uid (pretty rk :: rest) st
    = set_users st
        (<[rk := mkUser (balance r + BONUS_REFERRAL cfg)
                   (total_earned r + BONUS_REFERRAL cfg) (tasks_completed r + 1)
                   (referrals r + 1) (daily_earned r + BONUS_REFERRAL cfg) now
                   (joined r)]> (users st)).
Proof.
  intros Hne Hr. unfold referral.
  assert (String.eqb (pretty rk) (pretty uid) = false) as ->.
  { apply String.eqb_neq. intros E. by apply (inj pretty) in E. }
  cbn [negb]. unfold user_key. rewrite (find_key_complete _ _ _ Hr), Hr.
  unfold add_earnings, get_user. cbn [users set_users].
  rewrite lookup_insert_eq. cbn [users set_users payout_requests user_tasks user_data].
  by rewrite insert_insert_eq.
Qed.

(** [/start] with an argument that names the sender or no stored user does
    what [get_user] does and no more. *)
Lemma start_no_referrer cfg now uid referrer_id rest st :
  referrer_id = pretty uid \/
  (forall z, is_Some (users st !! z) -> pretty z <> referrer_id) ->
  fst (start cfg now uid (referrer_id :: rest) st) = fst (get_user now uid st).
Proof.
  intros H. unfold start.
  assert (forall z, is_Some (users (fst (get_user now uid st)) !! z) ->
                    z = uid \/ is_Some (users st !! z)) as Hz.
  { intros z. unfold get_user. destruct (users st !! uid) eqn:E; cbn [fst].
    - by right.
    - cbn [users set_users]. destruct (decide (z = uid)) as [->|Hne]; [by left|].
      rewrite lookup_insert_ne by done. by right. }
  destruct (get_user now uid st) as [st1 u]. cbn [fst] in *.
  unfold referral.
  destruct (String.eqb referrer_id (pretty uid)) eqn:E; [done|]. cbn [negb].
  apply String.eqb_neq in E.
  destruct H as [->|H]; [done|].
  unfold user_key. rewrite find_key_none; [done|].
  intros z Hs. destruct (Hz z Hs) as [->|Hs']; [by intros <-|by apply H].
Qed.

(** X1.  [/start] of both programs of [bot_complete_vps.py].  With an
    argument naming the sender, or naming no stored user, nobody is
    credited: the only change is the record with zero amounts that
    [get_user] creates for a sender seen for the first time.  An argument
    naming another stored user credits that user the bonus and one
    referral, whether or not the sender is new: the same sender sending
    [/start <id>] twice makes the referrer receive the bonus twice. *)
Theorem vps_referral_behaviour :
  (forall cfg now uid referrer_id rest st,
      referrer_id = pretty uid \/
      (forall z, is_Some (users st !! z) -> pretty z <> referrer_id) ->
      let st' := fst (start cfg now uid (referrer_id :: rest) st) in
      users st'
        = match users st !! uid with
          | Some _ => users st
          | None => <[uid := mkUser 0 0 0 0 0 now now]> (users st)
          end /\
      payout_requests st' = payout_requests st /\
      user_tasks st' = user_tasks st /\
      user_data st' = user_data st) /\
  (forall cfg now uid rk rest st r,
      rk <> uid -> users st !! rk = Some r ->
      let st' := fst (start cfg now uid (pretty rk :: rest) st) in
      users st' !! rk
        = Some (mkUser (balance r + BONUS_REFERRAL cfg)
                  (total_earned r + BONUS_REFERRAL cfg) (tasks_completed r + 1)
                  (referrals r + 1) (daily_earned r + BONUS_REFERRAL cfg) now
                  (joined r)) /\
      is_Some (users st' !! uid) /\
      forall other, other <> rk -> other <> uid ->
        users st' !! other = users st !! other) /\
  (forall cfg now now' uid rk rest st r,
      rk <> uid -> users st !! rk = Some r ->
      let st'' := fst (start cfg now' uid (pretty rk :: rest)
                         (fst (start cfg now uid (pretty rk :: rest) st))) in
      exists r'', users st'' !! rk = Some r'' /\
        balance r'' = (balance r + BONUS_REFERRAL cfg + BONUS_REFERRAL cfg)%Q /\
        referrals r'' = referrals r + 2).
Proof.
  assert (forall cfg now uid rk rest st r,
      rk <> uid -> users st !! rk = Some r ->
      let st' := fst (start cfg now uid (pretty rk :: rest) st) in
      users st' !! rk
        = Some (mkUser (balance r + BONUS_REFERRAL cfg)
                  (total_earned r + BONUS_REFERRAL cfg) (tasks_completed r + 1)
                  (referrals r + 1) (daily_earned r + BONUS_REFERRAL cfg) now
                  (joined r)) /\
      is_Some (users st' !! uid) /\
      forall other, other <> rk -> other <> uid ->
        users st' !! other = users st !! other) as C.
  { intros cfg now uid rk rest st r Hne Hr st'. subst st'. unfold start.
    assert (users (fst (get_user now uid st)) !! rk = Some r) as Hr1.
    { unfold get_user. destruct (users st !! uid); [done|].
      cbn [fst users set_users]. by rewrite lookup_insert_ne. }
    assert (is_Some (users (fst (get_user now uid st)) !! uid)) as Hu1.
    { by rewrite get_user_lookup. }
    assert (forall other, other <> uid ->
              users (fst (get_user now uid st)) !! other = users st !! other) as Ho.
    { intros other Ho. unfold get_user. destruct (users st !! uid); [done|].
      cbn [fst users set_users]. by rewrite lookup_insert_ne. }
    destruct (get_user now uid st) as [st1 u]. cbn [fst] in *.
    rewrite (referral_credit cfg now uid rk rest st1 r Hne Hr1).
    cbn [users set_users]. split; [by rewrite lookup_insert_eq|].
    split; [by rewrite lookup_insert_ne|].
    intros other H1 H2. rewrite lookup_insert_ne by done. by apply Ho. }
  split.
  { intros cfg now uid referrer_id rest st H st'. subst st'.
    rewrite (start_no_referrer cfg now uid referrer_id rest st H).
    unfold get_user. by destruct (users st !! uid). }
  split; [exact C|].
  intros cfg now now' uid rk rest st r Hne Hr st''. subst st''.
  destruct (C cfg now uid rk rest st r Hne Hr) as (H1 & _).
  destruct (C cfg now' uid rk rest _ _ Hne H1) as (H2 & _).
  eexists. split; [exact H2|]. cbn [balance referrals]. split; [done|lia].
Qed.

Lemma vps_referral_behaviour_witness :
  users (fst (start cfg0 1000100 7 ["999"] st_two_users))
    = match users st_two_users !! 7 with
      | Some _ => users st_two_users
      | None => <[7 := mkUser 0 0 0 0 0 1000100 1000100]> (users st_two_users)
      end /\
  users (fst (start cfg0 1000100 5 ["5"] st_two_users))
    = match users st_two_users !! 5 with
      | Some _ => users st_two_users
      | None => <[5 := mkUser 0 0 0 0 0 1000100 1000100]> (users st_two_users)
      end /\
  users (fst (start cfg0 1000100 7 ["42"] st_two_users)) !! 42
    = Some (mkUser (10 + 1) (10 + 1) (10 + 1) (0 + 1) (0 + 1) 1000100 1000000) /\
  (exists r'',
      users (fst (start cfg0 1000200 7 ["42"]
                    (fst (start cfg0 1000100 7 ["42"] st_two_users)))) !! 42
        = Some r'' /\
      balance r'' = (10 + 1 + 1)%Q /\ referrals r'' = 0 + 2).
Proof.
  destruct vps_referral_behaviour as (B & C & D).
  split; [|split; [|split]].
  - apply (B cfg0 1000100%Q 7 "999" [] st_two_users). right.
    intros z [u Hz]. unfold st_two_users in Hz. cbn [users] in Hz.
    apply lookup_insert_Some in Hz as [[<- _]|[_ Hz]]; [discriminate|].
    apply lookup_singleton_Some in Hz as [<- _]. discriminate.
  - apply (B cfg0 1000100%Q 5 "5" [] st_two_users). by left.
  - apply (C cfg0 1000100%Q 7 42 [] st_two_users user10); [discriminate|reflexivity].
  - apply (D cfg0 1000100%Q 1000200%Q 7 42 [] st_two_users user10);
      [discriminate|reflexivity].
Defined.

End VpsReferral.

Section AdminCommands.
Import Ledger.

(** X2.  Only the configured admin processes payout requests: from any other
    sender [/approve] and [/reject] leave the whole state as it is, in both
    programs of [bot_complete_vps.py] (the second answers "access denied",
    the first stays silent). *)
Theorem admin_commands_need_admin :
  forall cfg now caller args st,
    caller <> ADMIN_ID cfg ->
    VpsMain.admin_approve cfg now caller args st = (st, RAccessDenied) /\
    VpsMain.admin_reject cfg now caller args st = (st, RAccessDenied) /\
    VpsFirst.approve_payout cfg now caller args st = (st, RIgnored) /\
    VpsFirst.reject_payout cfg now caller args st = (st, RIgnored).
Proof.
  intros cfg now caller args st Hne.
  unfold VpsMain.admin_approve, VpsMain.admin_reject,
    VpsFirst.approve_payout, VpsFirst.reject_payout.
  apply Z.eqb_neq in Hne. by rewrite Hne.
Qed.

Lemma admin_commands_need_admin_witness :
  VpsMain.admin_approve cfg0 1000070 42 ["REQ_1000050_1234"] st_pending
    = (st_pending, RAccessDenied) /\
  VpsMain.admin_reject cfg0 1000070 42 ["REQ_1000050_1234"] st_pending
    = (st_pending, RAccessDenied) /\
  VpsFirst.approve_payout cfg0 1000070 42 ["REQ_1000050_1234"] st_pending
    = (st_pending, RIgnored) /\
  VpsFirst.reject_payout cfg0 1000070 42 ["REQ_1000050_1234"] st_pending
    = (st_pending, RIgnored).
Proof.
  apply (admin_commands_need_admin cfg0 1000070%Q 42 ["REQ_1000050_1234"] st_pending).
  discriminate.
Defined.

(** X3.  [/approve] by the admin: without an argument it answers the usage text,
    for an id that is not stored "not found", both without any change; for a
    pending request it records the approval and the processing time on that
    request only, keeps the requester, amount, method and address, and
    touches no user record: approving moves no money. *)
Theorem admin_approve_effect :
  (forall cfg now st,
      VpsMain.admin_approve cfg now (ADMIN_ID cfg) [] st = (st, RUsage)) /\
  (forall cfg now rid rest st,
      payout_requests st !! rid = None ->
      VpsMain.admin_approve cfg now (ADMIN_ID cfg) (rid :: rest) st
        = (st, RNotFound rid)) /\
  (forall cfg now rid rest st req,
      payout_requests st !! rid = Some req -> status req = pending ->
      let st' := fst (VpsMain.admin_approve cfg now (ADMIN_ID cfg) (rid :: rest) st) in
      snd (VpsMain.admin_approve cfg now (ADMIN_ID cfg) (rid :: rest) st)
        = RApproved rid /\
      payout_requests st' !! rid
        = Some (mkRequest (user_id req) (username req) (amount req)
                  (payment_method req) (payment_address req) approved
                  (created_at req) (Some now) (NoteApprovedOn now)) /\
      (forall other, other <> rid ->
         payout_requests st' !! other = payout_requests st !! other) /\
      users st' = users st /\ user_tasks st' = user_tasks st /\
      user_data st' = user_data st).
Proof.
  split; [|split].
  - intros. unfold VpsMain.admin_approve. by rewrite Z.eqb_refl.
  - intros cfg now rid rest st H. unfold VpsMain.admin_approve.
    by rewrite Z.eqb_refl, H.
  - intros cfg now rid rest st req H Hs st'. subst st'.
    unfold VpsMain.admin_approve. rewrite Z.eqb_refl, H, Hs.
    cbn [negb Status_eqb fst snd payout_requests users user_tasks user_data
         set_requests].
    split; [done|]. split; [by rewrite lookup_insert_eq|].
    split; [|done]. intros other Ho. by rewrite lookup_insert_ne.
Qed.

Lemma admin_approve_effect_witness :
  VpsMain.admin_approve cfg0 1000060 1 ["REQ_0_0"] st_pending
    = (st_pending, RNotFound "REQ_0_0") /\
  payout_requests
    (fst (VpsMain.admin_approve cfg0 1000060 1 ["REQ_1000050_1234"] st_pending))
    !! "REQ_1000050_1234" = Some req_done /\
  users (fst (VpsMain.admin_approve cfg0 1000060 1 ["REQ_1000050_1234"] st_pending))
    = users st_pending.
Proof.
  destruct admin_approve_effect as (_ & B & C).
  split; [|split].
  - apply (B cfg0 1000060%Q "REQ_0_0" [] st_pending). reflexivity.
  - apply (C cfg0 1000060%Q "REQ_1000050_1234" [] st_pending req_pending);
      reflexivity.
  - apply (C cfg0 1000060%Q "REQ_1000050_1234" [] st_pending req_pending);
      reflexivity.
Defined.

End AdminCommands.

Section BotPyWithdrawals.
Import BotPy.

(** [handle_message] either leaves the state alone and answers with one of
    its refusals, or records the withdrawal. *)
Lemma withdrawal_effect_cases cfg now uid msg sent st :
  (fst (handle_message cfg now uid msg sent st) = st /\
   (forall amt, snd (handle_message cfg now uid msg sent st)
                <> RWithdrawalSubmitted amt) /\
   snd (handle_message cfg now uid msg sent st) <> RErrorOccurred) \/
  exists u method account amt m,
    msg = MsgWithdraw method account (Some amt) /\
    withdrawal_recorded cfg now uid u method account amt m st
      (fst (handle_message cfg now uid msg sent st)) /\
    snd (handle_message cfg now uid msg sent st)
      = if sent then RWithdrawalSubmitted amt else RErrorOccurred.
Proof.
  unfold handle_message.
  destruct (users st !! uid) as [u|] eqn:Hu; [|by left].
  destruct msg as [method account [amt|]|]; try by left.
  destruct (MIN_WITHDRAW cfg !! method) as [m|] eqn:Hm; [|by left].
  destruct (flt amt (Fin m)) eqn:H1; [by left|].
  destruct (flt (balance u) amt) eqn:H2; [by left|].
  right. exists u, method, account, amt, m. cbn [fst snd].
  split; [done|]. split; [|done].
  unfold withdrawal_recorded. cbn [users withdrawals user_tasks].
  split; [done|]. split; [done|]. split; [done|]. split; [done|].
  split; [done|]. split; [done|]. split; [done|].
  intros b Hb Hn. rewrite Hb in H2.
  destruct (accepted_amount_number b amt m Hn H1 H2) as (a & -> & Hma & Hab).
  exists a. by rewrite Hb.
Qed.


Lemma handle_message_withdrawals cfg now uid msg sent st :
  exists l,
    withdrawals (fst (handle_message cfg now uid msg sent st))
      = withdrawals st ++ l /\
    Forall (fun w => exists m, MIN_WITHDRAW cfg !! w_method w = Some m /\
                               flt (w_amount w) (Fin m) = false) l /\
    (botpy_numbers st -> amount_not_nan (OpMessage uid msg sent) ->
     Forall (fun w => exists m a, MIN_WITHDRAW cfg !! w_method w = Some m /\
                                  w_amount w = Fin a /\ (m <= a)%Q) l).
Proof.
  destruct (withdrawal_effect_cases cfg now uid msg sent st)
    as [(-> & _)|(u & method & account & amt & m & -> & Hrec & _)].
  - exists []. rewrite app_nil_r. split; [done|]. split; [constructor|].
    intros _ _. constructor.
  - destruct Hrec as (Hu & Hm & H1 & H2 & _ & -> & _ & Hfin).
    eexists. split; [reflexivity|]. split.
    + apply Forall_singleton. cbn [w_method w_amount]. eauto.
    + intros Hnum Hn. apply Forall_singleton. cbn [w_method w_amount].
      pose proof (Hnum uid u Hu) as Hb. cbn beta in Hb.
      destruct (balance u) as [b| | |] eqn:Eb; try done.
      assert (amt <> NaN) as Hn' by (intros ->; exact Hn).
      destruct (Hfin b eq_refl Hn') as (a & -> & Hma & _). eauto.
Qed.

Lemma botpy_start_withdrawals cfg now uid uname nm args st :
  withdrawals (fst (start cfg now uid uname nm args st)) = withdrawals st.
Proof.
  unfold start. cbn [fst]. unfold reset_daily_tasks. cbn [withdrawals set_users].
  destruct (users st !! uid); [done|].
  unfold referral_bonus, ensure_user.
  destruct args as [|a ?]; [by destruct (users st !! uid)|].
  destruct (isdigit a); [|by destruct (users st !! uid)].
  destruct (user_key _ _); [|by destruct (users st !! uid)].
  destruct (users _ !! z); by destruct (users st !! uid).
Qed.

Lemma handle_callback_withdrawals cfg now uid uname nm data st :
  withdrawals (fst (handle_callback cfg now uid uname nm data st)) = withdrawals st.
Proof.
  unfold handle_callback.
  assert (withdrawals (reset_daily_tasks now (ensure_user now uid uname nm None st))
          = withdrawals st) as E.
  { unfold reset_daily_tasks, ensure_user. by destruct (users st !! uid). }
  destruct (users _ !! uid) as [u|]; [|done].
  destruct (TASKS cfg !! data).
  { unfold task_chosen. destruct (_ >=? _); [done|]. by destruct (existsb _ _). }
  destruct (startswith _ _).
  { unfold verify. destruct (TASKS cfg !! _); [|done].
    destruct (negb _); [done|]. by destruct (users _ !! uid). }
  repeat (match goal with |- context [if ?b then _ else _] => destruct b end); done.
Qed.

(** X5.  The withdrawals of [bot.py] are only ever appended to: whatever
    updates arrive, the entries recorded before stay in place, and every
    entry a run adds names a method with a configured minimum and an amount
    that is not below it in Python's float comparison.  When the stored
    balances are numbers and no message asks for the amount NaN, every added
    amount is a number of at least that minimum. *)
Theorem withdrawals_append_only :
  (forall cfg ops st,
      exists l,
        withdrawals (run cfg ops st) = withdrawals st ++ l /\
        Forall (fun w => exists m, MIN_WITHDRAW cfg !! w_method w = Some m /\
                                   flt (w_amount w) (Fin m) = false) l) /\
  (forall cfg ops st,
      botpy_numbers st -> amounts_not_nan ops ->
      exists l,
        withdrawals (run cfg ops st) = withdrawals st ++ l /\
        Forall (fun w => exists m a, MIN_WITHDRAW cfg !! w_method w = Some m /\
                                     w_amount w = Fin a /\ (m <= a)%Q) l).
Proof.
  split.
  - intros cfg ops. induction ops as [|[now op] ops IH]; intros st; cbn [run].
    { exists []. by rewrite app_nil_r. }
    destruct (IH (fst (step cfg now op st))) as (l & -> & Hl).
    destruct op as [uid uname nm args|uid uname nm data|uid msg sent]; cbn [step].
    + rewrite botpy_start_withdrawals. eauto.
    + rewrite handle_callback_withdrawals. eauto.
    + destruct (handle_message_withdrawals cfg now uid msg sent st)
        as (l1 & -> & Hl1 & _).
      exists (l1 ++ l). rewrite <- app_assoc. split; [done|].
      by apply Forall_app.
  - intros cfg ops. induction ops as [|[now op] ops IH]; intros st Hnum Hn;
      cbn [run].
    { exists []. by rewrite app_nil_r. }
    pose proof Hn as Hn0. apply Forall_cons_1 in Hn as [Hop Hn].
    assert (botpy_numbers (fst (step cfg now op st))) as Hnum1.
    { apply (botpy_run_numbers cfg [(now, op)] st); [|done].
      by apply Forall_singleton. }
    destruct (IH (fst (step cfg now op st)) Hnum1 Hn) as (l & -> & Hl).
    destruct op as [uid uname nm args|uid uname nm data|uid msg sent]; cbn [step].
    + rewrite botpy_start_withdrawals. eauto.
    + rewrite handle_callback_withdrawals. eauto.
    + destruct (handle_message_withdrawals cfg now uid msg sent st)
        as (l1 & -> & _ & Hl1).
      exists (l1 ++ l). rewrite <- app_assoc. split; [done|].
      apply Forall_app. split; [by apply Hl1|done].
Qed.

Lemma withdrawals_append_only_witness :
  exists l,
    withdrawals (run bcfg0 botpy_ops empty_state) = withdrawals empty_state ++ l /\
    Forall (fun w => exists m a, MIN_WITHDRAW bcfg0 !! w_method w = Some m /\
                                 w_amount w = Fin a /\ (m <= a)%Q) l.
Proof.
  destruct withdrawals_append_only as [_ B].
  apply (B bcfg0 botpy_ops empty_state).
  - apply map_Forall_empty.
  - exact botpy_ops_not_nan.
Defined.


(** The amount NaN passes both guards of [handle_message], whatever the
    balance: [nan < minimum] and [balance < nan] are both false. *)
Lemma flt_nan_r x : flt x NaN = false.
Proof. by destruct x. Qed.

Lemma fsub_nan_r x : fsub x NaN = NaN.
Proof. by destruct x. Qed.

(** X21.  [bot.py] accepts a withdrawal whose amount is NaN ([float] reads
    the text "nan"): for a registered sender and a known method the request
    is recorded with the amount NaN and the balance becomes NaN.  A balance
    that is NaN is never "insufficient": every later amount that is not
    below the minimum is accepted, and the balance stays NaN. *)
Theorem nan_withdrawal_accepted :
  (forall cfg now uid method account sent st u m,
      users st !! uid = Some u ->
      MIN_WITHDRAW cfg !! method = Some m ->
      handle_message cfg now uid (MsgWithdraw method account (Some NaN)) sent st
        = (mkState (<[uid := set_balance u NaN]> (users st))
             (withdrawals st ++
                [mkWithdrawal uid (username u) method account NaN now])
             (user_tasks st),
           if sent then RWithdrawalSubmitted NaN else RErrorOccurred)) /\
  (forall cfg now uid method account amt sent st u m,
      users st !! uid = Some u -> balance u = NaN ->
      MIN_WITHDRAW cfg !! method = Some m ->
      flt amt (Fin m) = false ->
      handle_message cfg now uid (MsgWithdraw method account (Some amt)) sent st
        = (mkState (<[uid := set_balance u NaN]> (users st))
             (withdrawals st ++
                [mkWithdrawal uid (username u) method account amt now])
             (user_tasks st),
           if sent then RWithdrawalSubmitted amt else RErrorOccurred)).
Proof.
  split.
  - intros cfg now uid method account sent st u m Hu Hm.
    unfold handle_message. rewrite Hu, Hm. cbn [flt].
    by rewrite flt_nan_r, fsub_nan_r.
  - intros cfg now uid method account amt sent st u m Hu Hb Hm Hmin.
    unfold handle_message. rewrite Hu, Hm, Hmin, Hb. by destruct amt.
Qed.

Lemma nan_withdrawal_accepted_witness :
  handle_message bcfg0 1000050 42 (MsgWithdraw "faucetpay" "a@b.c" (Some NaN)) true
    bst_started
    = (mkState
         (<[42 := set_balance (mkUser "bob" "Bob" (Fin 0) None [] 11 1000000) NaN]>
            (users bst_started))
         (withdrawals bst_started ++
            [mkWithdrawal 42 "bob" "faucetpay" "a@b.c" NaN 1000050])
         (user_tasks bst_started),
       RWithdrawalSubmitted NaN) /\
  snd (handle_message bcfg0 1000060 42
         (MsgWithdraw "faucetpay" "a@b.c" (Some (Fin 1000))) true
         (fst (handle_message bcfg0 1000050 42
                 (MsgWithdraw "faucetpay" "a@b.c" (Some NaN)) true bst_started)))
    = RWithdrawalSubmitted (Fin 1000).
Proof.
  destruct nan_withdrawal_accepted as [A B].
  split.
  - apply (A bcfg0 1000050%Q 42 "faucetpay" "a@b.c" true bst_started
             (mkUser "bob" "Bob" (Fin 0) None [] 11 1000000) (1 # 20)%Q);
      reflexivity.
  - rewrite (B bcfg0 1000060%Q 42 "faucetpay" "a@b.c" (Fin 1000) true
               (fst (handle_message bcfg0 1000050 42
                       (MsgWithdraw "faucetpay" "a@b.c" (Some NaN)) true bst_started))
               (mkUser "bob" "Bob" NaN None [] 11 1000000) (1 # 20)%Q);
      reflexivity.
Defined.

End BotPyWithdrawals.

Section BotPyDaily.
Import BotPy.

(** X6.  [reset_daily_tasks] of [bot.py]: afterwards every user carries today's
    date; a user already reset today is left exactly as stored, any other
    user loses the list of completed tasks and nothing else; balances,
    withdrawals and task timers are kept, and a second reset on the same day
    changes nothing more. *)
Theorem reset_daily_tasks_effect :
  forall now st,
    (forall uid,
        users (reset_daily_tasks now st) !! uid
          = (fun u => if last_reset u =? date_of now then u
                      else mkUser (username u) (name u) (balance u) (ref u) []
                                  (date_of now) (join_date u))
              <$> users st !! uid) /\
    (forall uid u', users (reset_daily_tasks now st) !! uid = Some u' ->
        last_reset u' = date_of now /\
        exists u, users st !! uid = Some u /\ balance u' = balance u /\
                  username u' = username u /\ join_date u' = join_date u) /\
    withdrawals (reset_daily_tasks now st) = withdrawals st /\
    user_tasks (reset_daily_tasks now st) = user_tasks st /\
    reset_daily_tasks now (reset_daily_tasks now st) = reset_daily_tasks now st.
Proof.
  intros now st.
  assert (forall uid,
        users (reset_daily_tasks now st) !! uid
          = (fun u => if last_reset u =? date_of now then u
                      else mkUser (username u) (name u) (balance u) (ref u) []
                                  (date_of now) (join_date u))
              <$> users st !! uid) as A.
  { intros uid. unfold reset_daily_tasks. cbn [users set_users].
    by rewrite lookup_fmap. }
  split; [exact A|]. split.
  { intros uid u' Hu'. rewrite A in Hu'.
    apply fmap_Some in Hu' as (u & Hu & ->). cbv beta.
    destruct (last_reset u =? date_of now) eqn:E.
    - apply Z.eqb_eq in E. split; [done|]. by exists u.
    - cbn [last_reset balance username join_date]. split; [done|]. by exists u. }
  split; [done|]. split; [done|].
  unfold reset_daily_tasks. cbn [users withdrawals user_tasks set_users].
  unfold set_users. cbn [users withdrawals user_tasks]. f_equal.
  rewrite <- map_fmap_compose. apply map_fmap_ext. intros uid u _.
  unfold compose.
  destruct (last_reset u =? date_of now) eqn:E; [by rewrite E|].
  cbn [last_reset]. by rewrite Z.eqb_refl.
Qed.

Lemma reset_daily_tasks_effect_witness :
  users (reset_daily_tasks 1000000 bst_old_day) !! 42
    = Some (mkUser "bob" "Bob" (Fin 3) None [] 11 800000) /\
  last_reset (mkUser "bob" "Bob" (Fin 3) None [] 11 800000) = date_of 1000000 /\
  exists u, users bst_old_day !! 42 = Some u /\
            balance (mkUser "bob" "Bob" (Fin 3) None [] 11 800000) = balance u /\
            username (mkUser "bob" "Bob" (Fin 3) None [] 11 800000) = username u /\
            join_date (mkUser "bob" "Bob" (Fin 3) None [] 11 800000) = join_date u.
Proof.
  assert (users (reset_daily_tasks 1000000 bst_old_day) !! 42
          = Some (mkUser "bob" "Bob" (Fin 3) None [] 11 800000)) as H
    by (vm_compute; reflexivity).
  split; [exact H|].
  destruct (reset_daily_tasks_effect 1000000%Q bst_old_day) as (_ & B & _).
  exact (B 42 _ H).
Defined.

(** *** No task is rewarded twice on one day *)

Lemma existsb_eqb_false k l :
  existsb (String.eqb k) l = false -> k ∉ l.
Proof.
  intros H Hin. apply list_elem_of_In in Hin.
  assert (existsb (String.eqb k) l = true) as Ht.
  { apply existsb_exists. exists k. split; [done|apply String.eqb_refl]. }
  congruence.
Qed.

Lemma botpy_attempt_set_users st us uid k :
  botpy_attempt (set_users st us) uid k = botpy_attempt st uid k.
Proof. done. Qed.

Lemma claims_ok_set_user st uid u u' :
  botpy_claims_ok st -> users st !! uid = Some u ->
  completed_tasks u' = completed_tasks u ->
  botpy_claims_ok (set_users st (<[uid := u']> (users st))).
Proof.
  intros H Hu Hc uid' x Hx. cbn [users set_users] in Hx.
  setoid_rewrite botpy_attempt_set_users.
  destruct (decide (uid = uid')) as [<-|Hne].
  - rewrite lookup_insert_eq in Hx. injection Hx as <-. rewrite Hc. by apply H.
  - rewrite lookup_insert_ne in Hx by done. by apply H.
Qed.

Lemma claims_ok_reset now st :
  botpy_claims_ok st -> botpy_claims_ok (reset_daily_tasks now st).
Proof.
  intros H uid u' Hu'. unfold reset_daily_tasks in Hu'. cbn [users set_users] in Hu'.
  rewrite lookup_fmap in Hu'. apply fmap_Some in Hu' as (u & Hu & ->).
  destruct (last_reset u =? date_of now).
  - by apply H.
  - cbn [completed_tasks]. split; [constructor|]. intros k Hk.
    by apply elem_of_nil in Hk.
Qed.

Lemma claims_ok_ensure now uid uname nm r st :
  botpy_claims_ok st -> botpy_claims_ok (ensure_user now uid uname nm r st).
Proof.
  intros H. unfold ensure_user. destruct (users st !! uid) eqn:E; [done|].
  intros uid' x Hx. cbn [users set_users] in Hx.
  destruct (decide (uid = uid')) as [<-|Hne].
  - rewrite lookup_insert_eq in Hx. injection Hx as <-. cbn [completed_tasks].
    split; [constructor|]. intros k Hk. by apply elem_of_nil in Hk.
  - rewrite lookup_insert_ne in Hx by done. by apply H.
Qed.

Lemma claims_ok_referral cfg r st :
  botpy_claims_ok st -> botpy_claims_ok (referral_bonus cfg r st).
Proof.
  intros H. unfold referral_bonus. destruct r as [rf|]; [|done].
  destruct (isdigit rf); [|done].
  destruct (user_key rf (users st)) as [rk|]; [|done].
  destruct (users st !! rk) as [ru|] eqn:E; [|done].
  by apply (claims_ok_set_user st rk ru).
Qed.

Lemma claims_ok_task_chosen cfg now uid data u st :
  botpy_claims_ok st -> users st !! uid = Some u ->
  botpy_claims_ok (fst (task_chosen cfg now uid data u st)).
Proof.
  intros H Hu. unfold task_chosen. destruct (_ >=? _); [done|].
  destruct (existsb _ _) eqn:E; [done|]. apply existsb_eqb_false in E.
  cbn [fst]. intros uid' x Hx. cbn [users start_task_timer set_tasks] in Hx.
  destruct (H uid' x Hx) as [Hnd Hk]. split; [done|].
  intros k Hin. unfold botpy_attempt, start_task_timer. cbn [user_tasks set_tasks].
  destruct (decide (uid = uid')) as [<-|Hne].
  - rewrite lookup_insert_eq. cbn.
    assert (x = u) as -> by congruence.
    rewrite lookup_insert_ne by (intros ->; done).
    specialize (Hk k Hin). unfold botpy_attempt in Hk.
    destruct (user_tasks st !! uid) as [ts|]; [exact Hk|done].
  - rewrite lookup_insert_ne by done. by apply Hk.
Qed.

Lemma claims_ok_verify cfg now uid k st :
  botpy_claims_ok st -> botpy_claims_ok (fst (verify cfg now uid k st)).
Proof.
  intros H. unfold verify.
  destruct (TASKS cfg !! k) as [task|]; [|done].
  unfold is_task_completed.
  destruct (user_tasks st !! uid ≫= (fun ts => ts !! k)) as [t0|] eqn:Ha; [|done].
  destruct (Qle_bool _ _); [|done]. cbn [negb].
  destruct (users st !! uid) as [u|] eqn:Hu; [|done].
  destruct (attempt_inv _ _ _ _ Ha) as (ts & Hts & Hk).
  cbn [fst users user_tasks set_users set_tasks]. rewrite Hts.
  intros uid' x Hx. cbn [users set_users set_tasks] in Hx.
  unfold botpy_attempt. cbn [user_tasks set_tasks].
  destruct (decide (uid = uid')) as [<-|Hne].
  - rewrite lookup_insert_eq in Hx. injection Hx as <-. cbn [completed_tasks].
    destruct (H uid u Hu) as [Hnd Hnone]. split.
    + apply NoDup_app. split; [done|]. split; [|apply NoDup_singleton].
      intros y Hy Hy'. apply list_elem_of_singleton in Hy' as ->.
      specialize (Hnone k Hy). unfold botpy_attempt in Hnone. congruence.
    + intros y Hy. rewrite lookup_insert_eq. cbn.
      apply elem_of_app in Hy as [Hy|Hy].
      * destruct (decide (y = k)) as [->|Hyk]; [by rewrite lookup_delete_eq|].
        rewrite lookup_delete_ne by done.
        specialize (Hnone y Hy). unfold botpy_attempt in Hnone.
        by rewrite Hts in Hnone.
      * apply list_elem_of_singleton in Hy as ->. by rewrite lookup_delete_eq.
  - rewrite lookup_insert_ne in Hx by done. rewrite lookup_insert_ne by done.
    by apply H.
Qed.

Lemma claims_ok_step cfg now op st :
  botpy_claims_ok st -> botpy_claims_ok (fst (step cfg now op st)).
Proof.
  intros H. destruct op as [uid uname nm args|uid uname nm data|uid msg sent]; cbn [step].
  - unfold start. cbn [fst]. apply claims_ok_reset.
    destruct (users st !! uid); [done|].
    by apply claims_ok_referral, claims_ok_ensure.
  - unfold handle_callback.
    assert (botpy_claims_ok
              (reset_daily_tasks now (ensure_user now uid uname nm None st))) as H1
      by by apply claims_ok_reset, claims_ok_ensure.
    destruct (users _ !! uid) as [u|] eqn:Hu; [|done].
    destruct (TASKS cfg !! data); [by apply claims_ok_task_chosen|].
    destruct (startswith _ _); [by apply claims_ok_verify|].
    repeat (match goal with |- context [if ?b then _ else _] => destruct b end); done.
  - unfold handle_message.
    destruct (users st !! uid) as [u|] eqn:Hu; [|done].
    destruct msg as [method account [amt|]|]; try done.
    destruct (MIN_WITHDRAW cfg !! method); [|done].
    destruct (flt amt _); [done|]. destruct (flt _ amt); [done|].
    cbn [fst]. intros uid' x Hx. cbn [users] in Hx.
    assert (forall k, botpy_attempt
              {| users := <[uid:=set_balance u (fsub (balance u) amt)]> (users st);
                 withdrawals := withdrawals st ++
                   [mkWithdrawal uid (username u) method account amt now];
                 user_tasks := user_tasks st |} uid' k = botpy_attempt st uid' k) as E
      by done.
    setoid_rewrite E.
    destruct (decide (uid = uid')) as [<-|Hne].
    + rewrite lookup_insert_eq in Hx. injection Hx as <-. exact (H uid u Hu).
    + rewrite lookup_insert_ne in Hx by done. by apply H.
Qed.

(** X7.  In [bot.py], from the empty state (or any state in which completed
    tasks have no duplicates and no running timer), no run of updates makes a
    user's list of completed tasks of the day contain a task twice: a task
    is rewarded at most once between two daily resets. *)
Theorem no_task_rewarded_twice :
  (forall cfg ops st uid u,
      botpy_claims_ok st ->
      users (run cfg ops st) !! uid = Some u -> NoDup (completed_tasks u)) /\
  (forall cfg ops uid u,
      users (run cfg ops empty_state) !! uid = Some u ->
      NoDup (completed_tasks u)).
Proof.
  assert (forall cfg ops st, botpy_claims_ok st -> botpy_claims_ok (run cfg ops st)) as R.
  { intros cfg ops. induction ops as [|[now op] ops IH]; intros st H; cbn [run]; [done|].
    by apply IH, claims_ok_step. }
  split.
  - intros cfg ops st uid u H Hu. by apply (R cfg ops st H uid u).
  - intros cfg ops uid u Hu. apply (R cfg ops empty_state) in Hu; [by apply Hu|].
    intros uid' x Hx. cbn [users empty_state] in Hx. by rewrite lookup_empty in Hx.
Qed.

Lemma no_task_rewarded_twice_witness :
  users (run bcfg0 botpy_ops bst_old_day) !! 42
    = Some (mkUser "bob" "Bob" (Fin (3 + 1 - 1)) None ["like"] 11 800000) /\
  NoDup (completed_tasks
           (mkUser "bob" "Bob" (Fin (3 + 1 - 1)) None ["like"] 11 800000)) /\
  NoDup (completed_tasks (mkUser "bob" "Bob" (Fin (0 + 1 - 1)) None ["like"] 11 1000000)).
Proof.
  destruct no_task_rewarded_twice as (A & B).
  assert (users (run bcfg0 botpy_ops bst_old_day) !! 42
          = Some (mkUser "bob" "Bob" (Fin (3 + 1 - 1)) None ["like"] 11 800000)) as H
    by reflexivity.
  split; [exact H|]. split.
  - apply (A bcfg0 botpy_ops bst_old_day 42 _); [|exact H].
    intros uid u Hu. unfold bst_old_day in Hu. cbn [users] in Hu.
    apply lookup_singleton_Some in Hu as [<- <-]. cbn [completed_tasks]. split.
    + apply NoDup_singleton.
    + intros k Hk. apply list_elem_of_singleton in Hk as ->. reflexivity.
  - apply (B bcfg0 botpy_ops 42). reflexivity.
Defined.

End BotPyDaily.

Section DecimalText.

(** The decimal text of a number, as [str] and f-strings produce it, is made
    of digits, after a minus sign for a negative number. *)

Lemma pretty_N_go_all (P : ascii -> bool) x : forall s,
  (forall d, P (pretty_N_char d) = true) ->
  str_all P s = true -> str_all P (pretty_N_go x s) = true.
Proof.
  induction (N.lt_wf_0 x) as [x _ IH]. intros s Hd Hs.
  assert (x = 0 \/ 0 < x)%N as [->|Hx] by lia; [by rewrite pretty_N_go_0|].
  rewrite pretty_N_go_step by done.
  apply IH; [by apply N.div_lt|done|]. cbn [str_all]. by rewrite Hd, Hs.
Qed.

Lemma pretty_N_go_length x : forall s,
  (String.length s <= String.length (pretty_N_go x s))%nat.
Proof.
  induction (N.lt_wf_0 x) as [x _ IH]. intros s.
  assert (x = 0 \/ 0 < x)%N as [->|Hx] by lia; [by rewrite pretty_N_go_0|].
  rewrite pretty_N_go_step by done.
  etrans; [|apply IH; by apply N.div_lt]. cbn [String.length]. lia.
Qed.

Lemma pretty_N_all (P : ascii -> bool) (n : N) :
  (forall d, P (pretty_N_char d) = true) -> str_all P (pretty n) = true.
Proof.
  intros Hd. unfold pretty, pretty_N. case_decide.
  - cbn. specialize (Hd 0%N). cbn in Hd. by rewrite Hd.
  - by apply pretty_N_go_all.
Qed.

Lemma pretty_N_nonempty (n : N) : pretty n <> "".
Proof.
  unfold pretty, pretty_N. case_decide; [done|].
  rewrite pretty_N_go_step by lia.
  pose proof (pretty_N_go_length (n `div` 10)
                (String (pretty_N_char (n `mod` 10)) "")) as Hlen.
  intros E. rewrite E in Hlen. cbn in Hlen. lia.
Qed.

Lemma is_digit_char d : BotPy.is_digit (pretty_N_char d) = true.
Proof. unfold pretty_N_char. by repeat case_match. Qed.

Lemma all_digits_str_all s : BotPy.all_digits s = str_all BotPy.is_digit s.
Proof. induction s as [|c s IH]; [done|]. cbn. by rewrite IH. Qed.

Lemma pretty_Z_nonneg_digits (z : Z) :
  0 <= z -> str_all BotPy.is_digit (pretty z) = true /\ pretty z <> "".
Proof.
  intros Hz. destruct z as [|p|p]; [done| |lia].
  unfold pretty, pretty_Z, pretty, pretty_positive. split.
  - apply pretty_N_all, is_digit_char.
  - apply pretty_N_nonempty.
Qed.

Lemma isdigit_pretty (z : Z) : 0 <= z -> BotPy.isdigit (pretty z) = true.
Proof.
  intros Hz. destruct (pretty_Z_nonneg_digits z Hz) as [Hd Hne].
  unfold BotPy.isdigit. destruct (pretty z) eqn:E; [done|].
  by rewrite all_digits_str_all.
Qed.

Lemma isdigit_pretty_neg (z : Z) : z < 0 -> BotPy.isdigit (pretty z) = false.
Proof. intros Hz. destruct z as [|p|p]; [lia|lia|]. reflexivity. Qed.

End DecimalText.

Section BotPyStart.
Import BotPy.

Lemma reset_balance now st k :
  balance <$> users (reset_daily_tasks now st) !! k = balance <$> users st !! k.
Proof.
  unfold reset_daily_tasks. cbn [users set_users]. rewrite lookup_fmap.
  destruct (users st !! k) as [u|]; [|done]. cbn.
  by destruct (last_reset u =? _).
Qed.

Lemma botpy_user_key_complete (us : gmap Z User) z v :
  us !! z = Some v -> user_key (pretty z) us = Some z.
Proof. apply find_key_complete. Qed.

(** X8.  [/start] of [bot.py].  A sender who is already registered changes no
    balance, whatever argument is sent: the referral bonus is paid only at
    the first contact.  A new sender naming another stored user with a
    non-negative id gets that user the bonus.  A new sender naming the own
    id receives the bonus, because the record is stored before the referrer
    is looked up. *)
Theorem botpy_start_referral :
  (forall cfg now uid uname nm args st u k,
      users st !! uid = Some u ->
      balance <$> users (fst (start cfg now uid uname nm args st)) !! k
        = balance <$> users st !! k) /\
  (forall cfg now uid uname nm rk rest st ru,
      users st !! uid = None -> rk <> uid -> 0 <= rk ->
      users st !! rk = Some ru ->
      let st' := fst (start cfg now uid uname nm (pretty rk :: rest) st) in
      balance <$> users st' !! rk
        = Some (fadd (balance ru) (Fin (BONUS_REFERRAL cfg))) /\
      balance <$> users st' !! uid = Some (Fin 0) /\
      forall k, k <> rk -> k <> uid ->
        balance <$> users st' !! k = balance <$> users st !! k) /\
  (forall cfg now uid uname nm rest st,
      users st !! uid = None -> 0 <= uid ->
      balance <$> users (fst (start cfg now uid uname nm (pretty uid :: rest) st)) !! uid
        = Some (Fin (0 + BONUS_REFERRAL cfg))).
Proof.
  split; [|split].
  - intros cfg now uid uname nm args st u k Hu. unfold start. cbn [fst].
    by rewrite Hu, reset_balance.
  - intros cfg now uid uname nm rk rest st ru Hu Hne Hrk Hr st'. subst st'.
    unfold start. cbn [fst]. rewrite Hu. unfold referral_bonus, ensure_user.
    rewrite Hu, (isdigit_pretty rk Hrk). cbn [users set_users].
    assert (<[uid := mkUser uname nm (Fin 0) (Some (pretty rk)) [] (date_of now) now]>
              (users st) !! rk = Some ru) as Hr'
      by by rewrite lookup_insert_ne.
    rewrite (botpy_user_key_complete _ _ _ Hr'), Hr'.
    split; [|split].
    + rewrite reset_balance. cbn [users set_users]. by rewrite lookup_insert_eq.
    + rewrite reset_balance. cbn [users set_users].
      rewrite lookup_insert_ne by done. by rewrite lookup_insert_eq.
    + intros k H1 H2. rewrite reset_balance. cbn [users set_users].
      by rewrite !lookup_insert_ne.
  - intros cfg now uid uname nm rest st Hu Huid.
    unfold start. cbn [fst]. rewrite Hu. unfold referral_bonus, ensure_user.
    rewrite Hu, (isdigit_pretty uid Huid). cbn [users set_users].
    assert (<[uid := mkUser uname nm (Fin 0) (Some (pretty uid)) [] (date_of now) now]>
              (users st) !! uid
            = Some (mkUser uname nm (Fin 0) (Some (pretty uid)) [] (date_of now) now)) as Hr'
      by by rewrite lookup_insert_eq.
    rewrite (botpy_user_key_complete _ _ _ Hr'), Hr'.
    rewrite reset_balance. cbn [users set_users]. by rewrite lookup_insert_eq.
Qed.

Lemma botpy_start_referral_witness :
  balance <$> users (fst (start bcfg0 1000100 42 "bob" "Bob" ["42"] bst_started)) !! 42
    = balance <$> users bst_started !! 42 /\
  balance <$> users (fst (start bcfg0 1000100 7 "eve" "Eve" ["42"] bst_started)) !! 42
    = Some (fadd (Fin 0) (Fin 1)) /\
  balance <$> users (fst (start bcfg0 1000100 7 "eve" "Eve" ["7"] bst_started)) !! 7
    = Some (Fin (0 + 1)).
Proof.
  destruct botpy_start_referral as (A & B & C).
  split; [|split].
  - apply (A bcfg0 1000100%Q 42 "bob" "Bob" ["42"] bst_started
             (mkUser "bob" "Bob" (Fin 0) None [] 11 1000000)). reflexivity.
  - apply (B bcfg0 1000100%Q 7 "eve" "Eve" 42 [] bst_started
             (mkUser "bob" "Bob" (Fin 0) None [] 11 1000000));
      [reflexivity|discriminate|discriminate|reflexivity].
  - apply (C bcfg0 1000100%Q 7 "eve" "Eve" [] bst_started);
      [reflexivity|discriminate].
Defined.

End BotPyStart.

Section RenderedText.

Lemma str_app_sep_inj (P : ascii -> bool) a : forall a' c c' r r',
  str_all P a = true -> str_all P a' = true -> P c = false -> P c' = false ->
  a +:+ String c r = a' +:+ String c' r' -> a = a' /\ c = c' /\ r = r'.
Proof.
  induction a as [|x a IH]; intros [|y a'] c c' r r' Ha Ha' Hc Hc' E; cbn in *.
  - by injection E as -> ->.
  - injection E as -> _. apply andb_prop in Ha' as [Hy _]. congruence.
  - injection E as -> _. apply andb_prop in Ha as [Hx _]. congruence.
  - injection E as -> E. apply andb_prop in Ha as [_ Ha].
    apply andb_prop in Ha' as [_ Ha'].
    destruct (IH a' c c' r r' Ha Ha' Hc Hc' E) as (-> & -> & ->). done.
Qed.

Lemma is_num_char_digit d : is_num_char (pretty_N_char d) = true.
Proof. unfold is_num_char. by rewrite is_digit_char. Qed.

Lemma pretty_Z_num (z : Z) : str_all is_num_char (pretty z) = true.
Proof.
  destruct z as [|p|p]; [done| |].
  - apply (pretty_N_all is_num_char (Npos p)), is_num_char_digit.
  - unfold pretty, pretty_Z. cbn [String.append str_all].
    apply (pretty_N_all is_num_char (Npos p)), is_num_char_digit.
Qed.

(** Two decimal texts followed by a character that is no digit and no minus
    sign agree only for the same number and the same rest. *)
Lemma pretty_sep_inj (a b : Z) c c' r r' :
  is_num_char c = false -> is_num_char c' = false ->
  pretty a +:+ String c r = pretty b +:+ String c' r' ->
  a = b /\ c = c' /\ r = r'.
Proof.
  intros Hc Hc' E.
  destruct (str_app_sep_inj is_num_char _ _ _ _ _ _
              (pretty_Z_num a) (pretty_Z_num b) Hc Hc' E) as (Hp & -> & ->).
  by apply (inj pretty) in Hp as ->.
Qed.

(** X9.  Two request ids are the same text exactly when they were generated in
    the same whole second with the same random number, so requests created
    in different seconds never collide. *)
Theorem request_id_injective :
  forall now rnd now' rnd',
    Ledger.generate_request_id now rnd = Ledger.generate_request_id now' rnd'
    <-> py_int now = py_int now' /\ rnd = rnd'.
Proof.
  intros now rnd now' rnd'. unfold Ledger.generate_request_id. split.
  - intros E. cbn [String.append] in E. injection E as E.
    change (pretty (py_int now) +:+ String "_" (pretty rnd)
            = pretty (py_int now') +:+ String "_" (pretty rnd')) in E.
    apply pretty_sep_inj in E as (-> & _ & E); [|done|done].
    by apply (inj pretty) in E as ->.
  - by intros [-> ->].
Qed.

Lemma request_id_injective_witness :
  Ledger.generate_request_id 1000050 1234
    = Ledger.generate_request_id (2000101 # 2) 1234.
Proof.
  apply (request_id_injective 1000050%Q 1234 (2000101 # 2)%Q 1234).
  split; reflexivity.
Defined.

Lemma format_time_cases n :
  (n < 60 /\ format_time n = pretty n +:+ String "s" "") \/
  (60 <= n < 3600 /\
   format_time n
     = pretty (n / 60) +:+ String "m" (String " " (pretty (n mod 60) +:+ String "s" ""))) \/
  (3600 <= n /\
   format_time n
     = pretty (n / 3600)
         +:+ String "h" (String " " (pretty ((n mod 3600) / 60) +:+ String "m" ""))).
Proof.
  unfold format_time.
  destruct (n <? 60) eqn:E1; [apply Z.ltb_lt in E1; by left|].
  apply Z.ltb_ge in E1. right.
  destruct (n <? 3600) eqn:E2; [apply Z.ltb_lt in E2; by left|].
  apply Z.ltb_ge in E2. by right.
Qed.

(** X10.  The text [format_time] shows for a remaining time identifies the number
    of seconds below one hour; from one hour on the seconds are dropped, and
    two durations are shown alike exactly when they agree in their whole
    minutes. *)
Theorem format_time_distinguishes :
  forall a b,
    format_time a = format_time b
    <-> a = b \/ (3600 <= a /\ 3600 <= b /\ a / 60 = b / 60).
Proof.
  intros a b. split.
  - intros E.
    destruct (format_time_cases a) as [[Ha Ea]|[[Ha Ea]|[Ha Ea]]];
    destruct (format_time_cases b) as [[Hb Eb]|[[Hb Eb]|[Hb Eb]]];
    rewrite Ea, Eb in E;
    apply pretty_sep_inj in E as (E1 & Ec & E2); try done.
    + by left.
    + injection E2 as E2. apply pretty_sep_inj in E2 as (E2 & _); [|done|done].
      left. rewrite (Z.div_mod a 60), (Z.div_mod b 60) by lia. by rewrite E1, E2.
    + injection E2 as E2. apply pretty_sep_inj in E2 as (E2 & _); [|done|done].
      right. split; [done|]. split; [done|].
      Z.div_mod_to_equations. lia.
  - intros [->|(Ha & Hb & E)]; [done|].
    destruct (format_time_cases a) as [[Ha' _]|[[Ha' _]|[_ Ea]]]; [lia|lia|].
    destruct (format_time_cases b) as [[Hb' _]|[[Hb' _]|[_ Eb]]]; [lia|lia|].
    rewrite Ea, Eb.
    assert (a / 3600 = b / 3600) as -> by (Z.div_mod_to_equations; lia).
    assert (a mod 3600 / 60 = b mod 3600 / 60) as ->
      by (Z.div_mod_to_equations; lia).
    done.
Qed.

Lemma format_time_distinguishes_witness :
  format_time 3725 = format_time 3779 /\ (59 = 59 \/ (3600 <= 59 /\ 3600 <= 59 /\ 59 / 60 = 59 / 60)).
Proof.
  split.
  - apply (format_time_distinguishes 3725 3779). right.
    split; [discriminate|]. split; [discriminate|reflexivity].
  - apply (format_time_distinguishes 59 59). reflexivity.
Defined.

End RenderedText.

Section StoredRequests.
Import Ledger.

Lemma button_user_data cfg now uid data st :
  requests_ok cfg st ->
  requests_ok cfg (fst (VpsMain.button cfg now uid data st)).
Proof.
  intros [Hr Hd]. unfold VpsMain.button.
  destruct (get_user_frame now uid st) as (E1 & E2 & E3).
  destruct (get_user now uid st) as [st1 user]; cbn [fst] in *.
  assert (requests_ok cfg st1) as H1 by (unfold requests_ok; by rewrite E1, E3).
  destruct (String.eqb data "tasks").
  { destruct (can_earn_today_frame cfg now uid st1) as (F1 & _ & F3).
    destruct (can_earn_today cfg now uid st1) as [st2 ok]; cbn [fst] in *.
    unfold requests_ok. by rewrite F1, F3. }
  destruct (String.eqb data "balance"); [done|].
  destruct (String.eqb data "payout").
  { unfold VpsMain.payout_menu. cbv zeta.
    destruct (VpsMain.get_user_pending_requests uid st1); [|done].
    by destruct (Qlt_bool _ _). }
  destruct (String.eqb data "my_requests"); [done|].
  destruct (startswith "payout_" data).
  { unfold VpsMain.payout_method_chosen.
    destruct (split_on "_" data) as [|? [|method ?]]; try done.
    fold (method_minimum cfg method).
    destruct (Qlt_bool _ _) eqn:Hlt; [done|]. apply Qlt_bool_false in Hlt.
    destruct H1 as [Hr1 Hd1]. split; [done|].
    cbn [fst user_data set_data]. by apply map_Forall_insert_2. }
  destruct (TASKS cfg !! data) as [task|].
  { destruct (task_button_frame cfg now uid data task st1) as (F1 & F3).
    unfold requests_ok. by rewrite F1, F3. }
  repeat (match goal with |- context [if ?b then _ else _] => destruct b end); done.
Qed.

Lemma step_requests_ok cfg now op st :
  requests_ok cfg st -> requests_ok cfg (fst (VpsMain.step cfg now op st)).
Proof.
  intros H.
  destruct op as [uid args|uid data|rnd uid uname address|caller args|caller args];
    cbn [VpsMain.step].
  - destruct (start_frame cfg now uid args st) as (E1 & _ & E3).
    unfold requests_ok. by rewrite E1, E3.
  - by apply button_user_data.
  - unfold VpsMain.handle_payout_address.
    destruct (user_data st !! uid) as [ctx|] eqn:Hc; [|done].
    destruct (_ <? _)%nat eqn:Hlen; [done|]. apply Nat.ltb_ge in Hlen.
    unfold create_payout_request.
    match goal with |- context [get_user ?n ?u ?s] =>
      destruct (get_user_frame n u s) as (E1 & _ & E3);
      destruct (get_user n u s) as [st2 user] end.
    cbn [fst payout_requests user_data set_users set_data set_requests] in *.
    destruct H as [Hr Hd]. split.
    + cbn [payout_requests set_data set_users]. rewrite E1.
      apply map_Forall_insert_2; [|done].
      split; [done|]. split; [by apply (Hd uid ctx)|done].
    + cbn [user_data set_data set_users]. rewrite E3.
      by apply map_Forall_delete.
  - unfold VpsMain.admin_approve.
    destruct (negb _); [done|]. destruct args as [|rid rest]; [done|].
    destruct (payout_requests st !! rid) as [req|] eqn:Hq; [|done].
    destruct (negb _); [done|]. destruct H as [Hr Hd]. split; [|done].
    cbn [fst payout_requests set_requests]. apply map_Forall_insert_2; [|done].
    destruct (Hr rid req Hq) as (A1 & A2 & _). split; [done|]. split; [done|].
    cbn [status processed_at set_processed]. split; discriminate.
  - unfold VpsMain.admin_reject.
    destruct (negb _); [done|]. destruct args as [|rid rest]; [done|].
    destruct (payout_requests st !! rid) as [req|] eqn:Hq; [|done].
    destruct (negb _); [done|].
    match goal with |- context [get_user ?n ?u ?s] =>
      destruct (get_user_frame n u s) as (E1 & _ & E3);
      destruct (get_user n u s) as [st2 user] end.
    cbn [fst payout_requests user_data set_users set_requests] in *.
    destruct H as [Hr Hd]. split.
    + cbn [payout_requests set_users]. rewrite E1.
      apply map_Forall_insert_2; [|done].
      destruct (Hr rid req Hq) as (A1 & A2 & _). split; [done|]. split; [done|].
      cbn [status processed_at set_processed]. split; discriminate.
    + cbn [user_data set_users]. by rewrite E3.
Qed.

(** X11.  Every payout request the second program of [bot_complete_vps.py] stores
    in a run from its empty state has a payment address of at least five
    characters and an amount of at least the minimum of its payment method,
    and carries a processing time exactly when it is approved or rejected. *)
Theorem stored_requests_well_formed :
  (forall cfg ops st rid r,
      requests_ok cfg st ->
      payout_requests (VpsMain.run cfg ops st) !! rid = Some r ->
      request_ok cfg r) /\
  (forall cfg ops rid r,
      payout_requests (VpsMain.run cfg ops empty_state) !! rid = Some r ->
      request_ok cfg r).
Proof.
  assert (forall cfg ops st, requests_ok cfg st ->
            requests_ok cfg (VpsMain.run cfg ops st)) as R.
  { intros cfg ops. induction ops as [|[now op] ops IH]; intros st H;
      cbn [VpsMain.run]; [done|]. by apply IH, step_requests_ok. }
  split.
  - intros cfg ops st rid r H Hr. destruct (R cfg ops st H) as [Hq _].
    by apply (Hq rid r).
  - intros cfg ops rid r Hr.
    destruct (R cfg ops empty_state) as [Hq _]; [|by apply (Hq rid r)].
    split; apply map_Forall_empty.
Qed.

Lemma stored_requests_well_formed_witness :
  payout_requests (VpsMain.run cfg0 ops_two_requests st10) !! "REQ_1000120_5678"
    = Some (mkRequest 42 "bob" 1 "faucetpay" "addr@x.y" pending 1000120 None
              (NoteText "")) /\
  request_ok cfg0 (mkRequest 42 "bob" 1 "faucetpay" "addr@x.y" pending 1000120 None
                     (NoteText "")) /\
  payout_requests (VpsMain.run cfg0 ops_from_empty empty_state) !! "REQ_1000060_1234"
    = Some req_from_empty /\
  request_ok cfg0 req_from_empty.
Proof.
  destruct stored_requests_well_formed as (A & B).
  assert (payout_requests (VpsMain.run cfg0 ops_two_requests st10)
            !! "REQ_1000120_5678"
          = Some (mkRequest 42 "bob" 1 "faucetpay" "addr@x.y" pending 1000120 None
                    (NoteText ""))) as H by (vm_compute; reflexivity).
  assert (payout_requests (VpsMain.run cfg0 ops_from_empty empty_state)
            !! "REQ_1000060_1234" = Some req_from_empty) as H0
    by (vm_compute; reflexivity).
  split; [exact H|]. split.
  { apply (A cfg0 ops_two_requests st10 "REQ_1000120_5678"); [|exact H].
    split; apply map_Forall_empty. }
  split; [exact H0|].
  exact (B cfg0 ops_from_empty "REQ_1000060_1234" _ H0).
Defined.

End StoredRequests.

Section CoveredPayouts.
Import Ledger.

Lemma covered_set_user st uid u' :
  payout_ctx_covered st ->
  (forall u, users st !! uid = Some u -> (balance u <= balance u')%Q) ->
  payout_ctx_covered (set_users st (<[uid := u']> (users st))).
Proof.
  intros H Hle uid' ctx Hc. cbn [users user_data set_users] in *.
  destruct (H uid' ctx Hc) as (u & Hu & Hb).
  destruct (decide (uid = uid')) as [<-|Hne].
  - exists u'. rewrite lookup_insert_eq. split; [done|].
    eapply Qle_trans; [exact Hb|by apply Hle].
  - exists u. by rewrite lookup_insert_ne.
Qed.

Lemma covered_get_user now uid st :
  payout_ctx_covered st -> payout_ctx_covered (fst (get_user now uid st)).
Proof.
  intros H. unfold get_user. destruct (users st !! uid) eqn:E; [done|].
  cbn [fst]. apply covered_set_user; [done|]. intros u Hu. congruence.
Qed.

Lemma covered_same_users st st' :
  users st' = users st -> user_data st' = user_data st ->
  payout_ctx_covered st -> payout_ctx_covered st'.
Proof. intros E1 E2 H uid ctx Hc. rewrite E1. rewrite E2 in Hc. by apply H. Qed.

Lemma covered_can_earn_today cfg now uid st :
  payout_ctx_covered st ->
  payout_ctx_covered (fst (can_earn_today cfg now uid st)).
Proof.
  intros H. unfold can_earn_today.
  pose proof (covered_get_user now uid st H) as H1.
  pose proof (get_user_lookup now uid st) as Hl.
  destruct (get_user now uid st) as [st1 u]; cbn [fst snd] in *.
  destruct (_ <? _); cbn [fst]; [|done].
  apply covered_set_user; [done|]. intros u0 Hu0.
  assert (u0 = u) as -> by congruence. apply Qle_refl.
Qed.

Lemma covered_add_earnings now uid amt st :
  (0 <= amt)%Q -> payout_ctx_covered st ->
  payout_ctx_covered (add_earnings now uid amt st).
Proof.
  intros Ha H. unfold add_earnings.
  pose proof (covered_get_user now uid st H) as H1.
  pose proof (get_user_lookup now uid st) as Hl.
  destruct (get_user now uid st) as [st1 u]; cbn [fst snd] in *.
  apply covered_set_user; [done|]. intros u0 Hu0.
  assert (u0 = u) as -> by congruence. cbn [balance credited]. lra.
Qed.

Lemma covered_referral cfg now uid args st :
  config_nonneg cfg -> payout_ctx_covered st ->
  payout_ctx_covered (referral cfg now uid args st).
Proof.
  intros [_ Hb] H. unfold referral.
  destruct args as [|r args]; [done|]. destruct (negb _); [|done].
  destruct (user_key _ _) as [rk|]; [|done].
  destruct (users st !! rk) as [ru|] eqn:E; [|done].
  apply covered_add_earnings; [done|].
  apply covered_set_user; [done|]. intros u0 Hu0.
  assert (u0 = ru) as -> by congruence. apply Qle_refl.
Qed.

Lemma covered_set_tasks st ts :
  payout_ctx_covered st -> payout_ctx_covered (set_tasks st ts).
Proof. by apply covered_same_users. Qed.

Lemma covered_task_button cfg now uid k task st :
  (0 <= reward task)%Q -> payout_ctx_covered st ->
  payout_ctx_covered (fst (VpsMain.task_button cfg now uid k task st)).
Proof.
  intros Hr H. unfold VpsMain.task_button.
  pose proof (covered_can_earn_today cfg now uid st H) as H1.
  destruct (can_earn_today cfg now uid st) as [st1 ok]; cbn [fst] in *.
  destruct ok; cbn [negb fst]; [|done].
  destruct (user_tasks st1 !! (uid, k)).
  - destruct (VpsMain.is_task_completed _ _ _ _ _); cbn [fst]; [|done].
    by apply covered_set_tasks, covered_add_earnings.
  - by apply covered_set_tasks.
Qed.

Lemma covered_button cfg now uid data st :
  config_nonneg cfg -> payout_ctx_covered st ->
  payout_ctx_covered (fst (VpsMain.button cfg now uid data st)).
Proof.
  intros Hc H. unfold VpsMain.button.
  pose proof (covered_get_user now uid st H) as H1.
  pose proof (get_user_lookup now uid st) as Hl.
  destruct (get_user now uid st) as [st1 user]; cbn [fst snd] in *.
  destruct (String.eqb data "tasks").
  { pose proof (covered_can_earn_today cfg now uid st1 H1) as H2.
    by destruct (can_earn_today cfg now uid st1) as [st2 ok]. }
  destruct (String.eqb data "balance"); [done|].
  destruct (String.eqb data "payout").
  { unfold VpsMain.payout_menu. cbv zeta.
    destruct (VpsMain.get_user_pending_requests uid st1); [|done].
    by destruct (Qlt_bool _ _). }
  destruct (String.eqb data "my_requests"); [done|].
  destruct (startswith "payout_" data).
  { unfold VpsMain.payout_method_chosen.
    destruct (split_on "_" data) as [|? [|method ?]]; try done.
    destruct (Qlt_bool _ _); [done|]. cbn [fst].
    intros uid' ctx Hc'. cbn [users user_data set_data] in *.
    destruct (decide (uid = uid')) as [<-|Hne].
    - rewrite lookup_insert_eq in Hc'. injection Hc' as <-.
      exists user. split; [done|]. apply Qle_refl.
    - rewrite lookup_insert_ne in Hc' by done. by apply H1. }
  destruct (TASKS cfg !! data) as [task|] eqn:Et.
  { apply covered_task_button; [|done]. destruct Hc as [Hc _].
    by apply (Hc data task). }
  repeat (match goal with |- context [if ?b then _ else _] => destruct b end); done.
Qed.

Lemma covered_address cfg now rnd uid uname address st :
  payout_ctx_covered st ->
  payout_ctx_covered
    (fst (VpsMain.handle_payout_address cfg now rnd uid uname address st)).
Proof.
  intros H. unfold VpsMain.handle_payout_address.
  destruct (user_data st !! uid) as [ctx|] eqn:Ec; [|done].
  destruct (_ <? _)%nat; [done|]. unfold create_payout_request.
  match goal with |- context [get_user ?n ?u ?s] =>
    assert (payout_ctx_covered s) as Hs by (by apply (covered_same_users st));
    pose proof (covered_get_user n u s Hs) as H1;
    destruct (get_user_frame n u s) as (_ & _ & E3);
    destruct (get_user n u s) as [st2 user] end.
  cbn [fst user_data set_requests] in *.
  intros uid' ctx' Hc'. cbn [users user_data set_data set_users] in *.
  destruct (decide (uid = uid')) as [<-|Hne].
  - by rewrite lookup_delete_eq in Hc'.
  - rewrite lookup_delete_ne in Hc' by done. rewrite lookup_insert_ne by done.
    by apply H1.
Qed.

Lemma covered_step cfg now op st :
  config_nonneg cfg -> ledger_nonneg st -> payout_ctx_covered st ->
  payout_ctx_covered (fst (VpsMain.step cfg now op st)).
Proof.
  intros Hc Hn H.
  destruct op as [uid args|uid data|rnd uid uname address|caller args|caller args];
    cbn [VpsMain.step].
  - unfold start. pose proof (covered_get_user now uid st H) as H1.
    destruct (get_user now uid st) as [st1 u]; cbn [fst] in *.
    by apply covered_referral.
  - by apply covered_button.
  - by apply covered_address.
  - unfold VpsMain.admin_approve.
    destruct (negb _); [done|]. destruct args as [|rid rest]; [done|].
    destruct (payout_requests st !! rid) as [req|]; [|done].
    destruct (negb _); [done|]. by apply (covered_same_users st).
  - unfold VpsMain.admin_reject.
    destruct (negb _); [done|]. destruct args as [|rid rest]; [done|].
    destruct (payout_requests st !! rid) as [req|] eqn:Hq; [|done].
    destruct (negb _); [done|].
    assert (0 <= amount req)%Q as Ha.
    { destruct Hn as (_ & Hr & _). by apply (Hr rid req). }
    match goal with |- context [get_user ?n ?u ?s] =>
      assert (payout_ctx_covered s) as Hs by (by apply (covered_same_users st));
      pose proof (covered_get_user n u s Hs) as H1;
      pose proof (get_user_lookup n u s) as Hl;
      destruct (get_user n u s) as [st2 user] end.
    cbn [fst snd] in *. apply covered_set_user; [done|]. intros u0 Hu0.
    assert (u0 = user) as -> by congruence. cbn [balance set_balance]. lra.
Qed.

Lemma covered_run cfg ops : forall st,
  config_nonneg cfg -> ledger_nonneg st -> payout_ctx_covered st ->
  ledger_nonneg (VpsMain.run cfg ops st) /\ payout_ctx_covered (VpsMain.run cfg ops st).
Proof.
  induction ops as [|[now op] ops IH]; intros st Hc Hn H; cbn [VpsMain.run]; [done|].
  apply IH; [done|by apply step_nonneg|by apply covered_step].
Qed.

(** X12.  No payout request asks for more than the user has.  In every state the
    second program of [bot_complete_vps.py] reaches from its empty state by
    any updates, with non-negative rewards and bonus, an address message
    that is accepted stores an amount between 0 and the sender's current
    balance. *)
Theorem payout_amount_covered :
  (forall cfg ops st now rnd uid uname address rid amt,
      config_nonneg cfg -> ledger_nonneg st -> payout_ctx_covered st ->
      snd (VpsMain.handle_payout_address cfg now rnd uid uname address
             (VpsMain.run cfg ops st)) = RPayoutSubmitted rid amt ->
      exists u, users (VpsMain.run cfg ops st) !! uid = Some u /\
                (0 <= amt)%Q /\ (amt <= balance u)%Q) /\
  (forall cfg ops now rnd uid uname address rid amt,
      config_nonneg cfg ->
      snd (VpsMain.handle_payout_address cfg now rnd uid uname address
             (VpsMain.run cfg ops empty_state)) = RPayoutSubmitted rid amt ->
      exists u, users (VpsMain.run cfg ops empty_state) !! uid = Some u /\
                (0 <= amt)%Q /\ (amt <= balance u)%Q).
Proof.
  assert (forall cfg ops st now rnd uid uname address rid amt,
      config_nonneg cfg -> ledger_nonneg st -> payout_ctx_covered st ->
      snd (VpsMain.handle_payout_address cfg now rnd uid uname address
             (VpsMain.run cfg ops st)) = RPayoutSubmitted rid amt ->
      exists u, users (VpsMain.run cfg ops st) !! uid = Some u /\
                (0 <= amt)%Q /\ (amt <= balance u)%Q) as A.
  { intros cfg ops st now rnd uid uname address rid amt Hc Hn H Hs.
    destruct (covered_run cfg ops st Hc Hn H) as [Hn' H'].
    unfold VpsMain.handle_payout_address in Hs.
    destruct (user_data (VpsMain.run cfg ops st) !! uid) as [ctx|] eqn:Ec; [|done].
    destruct (_ <? _)%nat; [done|]. unfold create_payout_request in Hs.
    match type of Hs with context [get_user ?n ?u ?s] =>
      destruct (get_user n u s) as [st2 user] end.
    cbn [snd] in Hs. injection Hs as _ <-.
    destruct (H' uid ctx Ec) as (u & Hu & Hle). exists u.
    split; [done|]. split; [|done].
    destruct Hn' as (_ & _ & Hd). by apply (Hd uid ctx). }
  split; [exact A|].
  intros cfg ops now rnd uid uname address rid amt Hc.
  apply A; [done|apply ledger_empty_nonneg|].
  intros uid' ctx Hctx. cbn [user_data empty_state] in Hctx.
  by rewrite lookup_empty in Hctx.
Qed.

Lemma payout_amount_covered_witness :
  snd (VpsMain.handle_payout_address cfg0 1000060 1234 42 "bob" "addr@x.y"
         (VpsMain.run cfg0 (take 4 ops_from_empty) empty_state))
    = RPayoutSubmitted "REQ_1000060_1234" 1 /\
  (exists u, users (VpsMain.run cfg0 (take 4 ops_from_empty) empty_state) !! 42
               = Some u /\ (0 <= 1)%Q /\ (1 <= balance u)%Q) /\
  (exists u, users (VpsMain.run cfg0 (take 3 ops_choose_earn_send) st10) !! 42
               = Some u /\ (0 <= 10)%Q /\ (10 <= balance u)%Q).
Proof.
  destruct payout_amount_covered as (A & B).
  assert (snd (VpsMain.handle_payout_address cfg0 1000060 1234 42 "bob" "addr@x.y"
                 (VpsMain.run cfg0 (take 4 ops_from_empty) empty_state))
          = RPayoutSubmitted "REQ_1000060_1234" 1) as H
    by (vm_compute; reflexivity).
  split; [exact H|]. split.
  - exact (B cfg0 (take 4 ops_from_empty) 1000060%Q 1234 42 "bob" "addr@x.y"
             _ _ cfg0_nonneg H).
  - apply (A cfg0 (take 3 ops_choose_earn_send) st10 1000050%Q 1234 42 "bob"
             "addr@x.y" "REQ_1000050_1234" 10%Q cfg0_nonneg st10_nonneg).
    + intros uid ctx Hctx. unfold st10 in Hctx. cbn [user_data] in Hctx.
      by rewrite lookup_empty in Hctx.
    + vm_compute. reflexivity.
Defined.

End CoveredPayouts.

Section UserRecords.
Import Ledger.

Lemma user_grows_refl u : user_grows u u.
Proof. repeat split; try lia. apply Qle_refl. Qed.

Lemma user_grows_set_balance u b : user_grows u (set_balance u b).
Proof. repeat split; cbn; try lia. apply Qle_refl. Qed.

Lemma users_grow_refl st st' : users st' = users st -> users_grow st st'.
Proof. intros E uid u Hu. exists u. rewrite E. split; [done|apply user_grows_refl]. Qed.

Lemma users_grow_trans st1 st2 st3 :
  users_grow st1 st2 -> users_grow st2 st3 -> users_grow st1 st3.
Proof.
  intros H12 H23 uid u Hu.
  destruct (H12 uid u Hu) as (u2 & Hu2 & (J1 & T1 & C1 & R1)).
  destruct (H23 uid u2 Hu2) as (u3 & Hu3 & (J2 & T2 & C2 & R2)).
  exists u3. split; [done|]. repeat split; try lia; [congruence|].
  eapply Qle_trans; eauto.
Qed.

Lemma users_grow_set_user st uid u' :
  (forall u, users st !! uid = Some u -> user_grows u u') ->
  users_grow st (set_users st (<[uid := u']> (users st))).
Proof.
  intros H uid' u Hu. cbn [users set_users].
  destruct (decide (uid = uid')) as [<-|Hne].
  - exists u'. rewrite lookup_insert_eq. split; [done|by apply H].
  - exists u. rewrite lookup_insert_ne by done. split; [done|apply user_grows_refl].
Qed.

Lemma users_grow_get_user now uid st : users_grow st (fst (get_user now uid st)).
Proof.
  unfold get_user. destruct (users st !! uid) eqn:E; [by apply users_grow_refl|].
  cbn [fst]. apply users_grow_set_user. intros u Hu. congruence.
Qed.

Lemma users_grow_update now uid st u' :
  (user_grows (snd (get_user now uid st)) u') ->
  users_grow st
    (set_users (fst (get_user now uid st))
       (<[uid := u']> (users (fst (get_user now uid st))))).
Proof.
  intros H. eapply users_grow_trans; [apply users_grow_get_user|].
  apply users_grow_set_user. intros u Hu.
  rewrite get_user_lookup in Hu. by injection Hu as <-.
Qed.

Lemma users_grow_can_earn_today cfg now uid st :
  users_grow st (fst (can_earn_today cfg now uid st)).
Proof.
  unfold can_earn_today.
  pose proof (users_grow_get_user now uid st) as H1.
  pose proof (users_grow_update now uid st) as H2.
  destruct (get_user now uid st) as [st1 u]; cbn [fst snd] in *.
  destruct (_ <? _); cbn [fst]; [|done].
  apply H2. repeat split; cbn; try lia. apply Qle_refl.
Qed.

Lemma users_grow_add_earnings now uid amt st :
  (0 <= amt)%Q -> users_grow st (add_earnings now uid amt st).
Proof.
  intros Ha. unfold add_earnings.
  pose proof (users_grow_update now uid st) as H2.
  destruct (get_user now uid st) as [st1 u]; cbn [fst snd] in *.
  apply H2. repeat split; cbn [credited joined total_earned tasks_completed referrals];
    try lia. lra.
Qed.

Lemma users_grow_referral cfg now uid args st :
  config_nonneg cfg -> users_grow st (referral cfg now uid args st).
Proof.
  intros [_ Hb]. unfold referral.
  destruct args as [|r args]; [by apply users_grow_refl|].
  destruct (negb _); [|by apply users_grow_refl].
  destruct (user_key _ _) as [rk|]; [|by apply users_grow_refl].
  destruct (users st !! rk) as [ru|] eqn:E; [|by apply users_grow_refl].
  eapply users_grow_trans; [|by apply users_grow_add_earnings].
  apply users_grow_set_user. intros u Hu. assert (u = ru) as -> by congruence.
  repeat split; cbn; try lia. apply Qle_refl.
Qed.

Lemma users_grow_task_button cfg now uid k task st :
  (0 <= reward task)%Q ->
  users_grow st (fst (VpsMain.task_button cfg now uid k task st)).
Proof.
  intros Hr. unfold VpsMain.task_button.
  pose proof (users_grow_can_earn_today cfg now uid st) as H1.
  destruct (can_earn_today cfg now uid st) as [st1 ok]; cbn [fst] in *.
  destruct ok; cbn [negb fst]; [|done].
  destruct (user_tasks st1 !! (uid, k)).
  - destruct (VpsMain.is_task_completed _ _ _ _ _); cbn [fst]; [|done].
    eapply users_grow_trans; [exact H1|].
    eapply users_grow_trans; [by apply users_grow_add_earnings|].
    by apply users_grow_refl.
  - eapply users_grow_trans; [exact H1|]. by apply users_grow_refl.
Qed.

Lemma users_grow_button cfg now uid data st :
  config_nonneg cfg -> users_grow st (fst (VpsMain.button cfg now uid data st)).
Proof.
  intros Hc. unfold VpsMain.button.
  pose proof (users_grow_get_user now uid st) as H1.
  destruct (get_user now uid st) as [st1 user]; cbn [fst] in *.
  destruct (String.eqb data "tasks").
  { pose proof (users_grow_can_earn_today cfg now uid st1) as H2.
    destruct (can_earn_today cfg now uid st1) as [st2 ok]; cbn [fst] in *.
    by eapply users_grow_trans. }
  destruct (String.eqb data "balance"); [done|].
  destruct (String.eqb data "payout").
  { unfold VpsMain.payout_menu. cbv zeta.
    destruct (VpsMain.get_user_pending_requests uid st1); [|done].
    by destruct (Qlt_bool _ _). }
  destruct (String.eqb data "my_requests"); [done|].
  destruct (startswith "payout_" data).
  { unfold VpsMain.payout_method_chosen.
    destruct (split_on "_" data) as [|? [|method ?]]; try done.
    destruct (Qlt_bool _ _); [done|]. cbn [fst].
    eapply users_grow_trans; [exact H1|]. by apply users_grow_refl. }
  destruct (TASKS cfg !! data) as [task|] eqn:Et.
  { eapply users_grow_trans; [exact H1|]. apply users_grow_task_button.
    destruct Hc as [Hc _]. by apply (Hc data task). }
  repeat (match goal with |- context [if ?b then _ else _] => destruct b end); done.
Qed.

Lemma users_grow_step cfg now op st :
  config_nonneg cfg -> users_grow st (fst (VpsMain.step cfg now op st)).
Proof.
  intros Hc.
  destruct op as [uid args|uid data|rnd uid uname address|caller args|caller args];
    cbn [VpsMain.step].
  - unfold start. pose proof (users_grow_get_user now uid st) as H1.
    destruct (get_user now uid st) as [st1 u]; cbn [fst] in *.
    eapply users_grow_trans; [exact H1|]. by apply users_grow_referral.
  - by apply users_grow_button.
  - unfold VpsMain.handle_payout_address.
    destruct (user_data st !! uid) as [ctx|]; [|by apply users_grow_refl].
    destruct (_ <? _)%nat; [by apply users_grow_refl|].
    unfold create_payout_request.
    match goal with |- context [get_user ?n ?u ?s] =>
      pose proof (users_grow_update n u s) as H2;
      destruct (get_user n u s) as [st2 user] end.
    cbn [fst snd] in *.
    eapply users_grow_trans; [by apply users_grow_refl|].
    eapply users_grow_trans; [apply (H2 (set_balance user 0))|by apply users_grow_refl].
    apply user_grows_set_balance.
  - unfold VpsMain.admin_approve.
    destruct (negb _); [by apply users_grow_refl|].
    destruct args as [|rid rest]; [by apply users_grow_refl|].
    destruct (payout_requests st !! rid) as [req|]; [|by apply users_grow_refl].
    destruct (negb _); by apply users_grow_refl.
  - unfold VpsMain.admin_reject.
    destruct (negb _); [by apply users_grow_refl|].
    destruct args as [|rid rest]; [by apply users_grow_refl|].
    destruct (payout_requests st !! rid) as [req|]; [|by apply users_grow_refl].
    destruct (negb _); [by apply users_grow_refl|].
    match goal with |- context [get_user ?n ?u ?s] =>
      pose proof (users_grow_update n u s) as H2;
      destruct (get_user n u s) as [st2 user] end.
    cbn [fst snd] in *.
    eapply users_grow_trans; [by apply users_grow_refl|].
    apply H2. apply user_grows_set_balance.
Qed.

(** X13.  In the second program of [bot_complete_vps.py] a user record is never
    removed, its joining time never changes, and its total earned, its
    number of completed tasks and its number of referrals never go down,
    whatever updates arrive (with non-negative rewards and bonus). *)
Theorem user_records_only_grow :
  forall cfg ops st uid u,
    config_nonneg cfg -> users st !! uid = Some u ->
    exists u',
      users (VpsMain.run cfg ops st) !! uid = Some u' /\
      joined u' = joined u /\
      (total_earned u <= total_earned u')%Q /\
      tasks_completed u <= tasks_completed u' /\
      referrals u <= referrals u'.
Proof.
  intros cfg ops. induction ops as [|[now op] ops IH]; intros st uid u Hc Hu;
    cbn [VpsMain.run].
  { exists u. split; [done|]. apply user_grows_refl. }
  destruct (users_grow_step cfg now op st Hc uid u Hu) as (u1 & Hu1 & (J1 & T1 & C1 & R1)).
  destruct (IH _ uid u1 Hc Hu1) as (u' & Hu' & J2 & T2 & C2 & R2).
  exists u'. split; [done|]. repeat split; try lia; [congruence|].
  eapply Qle_trans; eauto.
Qed.

Lemma user_records_only_grow_witness :
  exists u',
    users (VpsMain.run cfg0 ops_two_requests st10) !! 42 = Some u' /\
    joined u' = joined user10 /\
    (total_earned user10 <= total_earned u')%Q /\
    tasks_completed user10 <= tasks_completed u' /\
    referrals user10 <= referrals u'.
Proof.
  apply (user_records_only_grow cfg0 ops_two_requests st10 42 user10 cfg0_nonneg).
  reflexivity.
Defined.

End UserRecords.

Section PendingRequests.
Import Ledger.

(** [get_user_pending_requests] lists exactly the stored requests of the
    user that are pending. *)
Lemma pending_requests_spec uid st r :
  r ∈ VpsMain.get_user_pending_requests uid st <->
  exists rid, payout_requests st !! rid = Some r /\
              user_id r = uid /\ status r = pending.
Proof.
  unfold VpsMain.get_user_pending_requests.
  rewrite list_elem_of_In, filter_In, <- list_elem_of_In, list_elem_of_fmap.
  rewrite andb_true_iff, Z.eqb_eq, status_eqb_pending. split.
  - intros [([rid r'] & -> & Hin) [? ?]]. apply elem_of_map_to_list in Hin. eauto.
  - intros (rid & Hr & ? & ?). split; [|done]. exists (rid, r).
    split; [done|]. by apply elem_of_map_to_list.
Qed.

(** X14.  The "payout" entry of the menu never changes the state.  It answers
    "you have pending payout requests" exactly when the user has a stored
    pending request; otherwise it answers "insufficient balance" below the
    general minimum and offers the payment methods from the minimum on. *)
Theorem payout_menu_guard :
  forall cfg uid user st,
    fst (VpsMain.payout_menu cfg uid user st) = st /\
    (has_pending uid st <->
     exists n, snd (VpsMain.payout_menu cfg uid user st) = RPendingExists n) /\
    (~ has_pending uid st -> (balance user < MIN_WITHDRAW cfg)%Q ->
     snd (VpsMain.payout_menu cfg uid user st) = RInsufficientBalance) /\
    (~ has_pending uid st -> (MIN_WITHDRAW cfg <= balance user)%Q ->
     snd (VpsMain.payout_menu cfg uid user st) = RPayoutOptions).
Proof.
  intros cfg uid user st. unfold VpsMain.payout_menu. cbv zeta.
  destruct (VpsMain.get_user_pending_requests uid st) as [|r l] eqn:E.
  - assert (~ has_pending uid st) as Hno.
    { intros (rid & r & Hr & Hu & Hs).
      assert (r ∈ VpsMain.get_user_pending_requests uid st) as Hin
        by (apply pending_requests_spec; eauto).
      rewrite E in Hin. by apply elem_of_nil in Hin. }
    split; [by destruct (Qlt_bool _ _)|]. split; [|split].
    + split; [done|]. intros [n Hn]. by destruct (Qlt_bool _ _).
    + intros _ Hlt. destruct (Qlt_bool _ _) eqn:B; [done|].
      apply Qlt_bool_false in B. lra.
    + intros _ Hle. destruct (Qlt_bool _ _) eqn:B; [|done].
      apply Qlt_bool_true in B. lra.
  - assert (has_pending uid st) as Hyes.
    { assert (r ∈ VpsMain.get_user_pending_requests uid st) as Hin
        by (rewrite E; left).
      apply pending_requests_spec in Hin as (rid & ? & ? & ?).
      by exists rid, r. }
    cbn [fst snd]. split; [done|]. split; [|split].
    + split; [eauto|done].
    + intros Hno. by destruct Hno.
    + intros Hno. by destruct Hno.
Qed.

Lemma payout_menu_guard_witness :
  (exists n, snd (VpsMain.payout_menu cfg0 42 (set_balance user10 0) st_pending)
             = RPendingExists n) /\
  snd (VpsMain.payout_menu cfg0 42 user10 st10) = RPayoutOptions /\
  snd (VpsMain.payout_menu cfg0 42 (set_balance user10 0) st_done)
    = RInsufficientBalance.
Proof.
  split; [|split].
  - apply (payout_menu_guard cfg0 42 (set_balance user10 0) st_pending).
    exists "REQ_1000050_1234", req_pending. split; [reflexivity|]. split; reflexivity.
  - apply (payout_menu_guard cfg0 42 user10 st10).
    + intros (rid & r & Hr & _). unfold st10 in Hr. cbn [payout_requests] in Hr.
      by rewrite lookup_empty in Hr.
    + vm_compute. discriminate.
  - apply (payout_menu_guard cfg0 42 (set_balance user10 0) st_done).
    + intros (rid & r & Hr & _ & Hs). unfold st_done in Hr.
      cbn [payout_requests] in Hr.
      apply lookup_singleton_Some in Hr as [_ <-]. discriminate Hs.
    + vm_compute. reflexivity.
Defined.

(** X15.  Once a user's earnings of the day have reached the daily limit, the
    task menu and every task button answer "daily limit reached" and change
    nothing: no timer is started, and a started task whose wait is over is
    not rewarded and keeps its timer. *)
Theorem daily_limit_blocks_tasks :
  forall cfg now uid u k task st,
    users st !! uid = Some u ->
    date_of now <= date_of (last_activity u) ->
    (DAILY_LIMIT cfg <= daily_earned u)%Q ->
    VpsMain.task_button cfg now uid k task st = (st, RDailyLimitReached) /\
    VpsMain.button cfg now uid "tasks" st = (st, RDailyLimitReached).
Proof.
  intros cfg now uid u k task st Hu Hd Hl.
  assert (can_earn_today cfg now uid st = (st, false)) as Hc.
  { unfold can_earn_today, get_user. rewrite Hu.
    assert ((date_of (last_activity u) <? date_of now) = false) as ->
      by (apply Z.ltb_ge; lia).
    f_equal. unfold Qlt_bool. by rewrite (proj2 (Qle_bool_iff _ _) Hl). }
  split.
  - unfold VpsMain.task_button. by rewrite Hc.
  - assert (get_user now uid st = (st, u)) as Hg
      by (unfold get_user; by rewrite Hu).
    unfold VpsMain.button. rewrite Hg.
    change (String.eqb "tasks" "tasks") with true. cbv iota. by rewrite Hc.
Qed.

Lemma daily_limit_blocks_tasks_witness :
  VpsMain.task_button cfg0 1000040 42 "like" (mkTask 1 30) st_limit_reached
    = (st_limit_reached, RDailyLimitReached) /\
  VpsMain.button cfg0 1000040 42 "tasks" st_limit_reached
    = (st_limit_reached, RDailyLimitReached).
Proof.
  apply (daily_limit_blocks_tasks cfg0 1000040%Q 42
           (mkUser 100 100 100 0 100 1000000 800000) "like" (mkTask 1 30)
           st_limit_reached).
  - reflexivity.
  - vm_compute. discriminate.
  - vm_compute. discriminate.
Defined.

End PendingRequests.

Section LastSecond.

Lemma Qfloor_nonpos_iff x : Qfloor x <= 0 <-> (x < 1)%Q.
Proof.
  split.
  - intros H. eapply Qlt_le_trans; [apply Qlt_floor|].
    change 1%Q with (inject_Z 1). rewrite <- Zle_Qle. lia.
  - intros H. assert (Qfloor x < 1); [|lia].
    rewrite Zlt_Qlt. eapply Qle_lt_trans; [apply Qfloor_le|exact H].
Qed.

Lemma api_completed_iff now uid k w st t0 :
  api_attempt st uid k = Some t0 ->
  ApiBot.is_task_completed now uid k w st = true <-> (w <= now - t0)%Q.
Proof.
  intros Ha. unfold ApiBot.is_task_completed. unfold api_attempt in Ha.
  rewrite Ha. apply Qle_bool_iff.
Qed.

Lemma api_remaining_zero_iff now uid k w st t0 :
  api_attempt st uid k = Some t0 ->
  ApiBot.get_remaining_time now uid k w st = 0 <-> (w - (now - t0) < 1)%Q.
Proof.
  intros Ha. rewrite (api_remaining_some now w uid k st t0 Ha).
  rewrite <- Qfloor_nonpos_iff. lia.
Qed.

(** X16.  The last second of a wait in [part_000].  With a running timer,
    [is_task_completed] holds from the end of the wait on, while
    [get_remaining_time] is already 0 when less than one second is left.  A
    claim in between, and only then, is answered "task not started yet"
    although the task was started; it changes nothing. *)
Theorem last_second_reported_not_started :
  forall now uid k rewards st task t0,
    ApiBot.find_task k st = Some task ->
    api_attempt st uid k = Some t0 ->
    let w := default 30%Q (ApiBot.waitTime task) in
    (ApiBot.is_task_completed now uid k w st = true <-> (w <= now - t0)%Q) /\
    (ApiBot.get_remaining_time now uid k w st = 0 <-> (w - (now - t0) < 1)%Q) /\
    (snd (ApiBot.claim now uid k rewards st) = ApiBot.RTaskNotStarted
     <-> (now - t0 < w)%Q /\ (w - (now - t0) < 1)%Q) /\
    (snd (ApiBot.claim now uid k rewards st) = ApiBot.RTaskNotStarted ->
     fst (ApiBot.claim now uid k rewards st) = st).
Proof.
  intros now uid k rewards st task t0 Ht Ha w.
  pose proof (api_completed_iff now uid k w st t0 Ha) as Hc.
  pose proof (api_remaining_zero_iff now uid k w st t0 Ha) as Hr.
  split; [exact Hc|]. split; [exact Hr|].
  unfold ApiBot.claim. rewrite Ht. fold w.
  destruct (ApiBot.is_task_completed now uid k w st) eqn:E; cbn [negb].
  - assert (w <= now - t0)%Q as Hw by by apply Hc.
    destruct (ApiBot.add_user_earnings uid _ st) as [st1 ok].
    split.
    + split; [by destruct ok|]. intros [Hlt _]. lra.
    + by destruct ok.
  - assert (now - t0 < w)%Q as Hw.
    { apply Qnot_le_lt. intros Hle. apply Hc in Hle. congruence. }
    destruct (0 <? ApiBot.get_remaining_time now uid k w st) eqn:B.
    + apply Z.ltb_lt in B. split; [|done]. split; [done|].
      intros [_ Hlt]. apply Hr in Hlt. lia.
    + apply Z.ltb_ge in B. split; [|done]. split; [|done]. intros _.
      split; [done|]. apply Hr.
      rewrite (api_remaining_some now w uid k st t0 Ha) in *. lia.
Qed.

Lemma last_second_reported_not_started_witness :
  snd (ApiBot.claim (2000059 # 2) 42 "like" rewards0 ast_started)
    = ApiBot.RTaskNotStarted /\
  fst (ApiBot.claim (2000059 # 2) 42 "like" rewards0 ast_started) = ast_started.
Proof.
  destruct (last_second_reported_not_started (2000059 # 2)%Q 42 "like" rewards0
              ast_started (ApiBot.mkTask "like" None) 1000000%Q)
    as (_ & _ & C & D); [reflexivity|reflexivity|].
  assert (snd (ApiBot.claim (2000059 # 2) 42 "like" rewards0 ast_started)
          = ApiBot.RTaskNotStarted) as H.
  { apply C. split; vm_compute; reflexivity. }
  split; [exact H|exact (D H)].
Defined.

End LastSecond.

Section TimerRoundTrip.

Lemma nested_insert_lookup (m : gmap Z (gmap string Q)) uid k t uid' k' :
  (<[uid := <[k := t]> (default ∅ (m !! uid))]> m) !! uid' ≫= (fun ts => ts !! k')
  = if decide (uid = uid' /\ k = k') then Some t
    else m !! uid' ≫= (fun ts => ts !! k').
Proof.
  destruct (decide (uid = uid')) as [<-|Hne].
  - rewrite lookup_insert_eq. cbn.
    destruct (decide (k = k')) as [<-|Hk].
    + rewrite lookup_insert_eq. by rewrite decide_True.
    + rewrite lookup_insert_ne by done. rewrite decide_False by tauto.
      by destruct (m !! uid).
  - rewrite lookup_insert_ne by done. by rewrite decide_False by tauto.
Qed.

Lemma nested_delete_lookup (m : gmap Z (gmap string Q)) uid k ts uid' k' :
  m !! uid = Some ts ->
  (<[uid := delete k ts]> m) !! uid' ≫= (fun ts => ts !! k')
  = if decide (uid = uid' /\ k = k') then None
    else m !! uid' ≫= (fun ts => ts !! k').
Proof.
  intros Hts. destruct (decide (uid = uid')) as [<-|Hne].
  - rewrite lookup_insert_eq. cbn.
    destruct (decide (k = k')) as [<-|Hk].
    + rewrite lookup_delete_eq. by rewrite decide_True.
    + rewrite lookup_delete_ne by done. rewrite decide_False by tauto.
      by rewrite Hts.
  - rewrite lookup_insert_ne by done. by rewrite decide_False by tauto.
Qed.

(** X17.  The timers of [TaskManager] ([part_000]) and of [bot.py].  Starting a
    task records the start time for that user and task, replacing an older
    one, and completing it removes that timer; either way the timers of
    every other user and of every other task stay as they were. *)
Theorem timers_round_trip :
  (forall now uid k st uid' k',
      api_attempt (ApiBot.start_task now uid k st) uid' k'
        = if decide (uid = uid' /\ k = k') then Some now
          else api_attempt st uid' k') /\
  (forall uid k st uid' k',
      api_attempt (ApiBot.complete_task uid k st) uid' k'
        = if decide (uid = uid' /\ k = k') then None
          else api_attempt st uid' k') /\
  (forall now uid k st,
      api_attempt (ApiBot.complete_task uid k (ApiBot.start_task now uid k st)) uid k
        = None) /\
  (forall now uid k st uid' k',
      botpy_attempt (BotPy.start_task_timer now uid k st) uid' k'
        = if decide (uid = uid' /\ k = k') then Some now
          else botpy_attempt st uid' k').
Proof.
  assert (forall uid k st uid' k',
      api_attempt (ApiBot.complete_task uid k st) uid' k'
        = if decide (uid = uid' /\ k = k') then None
          else api_attempt st uid' k') as B.
  { intros uid k st uid' k'. unfold api_attempt, ApiBot.complete_task.
    destruct (ApiBot.active_tasks st !! uid) as [ts|] eqn:Hts.
    - destruct (ts !! k) as [t|] eqn:Hk.
      + cbn [ApiBot.active_tasks ApiBot.set_active].
        by apply nested_delete_lookup.
      + case_decide as Hd; [|done]. destruct Hd as [<- <-].
        by rewrite Hts.
    - case_decide as Hd; [|done]. destruct Hd as [<- <-]. by rewrite Hts. }
  split; [|split; [exact B|split]].
  - intros. unfold api_attempt, ApiBot.start_task.
    cbn [ApiBot.active_tasks ApiBot.set_active]. apply nested_insert_lookup.
  - intros. rewrite B. by rewrite decide_True.
  - intros. unfold botpy_attempt, BotPy.start_task_timer.
    cbn [BotPy.user_tasks BotPy.set_tasks]. apply nested_insert_lookup.
Qed.

End TimerRoundTrip.

Section CallbackData.

Lemma prefix_app a b : String.prefix a (a +:+ b) = true.
Proof.
  induction a as [|c a IH].
  - change ("" +:+ b) with b. by destruct b.
  - change (String c a +:+ b) with (String c (a +:+ b)). cbn [String.prefix].
    destruct (ascii_dec c c); [exact IH|done].
Qed.

Lemma substring_all s : String.substring 0 (String.length s) s = s.
Proof. induction s as [|c s IH]; cbn; [done|]. by rewrite IH. Qed.

Lemma substring_skip a b n :
  String.substring (String.length a) n (a +:+ b) = String.substring 0 n b.
Proof.
  induction a as [|c a IH]; [done|].
  change (String c a +:+ b) with (String c (a +:+ b)). exact IH.
Qed.

Lemma length_app a b :
  String.length (a +:+ b) = (String.length a + String.length b)%nat.
Proof.
  induction a as [|c a IH]; [done|].
  change (String c a +:+ b) with (String c (a +:+ b)). cbn [String.length].
  by rewrite IH.
Qed.

Lemma remove_all_aux_absent old fuel : forall s,
  str_contains old s = false -> remove_all_aux fuel old s = s.
Proof.
  induction fuel as [|fuel IH]; intros s Hs; cbn; [done|].
  destruct s as [|c s]; [done|].
  cbn [str_contains] in Hs. apply orb_false_elim in Hs as [Hp Hs].
  rewrite Hp. by rewrite IH.
Qed.

(** Cutting the prefix out of callback data with [replace] gives back the
    key the button was built from, provided the key does not contain the
    prefix itself. *)
Lemma remove_all_prefix old k :
  old <> "" -> str_contains old k = false -> remove_all old (old +:+ k) = k.
Proof.
  intros Hne Hk. unfold remove_all. destruct old as [|c o]; [done|].
  assert (String.length (String c o +:+ k)
          = S (String.length o + String.length k)) as El
    by (rewrite length_app; done).
  assert (String c o +:+ k = String c (o +:+ k)) as Es by done.
  rewrite El, Es. cbn [remove_all_aux]. rewrite <- Es.
  rewrite prefix_app, El, substring_skip.
  replace (S (String.length o + String.length k) - String.length (String c o))%nat
    with (String.length k) by (cbn [String.length]; lia).
  rewrite substring_all. by apply remove_all_aux_absent.
Qed.

Lemma split_on_no_sep sep s :
  str_all (fun c => negb (Ascii.eqb c sep)) s = true -> split_on sep s = [s].
Proof.
  induction s as [|c s IH]; cbn; [done|]. intros H.
  apply andb_prop in H as [Hc Hs]. apply negb_true_iff in Hc. rewrite Hc.
  by rewrite (IH Hs).
Qed.

Lemma split_payout m :
  str_all (fun c => negb (Ascii.eqb c "_")) m = true ->
  split_on "_" ("payout_" +:+ m) = ["payout"; m].
Proof.
  intros H.
  assert ("payout_" +:+ m
          = String "p" (String "a" (String "y" (String "o" (String "u"
              (String "t" (String "_" m))))))) as -> by done.
  cbn. by rewrite (split_on_no_sep _ _ H).
Qed.

(** X18.  The callback data of the buttons decode to what they were built from.
    [verify_<key>] reaches the reward claim of [bot.py] for that key, and
    [claim_task_<key>], [confirm_task_<key>] and [task_<key>] reach the
    handlers of [part_000] for that key, when the key does not contain the
    prefix; [payout_<method>] reaches the method step of
    [bot_complete_vps.py] for that method when the method has no underscore. *)
Theorem callback_data_round_trip :
  (forall cfg now uid uname nm k st,
      str_contains "verify_" k = false ->
      BotPy.TASKS cfg !! ("verify_" +:+ k) = None ->
      BotPy.handle_callback cfg now uid uname nm ("verify_" +:+ k) st
        = BotPy.verify cfg now uid k
            (BotPy.reset_daily_tasks now (BotPy.ensure_user now uid uname nm None st))) /\
  (forall now k uid rewards st,
      str_contains "claim_task_" k = false ->
      ApiBot.handle_task_claim now ("claim_task_" +:+ k) uid rewards st
        = ApiBot.claim now uid k rewards st) /\
  (forall now posted k uid st,
      str_contains "confirm_task_" k = false ->
      fst (ApiBot.handle_task_confirm now posted ("confirm_task_" +:+ k) uid st)
        = ApiBot.start_task now uid k st) /\
  (forall now today k uid user daily_limit st,
      str_contains "task_" k = false ->
      ApiStart.handle_task_start now today ("task_" +:+ k) uid user daily_limit st
        = ApiStart.start_request now today uid k user daily_limit st) /\
  (forall cfg now uid m st,
      str_all (fun c => negb (Ascii.eqb c "_")) m = true ->
      VpsMain.button cfg now uid ("payout_" +:+ m) st
        = VpsMain.payout_method_chosen cfg uid ("payout_" +:+ m)
            (snd (Ledger.get_user now uid st)) (fst (Ledger.get_user now uid st)) /\
      (snd (VpsMain.button cfg now uid ("payout_" +:+ m) st)
         = Ledger.RInsufficientFor m \/
       exists amt, snd (VpsMain.button cfg now uid ("payout_" +:+ m) st)
                   = Ledger.RAskAddress m amt)).
Proof.
  split; [|split; [|split; [|split]]].
  - intros cfg now uid uname nm k st Hk Ht. unfold BotPy.handle_callback.
    assert (is_Some (BotPy.users
              (BotPy.reset_daily_tasks now
                 (BotPy.ensure_user now uid uname nm None st)) !! uid)) as [u Hu].
    { unfold BotPy.reset_daily_tasks. cbn [BotPy.users BotPy.set_users].
      rewrite lookup_fmap. unfold BotPy.ensure_user.
      destruct (BotPy.users st !! uid) as [u|] eqn:E.
      - rewrite E. by eexists.
      - cbn [BotPy.users BotPy.set_users]. rewrite lookup_insert_eq. by eexists. }
    rewrite Hu, Ht. unfold startswith.
    rewrite (prefix_app "verify_" k). by rewrite remove_all_prefix.
  - intros now k uid rewards st Hk. unfold ApiBot.handle_task_claim.
    by rewrite remove_all_prefix.
  - intros now posted k uid st Hk. unfold ApiBot.handle_task_confirm. cbn [fst].
    by rewrite remove_all_prefix.
  - intros now today k uid user daily_limit st Hk.
    unfold ApiStart.handle_task_start. by rewrite remove_all_prefix.
  - intros cfg now uid m st Hm.
    assert (VpsMain.button cfg now uid ("payout_" +:+ m) st
            = VpsMain.payout_method_chosen cfg uid ("payout_" +:+ m)
                (snd (Ledger.get_user now uid st))
                (fst (Ledger.get_user now uid st))) as E.
    { unfold VpsMain.button. destruct (Ledger.get_user now uid st) as [st1 user].
      cbn [fst snd]. unfold startswith. by rewrite (prefix_app "payout_" m). }
    split; [exact E|]. rewrite E. unfold VpsMain.payout_method_chosen.
    rewrite (split_payout m Hm).
    destruct (Qlt_bool _ _); cbn [snd]; [by left|right; eauto].
Qed.

End CallbackData.

Section CallbackDataExamples.

Lemma callback_data_round_trip_witness :
  BotPy.handle_callback bcfg0 1000010 42 "bob" "Bob" ("verify_" +:+ "like") bst_started
    = BotPy.verify bcfg0 1000010 42 "like"
        (BotPy.reset_daily_tasks 1000010
           (BotPy.ensure_user 1000010 42 "bob" "Bob" None bst_started)) /\
  ApiBot.handle_task_claim 1000010 ("claim_task_" +:+ "like") 42 rewards0 ast_started
    = ApiBot.claim 1000010 42 "like" rewards0 ast_started /\
  fst (ApiBot.handle_task_confirm 1000010 true ("confirm_task_" +:+ "like") 42 ast_idle)
    = ApiBot.start_task 1000010 42 "like" ast_idle /\
  ApiStart.handle_task_start 1000010 11 ("task_" +:+ "like") 42 api_user_yesterday 5
    ast_idle
    = ApiStart.start_request 1000010 11 42 "like" api_user_yesterday 5 ast_idle /\
  VpsMain.button cfg0 1000010 42 ("payout_" +:+ "faucetpay") st10
    = VpsMain.payout_method_chosen cfg0 42 ("payout_" +:+ "faucetpay")
        (snd (Ledger.get_user 1000010 42 st10)) (fst (Ledger.get_user 1000010 42 st10)).
Proof.
  destruct callback_data_round_trip as (A & B & C & D & E).
  split; [|split; [|split; [|split]]].
  - apply A; reflexivity.
  - apply B; reflexivity.
  - apply C; reflexivity.
  - apply D; reflexivity.
  - apply (E cfg0 1000010%Q 42 "faucetpay" st10). reflexivity.
Defined.

End CallbackDataExamples.

Section RestartedTask.

Lemma api_start_task_attempt now uid k st :
  api_attempt (ApiBot.start_task now uid k st) uid k = Some now.
Proof.
  unfold api_attempt, ApiBot.start_task.
  cbn [ApiBot.active_tasks ApiBot.set_active].
  rewrite nested_insert_lookup. by rewrite decide_True.
Qed.

(** X19.  Starting a task in [part_000].  [handle_task_start] answers "daily
    limit reached" or "task not found" when the user cannot earn or the task
    is unknown; with a running timer it refuses while at least one whole
    second of the wait is left, and otherwise, also when the wait is over
    and the reward was not claimed, it offers the confirmation.  The
    confirmed start replaces the start time by the current one, so that no
    claim is rewarded before a whole new wait has passed. *)
Theorem start_of_a_task :
  (forall now today uid k user daily_limit st,
      ApiBot.can_earn_today today user daily_limit = false ->
      ApiStart.start_request now today uid k user daily_limit st
        = ApiStart.RDailyLimitReached) /\
  (forall now today uid k user daily_limit st,
      ApiBot.can_earn_today today user daily_limit = true ->
      ApiBot.find_task k st = None ->
      ApiStart.start_request now today uid k user daily_limit st
        = ApiStart.RTaskNotFound) /\
  (forall now today uid k user daily_limit st task,
      ApiBot.can_earn_today today user daily_limit = true ->
      ApiBot.find_task k st = Some task ->
      api_attempt st uid k = None ->
      ApiStart.start_request now today uid k user daily_limit st
        = ApiStart.RConfirmation k) /\
  (forall now today uid k user daily_limit st task t0,
      ApiBot.can_earn_today today user daily_limit = true ->
      ApiBot.find_task k st = Some task ->
      api_attempt st uid k = Some t0 ->
      (1 <= default 30%Q (ApiBot.waitTime task) - (now - t0))%Q ->
      ApiStart.start_request now today uid k user daily_limit st
        = ApiStart.RAlreadyInProgress
            (Qfloor (default 30%Q (ApiBot.waitTime task) - (now - t0)))) /\
  (forall now today uid k user daily_limit st task t0,
      ApiBot.can_earn_today today user daily_limit = true ->
      ApiBot.find_task k st = Some task ->
      api_attempt st uid k = Some t0 ->
      (default 30%Q (ApiBot.waitTime task) - (now - t0) < 1)%Q ->
      ApiStart.start_request now today uid k user daily_limit st
        = ApiStart.RConfirmation k) /\
  (forall now now' uid k rewards st task earned,
      ApiBot.find_task k st = Some task ->
      (now' - now < default 30%Q (ApiBot.waitTime task))%Q ->
      api_attempt (ApiBot.start_task now uid k st) uid k = Some now /\
      snd (ApiBot.claim now' uid k rewards (ApiBot.start_task now uid k st))
        <> ApiBot.RCongratulations earned).
Proof.
  split; [|split; [|split; [|split; [|split]]]].
  - intros now today uid k user daily_limit st Hc.
    unfold ApiStart.start_request. by rewrite Hc.
  - intros now today uid k user daily_limit st Hc Ht.
    unfold ApiStart.start_request. by rewrite Hc, Ht.
  - intros now today uid k user daily_limit st task Hc Ht Ha.
    unfold ApiStart.start_request. rewrite Hc, Ht. cbv zeta.
    by rewrite (api_remaining_none now _ uid k st Ha).
  - intros now today uid k user daily_limit st task t0 Hc Ht Ha Hw.
    unfold ApiStart.start_request. rewrite Hc, Ht. cbv zeta.
    rewrite (api_remaining_some now _ uid k st t0 Ha).
    pose proof (Qfloor_ge_1 _ Hw) as Hf. rewrite Z.max_r by lia.
    destruct (0 <? _) eqn:B; [done|]. apply Z.ltb_ge in B. lia.
  - intros now today uid k user daily_limit st task t0 Hc Ht Ha Hw.
    unfold ApiStart.start_request. rewrite Hc, Ht. cbv zeta.
    apply (api_remaining_zero_iff now uid k _ st t0 Ha) in Hw. by rewrite Hw.
  - intros now now' uid k rewards st task earned Ht Hw.
    pose proof (api_start_task_attempt now uid k st) as Ha.
    split; [exact Ha|].
    unfold ApiBot.claim.
    assert (ApiBot.find_task k (ApiBot.start_task now uid k st) = Some task) as ->
      by exact Ht.
    cbv zeta. unfold ApiBot.is_task_completed. unfold api_attempt in Ha.
    rewrite Ha. rewrite Qle_bool_lt_false by done. cbn [negb].
    by destruct (0 <? _).
Qed.

Lemma start_of_a_task_witness :
  ApiStart.start_request 1000010 10 42 "like" api_user_yesterday 5 ast_started
    = ApiStart.RDailyLimitReached /\
  ApiStart.start_request 1000010 11 42 "visit" api_user_yesterday 5 ast_started
    = ApiStart.RTaskNotFound /\
  ApiStart.start_request 1000010 11 42 "like" api_user_yesterday 5 ast_idle
    = ApiStart.RConfirmation "like" /\
  ApiStart.start_request 1000010 11 42 "like" api_user_yesterday 5 ast_started
    = ApiStart.RAlreadyInProgress (Qfloor (30 - (1000010 - 1000000))) /\
  ApiStart.start_request 1000040 11 42 "like" api_user_yesterday 5 ast_started
    = ApiStart.RConfirmation "like" /\
  snd (ApiBot.claim 1000050 42 "like" rewards0
         (ApiBot.start_task 1000040 42 "like" ast_started))
    <> ApiBot.RCongratulations 1.
Proof.
  destruct start_of_a_task as (A & B & C & D & E & F).
  split; [|split; [|split; [|split; [|split]]]].
  - apply A. reflexivity.
  - apply B; reflexivity.
  - apply (C _ _ _ _ _ _ _ (ApiBot.mkTask "like" None)); reflexivity.
  - apply (D 1000010%Q 11 42 "like" api_user_yesterday 5%Q ast_started
             (ApiBot.mkTask "like" None) 1000000%Q);
      [reflexivity|reflexivity|reflexivity|vm_compute; discriminate].
  - apply (E 1000040%Q 11 42 "like" api_user_yesterday 5%Q ast_started
             (ApiBot.mkTask "like" None) 1000000%Q);
      [reflexivity|reflexivity|reflexivity|vm_compute; reflexivity].
  - apply (F 1000040%Q 1000050%Q 42 "like" rewards0 ast_started
             (ApiBot.mkTask "like" None) 1%Q); [reflexivity|vm_compute; reflexivity].
Defined.

End RestartedTask.

Section LinkButtons.
Import Buttons.

Lemma row_full key pre a b rest :
  row key (pre ++ a :: b :: rest) (List.length pre)
  = [mkButton (numbered key (List.length pre + 1)) a;
     mkButton (numbered key (List.length pre + 2)) b].
Proof.
  unfold row. cbn [flat_map]. rewrite !List.length_app. cbn [List.length].
  rewrite Nat.add_0_r.
  assert ((List.length pre <? List.length pre + S (S (List.length rest)))%nat = true)
    as -> by (apply Nat.ltb_lt; lia).
  assert ((List.length pre + 1 <? List.length pre + S (S (List.length rest)))%nat = true)
    as -> by (apply Nat.ltb_lt; lia).
  rewrite (lookup_app_r pre) by lia. rewrite Nat.sub_diag. cbn [lookup list_lookup].
  rewrite (lookup_app_r pre) by lia.
  replace (List.length pre + 1 - List.length pre)%nat with 1%nat by lia.
  cbn. by replace (List.length pre + 1 + 1)%nat with (List.length pre + 2)%nat by lia.
Qed.

Lemma row_last key pre a :
  row key (pre ++ [a]) (List.length pre)
  = [mkButton (numbered key (List.length pre + 1)) a].
Proof.
  unfold row. cbn [flat_map]. rewrite !List.length_app. cbn [List.length].
  rewrite Nat.add_0_r.
  assert ((List.length pre <? List.length pre + 1)%nat = true)
    as -> by (apply Nat.ltb_lt; lia).
  assert ((List.length pre + 1 <? List.length pre + 1)%nat = false)
    as -> by (apply Nat.ltb_ge; lia).
  rewrite (lookup_app_r pre) by lia. rewrite Nat.sub_diag. done.
Qed.

(** The rows built by the two loops, read off two links at a time. *)
Lemma rows_spec key : forall n rest pre,
  List.length rest = n -> List.length pre = (2 * Nat.div2 (List.length pre))%nat ->
  concat (List.map (row key (pre ++ rest))
            (List.map (fun q => 2 * q)%nat
               (seq (Nat.div2 (List.length pre)) (Nat.div2 (S n)))))
  = imap (fun i u => mkButton (numbered key (List.length pre + i + 1)) u) rest /\
  Forall (fun r => r <> [] /\ (List.length r <= 2)%nat)
    (List.map (row key (pre ++ rest))
       (List.map (fun q => 2 * q)%nat
          (seq (Nat.div2 (List.length pre)) (Nat.div2 (S n))))).
Proof.
  induction n as [n IH] using lt_wf_ind. intros rest pre Hn Hpre.
  destruct rest as [|a [|b rest]].
  - subst n. cbn. split; [done|constructor].
  - subst n. cbn [List.length Nat.div2 seq List.map concat]. rewrite <- Hpre.
    rewrite row_last. cbn. rewrite Nat.add_0_r. split; [done|].
    constructor; [split; [done|cbn; lia]|constructor].
  - subst n.
    change (Nat.div2 (S (List.length (a :: b :: rest))))
      with (S (Nat.div2 (S (List.length rest)))).
    cbn [seq List.map concat]. rewrite <- Hpre.
    rewrite row_full.
    assert (pre ++ a :: b :: rest = (pre ++ [a; b]) ++ rest) as E
      by by rewrite <- app_assoc.
    assert (List.length (pre ++ [a; b]) = S (S (List.length pre))) as El
      by (rewrite List.length_app; cbn; lia).
    assert (Nat.div2 (List.length (pre ++ [a; b])) = S (Nat.div2 (List.length pre)))
      as Ed by (rewrite El; done).
    destruct (IH (List.length rest) ltac:(cbn; lia) rest (pre ++ [a; b]) eq_refl) as [IH1 IH2].
    { rewrite Ed, El. lia. }
    rewrite Ed in IH1, IH2. rewrite E, IH1. split.
    + cbn [app imap]. rewrite !Nat.add_0_r. f_equal. unfold compose. f_equal.
      { by replace (List.length pre + 1 + 1)%nat with (List.length pre + 2)%nat by lia. }
      apply imap_ext. intros i u _. cbv beta. f_equal. f_equal. rewrite El. lia.
    + constructor; [split; [done|cbn; lia]|exact IH2].
Qed.

(** X20.  [get_task_buttons] shows every link of a task exactly once, in the
    order of the list and numbered from 1, in rows of one or two buttons;
    with an empty or missing list it shows the single ["link"], if any, in a
    row of its own. *)
Theorem task_buttons_cover_links :
  (forall key l ls lk,
      concat (get_task_buttons key (mkLinks (Some (l :: ls)) lk))
        = imap (fun i u => mkButton (numbered key (i + 1)) u) (l :: ls) /\
      Forall (fun r => r <> [] /\ (List.length r <= 2)%nat)
        (get_task_buttons key (mkLinks (Some (l :: ls)) lk)) /\
      List.length (get_task_buttons key (mkLinks (Some (l :: ls)) lk))
        = Nat.div2 (S (List.length (l :: ls)))) /\
  (forall key ls u,
      ls = None \/ ls = Some [] ->
      get_task_buttons key (mkLinks ls (Some u))
        = [[mkButton (if String.eqb key "visit" then ArticleLink else TaskLink) u]]) /\
  (forall key ls,
      ls = None \/ ls = Some [] ->
      get_task_buttons key (mkLinks ls None) = []).
Proof.
  split; [|split].
  - intros key l ls lk. unfold get_task_buttons. cbn [links]. unfold range2.
    destruct (rows_spec key (List.length (l :: ls)) (l :: ls) [] eq_refl eq_refl)
      as [H1 H2].
    change (Nat.div2 (@List.length string [])) with 0%nat in H1, H2.
    change ([] ++ l :: ls) with (l :: ls) in H1, H2. split; [|split].
    + rewrite H1. apply imap_ext. intros i u _. done.
    + exact H2.
    + by rewrite !length_map, length_seq.
  - intros key ls u [->| ->]; unfold get_task_buttons; cbn [links link];
      by destruct (String.eqb key "visit").
  - intros key ls [->| ->]; done.
Qed.

Lemma task_buttons_cover_links_witness :
  concat (get_task_buttons "visit"
            (mkLinks (Some ["https://a"; "https://b"; "https://c"]) None))
    = [mkButton (ArticleN 1) "https://a"; mkButton (ArticleN 2) "https://b";
       mkButton (ArticleN 3) "https://c"] /\
  List.length (get_task_buttons "visit"
                 (mkLinks (Some ["https://a"; "https://b"; "https://c"]) None))
    = 2%nat /\
  get_task_buttons "visit" (mkLinks (Some []) (Some "https://a"))
    = [[mkButton ArticleLink "https://a"]] /\
  get_task_buttons "like" (mkLinks None None) = [].
Proof.
  destruct task_buttons_cover_links as (A & B & C).
  destruct (A "visit" "https://a" ["https://b"; "https://c"] None) as (A1 & _ & A3).
  split; [exact A1|].
  split; [exact A3|].
  split.
  - apply (B "visit" (Some []) "https://a"). by right.
  - apply (C "like" None). by left.
Defined.

End LinkButtons.
